(** * Supervisor / worker orchestration: a shallow embedding of the Python code

    The development follows the source files one module at a time:
    - [Py]         the Python values, dictionaries, slices and exceptions the
                   program manipulates, and the state-and-exception monad in
                   which its effectful code is written;
    - [Config]     config.py  (the settings read from the process environment);
    - [Models]     models.py  (messages, bounded memory, worker and run state);
    - [Workers]    workers.py (the registry and the dispatch function);
    - [Supervisor] supervisor.py (analysis, questions, planning, coordination,
                   synthesis, memory update);
    - [Workflow]   workflow.py (stage handlers, routing, the graph run,
                   [process_query]).

    The reasoning collaborator (the chat model), [json.loads] and the wording
    of interpreter and library messages are outside the repository; they are
    the fields of the record [Py.Env], over which every statement quantifies. *)

From Stdlib Require Import String Ascii ZArith Bool Arith Lia.
From Stdlib Require Import Floats.SpecFloat.
From Stdlib Require Import List.
Import ListNotations.

Set Warnings "-register-all,-notation-for-abbreviation".

(* ================================================================== *)
(** * Python values and effects *)
(* ================================================================== *)
Module Py.

Local Open Scope string_scope.

(** Values as [json.loads] produces them, which is also what the program
    stores in its [Dict[str, Any]] fields.  A [VDict] keeps insertion order,
    as Python dictionaries do. *)
Inductive pyval : Type :=
| VNone
| VBool (b : bool)
| VInt (z : Z)
| VFloat (f : spec_float)
| VStr (s : string)
| VList (l : list pyval)
| VDict (d : list (pyval * pyval)).

(** Truth value of an object in a condition ([if x:]). *)
Definition truthy (v : pyval) : bool :=
  match v with
  | VNone => false
  | VBool b => b
  | VInt z => negb (z =? 0)%Z
  | VFloat (S754_zero _) => false
  | VFloat _ => true
  | VStr s => negb (s =? "")
  | VList l => match l with [] => false | _ => true end
  | VDict d => match d with [] => false | _ => true end
  end.

(** Lists and dictionaries are unhashable: using one as a key, or testing
    it for membership in a dictionary, raises [TypeError]. *)
Definition hashable (v : pyval) : bool :=
  match v with
  | VList _ | VDict _ => false
  | _ => true
  end.

(** ** Equality of dictionary keys

    Strings compare with strings, [None] with [None]; booleans, integers and
    floats compare by numeric value ([True == 1 == 1.0]).  The only NaN a
    decoded document holds is the json module's single NaN object, which a
    dictionary finds again by identity. *)
Inductive number : Type :=
| NInt (z : Z)
| NFloat (f : spec_float).

Definition as_number (v : pyval) : option number :=
  match v with
  | VBool b => Some (NInt (if b then 1 else 0))
  | VInt z => Some (NInt z)
  | VFloat f => Some (NFloat f)
  | _ => None
  end.

Definition float_eq_int (f : spec_float) (z : Z) : bool :=
  match f with
  | S754_zero _ => (z =? 0)%Z
  | S754_finite s m e =>
      let a := if s then Z.neg m else Z.pos m in
      if (0 <=? e)%Z then (z =? a * 2 ^ e)%Z else (a =? z * 2 ^ (- e))%Z
  | _ => false
  end.

Definition float_eqb (f g : spec_float) : bool :=
  match f, g with
  | S754_nan, S754_nan => true
  | _, _ => SFeqb f g
  end.

Definition number_eqb (a b : number) : bool :=
  match a, b with
  | NInt x, NInt y => (x =? y)%Z
  | NInt x, NFloat f => float_eq_int f x
  | NFloat f, NInt x => float_eq_int f x
  | NFloat f, NFloat g => float_eqb f g
  end.

Definition key_eqb (a b : pyval) : bool :=
  match a, b with
  | VNone, VNone => true
  | VStr x, VStr y => (x =? y)
  | _, _ =>
      match as_number a, as_number b with
      | Some x, Some y => number_eqb x y
      | _, _ => false
      end
  end.

(** ** Insertion-ordered dictionaries

    [od_set] is [d[k] = v]: an existing key keeps its position (and its
    original key object), a new key goes last. *)
Section OrderedDict.
Context {K V : Type} (eqb : K -> K -> bool).

Fixpoint od_get (k : K) (d : list (K * V)) : option V :=
  match d with
  | [] => None
  | (k', v) :: d' => if eqb k' k then Some v else od_get k d'
  end.

Fixpoint od_set (k : K) (v : V) (d : list (K * V)) : list (K * V) :=
  match d with
  | [] => [(k, v)]
  | (k', v') :: d' =>
      if eqb k' k then (k', v) :: d' else (k', v') :: od_set k v d'
  end.

Definition od_keys (d : list (K * V)) : list K := map fst d.
Definition od_values (d : list (K * V)) : list V := map snd d.
End OrderedDict.

(** Dictionaries with string keys ([Dict[str, ...]] of the annotations). *)
Definition sdict (V : Type) : Type := list (string * V).
Definition sget {V} (k : string) (d : sdict V) : option V := od_get String.eqb k d.
Definition sset {V} (k : string) (v : V) (d : sdict V) : sdict V := od_set String.eqb k v d.

(** Dictionaries with arbitrary hashable keys (the payload of [VDict]). *)
Definition pdict : Type := list (pyval * pyval).
Definition pget (k : pyval) (d : pdict) : option pyval := od_get key_eqb k d.
Definition pset (k v : pyval) (d : pdict) : pdict := od_set key_eqb k v d.

(** ** Slices *)

(** [l[start:]] for any integer [start]. *)
Definition slice_from {A} (start : Z) (l : list A) : list A :=
  let n := Z.of_nat (length l) in
  let i := if (start <? 0)%Z then Z.max 0 (start + n) else Z.min start n in
  skipn (Z.to_nat i) l.

(** [l[:stop]] for a non-negative literal [stop]. *)
Definition slice_to {A} (stop : nat) (l : list A) : list A := firstn stop l.

(** ** Exceptions *)

Inductive type_error : Type :=
| NotIterable        (* iterating, or joining, a non-iterable *)
| NotSubscriptable   (* [x["key"]] on something that is not a dictionary *)
| Unhashable         (* a list or dictionary used as a key *)
| JoinItem.          (* [str.join] over an item that is not a string *)

Inductive exn : Type :=
| CollaboratorError (msg : string)            (* raised by the chat model call *)
| NameError (name : string)
| KeyError (key : string)
| AttributeError (v : pyval) (attr : string)
| TypeError (k : type_error) (v : pyval)
| ValidationError (model field : string) (v : pyval)   (* pydantic *)
| GraphRecursionError.

Inductive res (A : Type) : Type :=
| Ok (a : A)
| Raise (e : exn).
Arguments Ok {A} a.
Arguments Raise {A} e.

(** ** What lies outside the repository *)

Inductive llm_result : Type :=
| Content (text : string)      (* [response.content] *)
| Failure (msg : string).      (* the call raised; [msg] is [str(e)] *)

Record Env : Type := {
  (** outcome of the k-th call to the chat model made since the process
      started (all calls are sequential) *)
  llm : nat -> llm_result;
  (** [json.loads]; [None] stands for [json.JSONDecodeError] *)
  json_loads : string -> option pyval;
  (** [str(v)] for a value that is not a string, as an f-string renders it *)
  py_repr : pyval -> string;
  (** [str(e)] for the exceptions whose wording belongs to the interpreter
      or to pydantic *)
  lib_message : exn -> string
}.

(** [str(e)]. *)
Definition exn_str (env : Env) (e : exn) : string :=
  match e with
  | CollaboratorError msg => msg
  | NameError name => "name '" ++ name ++ "' is not defined"
  | KeyError key => "'" ++ key ++ "'"
  | _ => lib_message env e
  end.

(** [f"{v}"]. *)
Definition fmt (env : Env) (v : pyval) : string :=
  match v with
  | VStr s => s
  | _ => py_repr env v
  end.

(** ** Strings

    A Python [str] is represented by its UTF-8 encoding, one [ascii] per
    byte: a character above U+007F takes two to four bytes, the first of
    which is not of the form 10xxxxxx and the others are. *)

Definition newline : ascii := ascii_of_nat 10.

Definition is_continuation (c : ascii) : bool :=
  (128 <=? nat_of_ascii c)%nat && (nat_of_ascii c <? 192)%nat.

(** The characters of a string, as iterating over it yields them; [cur]
    is the character being read. *)
Fixpoint chars_from (cur : string) (s : string) : list string :=
  match s with
  | EmptyString => [cur]
  | String c s' =>
      if is_continuation c then chars_from (cur ++ String c EmptyString) s'
      else cur :: chars_from (String c EmptyString) s'
  end.

Definition chars (s : string) : list string :=
  match s with
  | EmptyString => []
  | String c s' => chars_from (String c EmptyString) s'
  end.

(** White space is what [str.isspace] accepts: U+0009 to U+000D and
    U+001C to U+0020 (one byte each); U+0085 and U+00A0 (C2 85, C2 A0);
    U+1680 (E1 9A 80); U+2000 to U+200A, U+2028, U+2029 and U+202F
    (E2 80 followed by 80 to 8A, A8, A9 or AF); U+205F (E2 81 9F);
    U+3000 (E3 80 80). *)
Definition is_space (a : ascii) : bool :=
  let n := nat_of_ascii a in
  ((9 <=? n)%nat && (n <=? 13)%nat) || ((28 <=? n)%nat && (n <=? 32)%nat).

Definition is_space2 (a b : ascii) : bool :=
  let y := nat_of_ascii b in
  (nat_of_ascii a =? 194)%nat && ((y =? 133)%nat || (y =? 160)%nat).

Definition is_space3 (a b c : ascii) : bool :=
  let x := nat_of_ascii a in
  let y := nat_of_ascii b in
  let z := nat_of_ascii c in
  ((x =? 225)%nat && (y =? 154)%nat && (z =? 128)%nat)
  || ((x =? 226)%nat && (y =? 128)%nat
      && (((128 <=? z)%nat && (z <=? 138)%nat)
          || (z =? 168)%nat || (z =? 169)%nat || (z =? 175)%nat))
  || ((x =? 226)%nat && (y =? 129)%nat && (z =? 159)%nat)
  || ((x =? 227)%nat && (y =? 128)%nat && (z =? 128)%nat).

(** The string is exactly one white-space character. *)
Definition is_space_char (s : string) : bool :=
  match s with
  | String a EmptyString => is_space a
  | String a (String b EmptyString) => is_space2 a b
  | String a (String b (String c EmptyString)) => is_space3 a b c
  | _ => false
  end.

(** The string without the white-space character it begins with, when it
    begins with one. *)
Definition drop_space (s : string) : option string :=
  match s with
  | String a s1 =>
      if is_space a then Some s1
      else
        match s1 with
        | String b s2 =>
            if is_space2 a b then Some s2
            else
              match s2 with
              | String c s3 => if is_space3 a b c then Some s3 else None
              | EmptyString => None
              end
        | EmptyString => None
        end
  | EmptyString => None
  end.

(** [s.lstrip()]: leading white-space characters are dropped one by one. *)
Fixpoint lstrip (s : string) : string :=
  match s with
  | String a s1 =>
      if is_space a then lstrip s1
      else
        match s1 with
        | String b s2 =>
            if is_space2 a b then lstrip s2
            else
              match s2 with
              | String c s3 => if is_space3 a b c then lstrip s3 else s
              | EmptyString => s
              end
        | EmptyString => s
        end
  | EmptyString => EmptyString
  end.

(** [s.rstrip()]: going from the right, a byte is put back in front of
    what is kept of the rest, and the result is dropped when it is one
    white-space character. *)
Fixpoint rstrip (s : string) : string :=
  match s with
  | String c s' =>
      let t := String c (rstrip s') in
      if is_space_char t then EmptyString else t
  | EmptyString => EmptyString
  end.

(** [s.strip()]. *)
Definition strip (s : string) : string := rstrip (lstrip s).

(** [s.split(sep)] for a one-character separator: the last component is
    the accumulator [cur] completed up to the end of the string. *)
Fixpoint split_on (sep : ascii) (s : string) (cur : string) : list string :=
  match s with
  | EmptyString => [cur]
  | String c s' =>
      if Ascii.eqb c sep then cur :: split_on sep s' EmptyString
      else split_on sep s' (cur ++ String c EmptyString)
  end.

Definition split (sep : ascii) (s : string) : list string := split_on sep s EmptyString.

(** [c in s] for an ASCII character [c]. *)
Fixpoint contains (c : ascii) (s : string) : bool :=
  match s with
  | EmptyString => false
  | String c' s' => Ascii.eqb c' c || contains c s'
  end.

(** ** Pure operations that may raise *)

(** [v.get(k, default)]: only dictionaries have a [get]. *)
Definition py_get (v : pyval) (k : string) (default : pyval) : res pyval :=
  match v with
  | VDict d => Ok (match pget (VStr k) d with Some x => x | None => default end)
  | _ => Raise (AttributeError v "get")
  end.

(** [v[k]] for a string literal [k]. *)
Definition py_item (v : pyval) (k : string) : res pyval :=
  match v with
  | VDict d => match pget (VStr k) d with Some x => Ok x | None => Raise (KeyError k) end
  | _ => Raise (TypeError NotSubscriptable v)
  end.

(** The items a [for] loop sees. *)
Definition py_iter (v : pyval) : res (list pyval) :=
  match v with
  | VList l => Ok l
  | VStr s => Ok (map VStr (chars s))
  | VDict d => Ok (od_keys d)
  | _ => Raise (TypeError NotIterable v)
  end.

Fixpoint all_strings (l : list pyval) : res (list string) :=
  match l with
  | [] => Ok []
  | VStr s :: l' =>
      match all_strings l' with
      | Ok ss => Ok (s :: ss)
      | Raise e => Raise e
      end
  | v :: _ => Raise (TypeError JoinItem v)
  end.

(** [sep.join(v)]. *)
Definition py_join (sep : string) (v : pyval) : res string :=
  match py_iter v with
  | Ok items =>
      match all_strings items with
      | Ok ss => Ok (String.concat sep ss)
      | Raise e => Raise e
      end
  | Raise e => Raise e
  end.

(** [v.items()]. *)
Definition py_items (v : pyval) : res pdict :=
  match v with
  | VDict d => Ok d
  | _ => Raise (AttributeError v "items")
  end.

(** ** The state-and-exception monad

    A computation reads and writes a state and ends with a value or with a
    raised exception; what it wrote before raising stays written, as with a
    Python object mutated in place. *)
Definition ST (S A : Type) : Type := S -> res A * S.

Definition ret {S A} (a : A) : ST S A := fun s => (Ok a, s).

Definition raise {S A} (e : exn) : ST S A := fun s => (Raise e, s).

Definition bind {S A B} (c : ST S A) (k : A -> ST S B) : ST S B :=
  fun s =>
    match c s with
    | (Ok a, s') => k a s'
    | (Raise e, s') => (Raise e, s')
    end.

(** [try: c  except Exception as e: h e]. *)
Definition try_except {S A} (c : ST S A) (h : exn -> ST S A) : ST S A :=
  fun s =>
    match c s with
    | (Ok a, s') => (Ok a, s')
    | (Raise e, s') => h e s'
    end.

Definition of_res {S A} (r : res A) : ST S A := fun s => (r, s).

Declare Scope py_scope.
Delimit Scope py_scope with py.
Notation "x <- c ;; k" := (bind c (fun x => k))
  (at level 100, c at next level, right associativity) : py_scope.
Notation "c ;;; k" := (bind c (fun _ => k))
  (at level 100, right associativity) : py_scope.

(** Computations that can only talk to the chat model: their state is the
    number of calls made so far. *)
Definition Coll (A : Type) : Type := ST nat A.

(** [await llm.ainvoke(messages)] followed by [response.content]. *)
Definition ainvoke (env : Env) : Coll string :=
  fun k =>
    match llm env k with
    | Content text => (Ok text, S k)
    | Failure msg => (Raise (CollaboratorError msg), S k)
    end.

End Py.

(* ================================================================== *)
(** * config.py *)
(* ================================================================== *)
Module Config.
Local Open Scope string_scope.

(** The attributes of the class [Config] as they stand once config.py is
    imported.  Each is read from the process environment: the key as it
    is ([None] when the variable is not set), the model name with a
    default, and the two sizes through [int], with a default. *)
Record settings : Type := {
  OPENAI_API_KEY : option string;
  OPENAI_MODEL : string;
  SUPERVISOR_MEMORY_SIZE : Z;
  WORKER_TIMEOUT : Z
}.

(** The settings when the environment sets none of the variables. *)
Definition defaults : settings :=
  {| OPENAI_API_KEY := None;
     OPENAI_MODEL := "gpt-4";
     SUPERVISOR_MEMORY_SIZE := 10;
     WORKER_TIMEOUT := 30 |}.

End Config.

(* ================================================================== *)
(** * models.py *)
(* ================================================================== *)
Module Models.
Import Py.
Local Open Scope string_scope.

Inductive MessageType : Type :=
| USER_INPUT
| SUPERVISOR_QUESTION
| WORKER_RESPONSE
| SUPERVISOR_DECISION
| WORKER_TASK.

(** The [timestamp] field (wall-clock time of creation) is read by no
    operation of the program and is left out. *)
Record Message : Type := {
  content : string;
  sender : string;
  message_type : MessageType;
  metadata : option (sdict pyval)
}.

Record SupervisorMemory : Type := {
  conversation_history : list Message;
  user_preferences : sdict pyval;
  context_gathered : sdict pyval;
  decision_history : list pyval
}.

Definition empty_memory : SupervisorMemory :=
  {| conversation_history := [];
     user_preferences := [];
     context_gathered := [];
     decision_history := [] |}.

Definition set_conversation_history (h : list Message) (self : SupervisorMemory)
  : SupervisorMemory :=
  {| conversation_history := h;
     user_preferences := user_preferences self;
     context_gathered := context_gathered self;
     decision_history := decision_history self |}.

Definition set_context_gathered (c : sdict pyval) (self : SupervisorMemory)
  : SupervisorMemory :=
  {| conversation_history := conversation_history self;
     user_preferences := user_preferences self;
     context_gathered := c;
     decision_history := decision_history self |}.

(** [SupervisorMemory.add_message]: append, then keep the last ten.  The
    bound is the literal 10 of the source; models.py does not import
    config.py, and no setting reaches this method. *)
Definition add_message (self : SupervisorMemory) (message : Message)
  : SupervisorMemory :=
  let h := (conversation_history self ++ [message])%list in
  if (10 <? length h)%nat
  then set_conversation_history (slice_from (-10) h) self
  else set_conversation_history h self.

(** [SupervisorMemory.get_recent_context]; [limit] defaults to 5. *)
Definition get_recent_context (self : SupervisorMemory) (limit : Z) : list Message :=
  match conversation_history self with
  | [] => []
  | h => slice_from (- limit) h
  end.

(** [SupervisorMemory.update_context]. *)
Definition update_context (self : SupervisorMemory) (key : string) (value : pyval)
  : SupervisorMemory :=
  set_context_gathered (sset key value (context_gathered self)) self.

(** The [last_activity] timestamp is left out for the same reason as the
    message timestamp ([coordinate_workers] only assigns it to itself). *)
Record WorkerState : Type := {
  worker_id : string;
  current_task : pyval;           (* [None] until a task is assigned *)
  task_result : option string;
  is_busy : bool
}.

(** [WorkerState(worker_id=...)] with every other field at its default. *)
Definition new_worker_state (wid : string) : WorkerState :=
  {| worker_id := wid; current_task := VNone; task_result := None; is_busy := false |}.

Record SystemState : Type := {
  supervisor_memory : SupervisorMemory;
  worker_states : sdict WorkerState;
  current_phase : string;
  user_query : option string;
  final_response : option string;
  error_message : option string
}.

(** [SystemState(user_query=...)]. *)
Definition new_system_state (q : option string) : SystemState :=
  {| supervisor_memory := empty_memory;
     worker_states := [];
     current_phase := "gathering_info";
     user_query := q;
     final_response := None;
     error_message := None |}.

Definition set_supervisor_memory (m : SupervisorMemory) (s : SystemState) : SystemState :=
  {| supervisor_memory := m;
     worker_states := worker_states s;
     current_phase := current_phase s;
     user_query := user_query s;
     final_response := final_response s;
     error_message := error_message s |}.

Definition set_worker_states (w : sdict WorkerState) (s : SystemState) : SystemState :=
  {| supervisor_memory := supervisor_memory s;
     worker_states := w;
     current_phase := current_phase s;
     user_query := user_query s;
     final_response := final_response s;
     error_message := error_message s |}.

Definition set_current_phase (p : string) (s : SystemState) : SystemState :=
  {| supervisor_memory := supervisor_memory s;
     worker_states := worker_states s;
     current_phase := p;
     user_query := user_query s;
     final_response := final_response s;
     error_message := error_message s |}.

Definition set_final_response (r : option string) (s : SystemState) : SystemState :=
  {| supervisor_memory := supervisor_memory s;
     worker_states := worker_states s;
     current_phase := current_phase s;
     user_query := user_query s;
     final_response := r;
     error_message := error_message s |}.

Definition set_error_message (e : option string) (s : SystemState) : SystemState :=
  {| supervisor_memory := supervisor_memory s;
     worker_states := worker_states s;
     current_phase := current_phase s;
     user_query := user_query s;
     final_response := final_response s;
     error_message := e |}.

(** [state.supervisor_memory.context_gathered.get(key, default)]. *)
Definition context_get (s : SystemState) (key : string) (default : pyval) : pyval :=
  match sget key (context_gathered (supervisor_memory s)) with
  | Some v => v
  | None => default
  end.

(** [state.supervisor_memory.update_context(key, value)]. *)
Definition state_update_context (key : string) (value : pyval) (s : SystemState)
  : SystemState :=
  set_supervisor_memory (update_context (supervisor_memory s) key value) s.

End Models.

(* ================================================================== *)
(** * workers.py *)
(* ================================================================== *)
Module Workers.
Import Py Models.
Local Open Scope string_scope.
Local Open Scope py_scope.

(** The two worker classes; the registry holds one instance of each. *)
Inductive worker : Type :=
| ResearchWorker
| CreativeWorker.

Definition error_prefix (w : worker) : string :=
  match w with
  | ResearchWorker => "Error in research worker: "
  | CreativeWorker => "Error in creative worker: "
  end.

(** [process_task]: one call to the chat model (building the two prompt
    messages from [task] and [context] cannot fail); any failure becomes an
    error-describing text. *)
Definition process_task (env : Env) (w : worker) (task : pyval) (context : sdict pyval)
  : Coll string :=
  try_except (ainvoke env)
             (fun e => ret (error_prefix w ++ exn_str env e)).

Definition WORKER_REGISTRY : sdict worker :=
  [ ("research_worker", ResearchWorker);
    ("creative_worker", CreativeWorker) ].

(** Looking an arbitrary key up in a dictionary whose keys are all strings:
    only a string can be equal to one of them; a list or dictionary cannot
    even be looked up. *)
Definition lookup_str_keyed {V} (k : pyval) (d : sdict V) : res (option V) :=
  if hashable k then
    match k with
    | VStr s => Ok (sget s d)
    | _ => Ok None
    end
  else Raise (TypeError Unhashable k).

(** [execute_worker_task]. *)
Definition execute_worker_task (env : Env)
  (worker_id : pyval) (task : pyval) (context : sdict pyval) : Coll string :=
  found <- of_res (lookup_str_keyed worker_id WORKER_REGISTRY) ;;
  match found with
  | None => ret ("Worker " ++ fmt env worker_id ++ " not found")
  | Some w => process_task env w task context
  end.

End Workers.

(* ================================================================== *)
(** * supervisor.py and workflow.py *)
(* ================================================================== *)

(** The run-state object, together with the number of chat-model calls made
    so far, is the state the stage handlers work on. *)
Module World.
Import Py Models.

Record world : Type := { sys : SystemState; calls : nat }.

Definition M (A : Type) : Type := ST world A.

(** A computation that only talks to the chat model, run where the
    run-state exists. *)
Definition lift_coll {A} (c : Coll A) : M A :=
  fun w =>
    let (r, k) := c (calls w) in
    (r, {| sys := sys w; calls := k |}).

Definition get_sys : M SystemState := fun w => (Ok (sys w), w).

Definition modify_sys (f : SystemState -> SystemState) : M unit :=
  fun w => (Ok tt, {| sys := f (sys w); calls := calls w |}).

(** Run a computation on a run-state created for it and dropped after. *)
Definition with_state {A} (s0 : SystemState) (c : M A) : Coll A :=
  fun k =>
    let (r, w) := c {| sys := s0; calls := k |} in
    (r, calls w).

(** A local variable [x] next to the state: [with_local] runs the block
    in which the variable lives and returns its final content. *)
Definition Block (X A : Type) : Type := ST (world * X) A.

Definition outer {X A} (c : M A) : Block X A :=
  fun f =>
    let (r, w) := c (fst f) in
    (r, (w, snd f)).

Definition modify_local {X} (g : X -> X) : Block X unit :=
  fun f => (Ok tt, (fst f, g (snd f))).

Definition with_local {X} (x0 : X) (c : Block X unit) : M X :=
  fun w =>
    match c (w, x0) with
    | (Ok _, (w', x)) => (Ok x, w')
    | (Raise e, (w', _)) => (Raise e, w')
    end.

(** [for a in l: body a]. *)
Fixpoint for_each {S A} (body : A -> ST S unit) (l : list A) : ST S unit :=
  match l with
  | [] => ret tt
  | a :: l' => bind (body a) (fun _ => for_each body l')
  end.

End World.

Module Supervisor.
Import Py Models World.
Local Open Scope string_scope.
Local Open Scope py_scope.

(** A dictionary display with string keys. *)
Definition py_dict (items : list (string * pyval)) : pyval :=
  VDict (map (fun kv => (VStr (fst kv), snd kv)) items).

Definition no_plan : pyval :=
  py_dict [ ("required_workers", VList []);
            ("task_breakdown", VList []);
            ("estimated_complexity", VStr "unknown") ].

(** The value returned when the model's answer is not JSON. *)
Definition analysis_unparsed : pyval :=
  py_dict [ ("has_sufficient_info", VBool false);
            ("missing_information", VList [VStr "Unable to parse analysis"]);
            ("follow_up_questions", VList [VStr "Could you please rephrase your request?"]);
            ("execution_plan", no_plan);
            ("confidence_score", VFloat (S754_zero false)) ].

(** The value returned when anything else fails; [cause] is [str(e)]. *)
Definition analysis_failed (cause : string) : pyval :=
  py_dict [ ("has_sufficient_info", VBool false);
            ("missing_information", VList [VStr ("Error in analysis: " ++ cause)]);
            ("follow_up_questions",
             VList [VStr "There was an error processing your request. Please try again."]);
            ("execution_plan", no_plan);
            ("confidence_score", VFloat (S754_zero false)) ].

Definition fallback_plan : pyval :=
  py_dict [ ("worker_assignments",
             VList [ py_dict [ ("worker_id", VStr "research_worker");
                               ("task", VStr "Gather information related to the query");
                               ("priority", VStr "high");
                               ("dependencies", VList []) ];
                     py_dict [ ("worker_id", VStr "creative_worker");
                               ("task", VStr "Process and present the information creatively");
                               ("priority", VStr "medium");
                               ("dependencies", VList [VStr "research_worker"]) ] ]);
            ("execution_order", VList [VStr "research_worker"; VStr "creative_worker"]);
            ("expected_outputs", VList [VStr "Research findings"; VStr "Creative presentation"]);
            ("quality_checks",
             VList [ VStr "Verify information accuracy";
                     VStr "Ensure creative output meets requirements" ]) ].

Definition empty_plan : pyval :=
  py_dict [ ("worker_assignments", VList []);
            ("execution_order", VList []);
            ("expected_outputs", VList []);
            ("quality_checks", VList []) ].

(** [[q.strip() for q in content.split('\n') if q.strip() and '?' in q]]. *)
Definition question_lines (content : string) : list string :=
  map strip
      (filter (fun q => negb (strip q =? "") && contains "?"%char q)
              (split newline content)).

Section WithCollaborator.
Variable env : Env.
(** The name [execute_worker_task] as supervisor.py imports it. *)
Variable execute_worker_task : pyval -> pyval -> sdict pyval -> Coll string.

(** [analyze_user_query].  Before the call the function reads the recent
    context and serialises the gathered context, which hold only strings
    and decoded JSON and cannot fail. *)
Definition analyze_user_query (user_query : option string) (state : SystemState)
  : Coll pyval :=
  try_except
    (content <- ainvoke env ;;
     match json_loads env content with
     | Some analysis => ret analysis
     | None => ret analysis_unparsed
     end)
    (fun e => ret (analysis_failed (exn_str env e))).

(** [generate_follow_up_questions]: the prompt joins [missing_info], and
    so does the handler. *)
Definition generate_follow_up_questions (missing_info : pyval) (user_query : option string)
  : Coll (list string) :=
  try_except
    (_ <- of_res (py_join ", " missing_info) ;;
     content <- ainvoke env ;;
     ret (slice_to 3 (question_lines content)))
    (fun e =>
       joined <- of_res (py_join ", " missing_info) ;;
       ret ["Could you provide more details about: " ++ joined]).

(** [create_execution_plan]. *)
Definition create_execution_plan
  (user_query : option string) (analysis : pyval) (state : SystemState) : Coll pyval :=
  try_except
    (content <- ainvoke env ;;
     match json_loads env content with
     | Some plan => ret plan
     | None => ret fallback_plan
     end)
    (fun e => ret empty_plan).

(** [results[worker_id] = text] on the local dictionary of
    [coordinate_workers]. *)
Definition set_result (worker_id : pyval) (text : string) : Block pdict unit :=
  modify_local (pset worker_id (VStr text)).

(** [worker_id in state.worker_states and state.worker_states[worker_id].is_busy]. *)
Definition worker_is_busy (worker_id : pyval) : M bool :=
  state <- get_sys ;;
  found <- of_res (Workers.lookup_str_keyed worker_id (worker_states state)) ;;
  match found with
  | Some ws => ret (is_busy ws)
  | None => ret false
  end.

(** Lines 202-208: create the worker state when it is missing (pydantic
    accepts only a string for [worker_id]), then store the task and its
    result and clear the busy flag. *)
Definition record_task (worker_id task : pyval) (result : string) : M unit :=
  match worker_id with
  | VStr wid =>
      modify_sys (fun state =>
        let ws := match sget wid (worker_states state) with
                  | Some ws => ws
                  | None => new_worker_state wid
                  end in
        set_worker_states
          (sset wid {| Models.worker_id := Models.worker_id ws;
                       current_task := task;
                       task_result := Some result;
                       is_busy := false |}
                (worker_states state))
          state)
  | _ => raise (ValidationError "WorkerState" "worker_id" worker_id)
  end.

(** The body of the loop of [coordinate_workers]. *)
Definition coordinate_assignment (assignment : pyval) : Block pdict unit :=
  worker_id <- of_res (py_item assignment "worker_id") ;;
  task <- of_res (py_item assignment "task") ;;
  busy <- outer (worker_is_busy worker_id) ;;
  if busy : bool then
    set_result worker_id ("Worker " ++ fmt env worker_id ++ " is busy")
  else
    try_except
      (result <- outer (state <- get_sys ;;
                        lift_coll (execute_worker_task worker_id task
                                     (context_gathered (supervisor_memory state)))) ;;
       set_result worker_id result ;;;
       outer (record_task worker_id task result))
      (fun e => set_result worker_id ("Error executing task: " ++ exn_str env e)).

(** [coordinate_workers]. *)
Definition coordinate_workers (execution_plan : pyval) : M pyval :=
  try_except
    (worker_assignments <- of_res (py_get execution_plan "worker_assignments" (VList [])) ;;
     items <- of_res (py_iter worker_assignments) ;;
     results <- with_local [] (for_each coordinate_assignment items) ;;
     ret (VDict results))
    (fun e => ret (py_dict [("error", VStr ("Coordination error: " ++ exn_str env e))])).

(** [synthesize_results]. *)
Definition synthesize_results
  (worker_results : pyval) (user_query : option string) (state : SystemState)
  : Coll string :=
  try_except
    (_ <- of_res (py_items worker_results) ;;
     ainvoke env)
    (fun e => ret ("Error synthesizing results: " ++ exn_str env e)).

(** [update_memory]. *)
Definition update_memory (message : Message) (state : SystemState) : SystemState :=
  let state1 :=
    set_supervisor_memory (add_message (supervisor_memory state) message) state in
  match message_type message with
  | USER_INPUT =>
      state_update_context "last_user_input" (VStr (content message)) state1
  | WORKER_RESPONSE =>
      state_update_context ("worker_" ++ sender message ++ "_last_response")
                           (VStr (content message)) state1
  | _ => state1
  end.

End WithCollaborator.
End Supervisor.

Module Workflow.
Import Py Models World Supervisor.
Local Open Scope string_scope.
Local Open Scope py_scope.

(** [Message(content=..., sender=..., message_type=...)]: pydantic rejects
    a [content] that is not a string ([state.user_query] may be [None]). *)
Definition new_message (content : option string) (sender : string) (t : MessageType)
  : res Message :=
  match content with
  | Some c => Ok {| Models.content := c; Models.sender := sender;
                    message_type := t; metadata := None |}
  | None => Raise (ValidationError "Message" "content" VNone)
  end.

(** Truth value of an [Optional[str]]. *)
Definition is_set (o : option string) : bool :=
  match o with
  | Some s => negb (s =? "")
  | None => false
  end.

(** The stages of the graph. *)
Inductive node : Type :=
| AnalyzeQuery
| GatherInfo
| ExecuteWorkers
| SynthesizeResults.

(** The name under which [_build_graph] adds each stage. *)
Definition node_name (n : node) : string :=
  match n with
  | AnalyzeQuery => "supervisor_analysis"
  | GatherInfo => "gather_info"
  | ExecuteWorkers => "execute_workers"
  | SynthesizeResults => "synthesize_results"
  end.

Inductive vertex : Type :=
| Node (n : node)
| END.

(** The names bound at module level in workflow.py: its imports and its
    class.  [from models import SystemState, Message, MessageType] binds
    nothing else from models.py. *)
Definition workflow_globals : list string :=
  [ "Dict"; "Any"; "List"; "StateGraph"; "END"; "START";
    "SystemState"; "Message"; "MessageType"; "Supervisor";
    "WORKER_REGISTRY"; "asyncio"; "json"; "LangGraphWorkflow" ].

(** Evaluating a global name. *)
Definition lookup_global (globals : list string) (name : string) : res unit :=
  if existsb (String.eqb name) globals then Ok tt else Raise (NameError name).

Section WithCollaborator.
Variable env : Env.
Variable execute_worker_task : pyval -> pyval -> sdict pyval -> Coll string.

(** [state.error_message = f"<what>: {str(e)}"]. *)
Definition fail_with (what : string) (e : exn) : M unit :=
  modify_sys (set_error_message (Some (what ++ exn_str env e))).

Definition _supervisor_analysis_node : M unit :=
  try_except
    (state <- get_sys ;;
     user_message <- of_res (new_message (user_query state) "user" USER_INPUT) ;;
     modify_sys (update_memory user_message) ;;;
     state <- get_sys ;;
     analysis <- lift_coll (analyze_user_query env (user_query state) state) ;;
     modify_sys (state_update_context "last_analysis" analysis) ;;;
     flag <- of_res (py_get analysis "has_sufficient_info" (VBool false)) ;;
     if truthy flag
     then modify_sys (set_current_phase "processing")
     else modify_sys (set_current_phase "gathering_info"))
    (fail_with "Error in supervisor analysis: ").

Definition _gather_info_node : M unit :=
  try_except
    (state <- get_sys ;;
     let analysis := context_get state "last_analysis" (VDict []) in
     missing_info <- of_res (py_get analysis "missing_information" (VList [])) ;;
     if truthy missing_info then
       follow_up_questions <-
         lift_coll (generate_follow_up_questions env missing_info (user_query state)) ;;
       let question_message :=
         {| content := String.concat (String newline EmptyString) follow_up_questions;
            sender := "supervisor";
            message_type := SUPERVISOR_QUESTION;
            metadata := None |} in
       modify_sys (update_memory question_message) ;;;
       modify_sys (state_update_context "follow_up_questions"
                     (VList (map VStr follow_up_questions)))
     else ret tt)
    (fail_with "Error in gathering info: ").

Definition _execute_workers_node : M unit :=
  try_except
    (state <- get_sys ;;
     let analysis := context_get state "last_analysis" (VDict []) in
     execution_plan <-
       lift_coll (create_execution_plan env (user_query state) analysis state) ;;
     modify_sys (state_update_context "execution_plan" execution_plan) ;;;
     worker_results <- coordinate_workers env execute_worker_task execution_plan ;;
     modify_sys (state_update_context "worker_results" worker_results) ;;;
     modify_sys (set_current_phase "completed"))
    (fail_with "Error in executing workers: ").

Definition _synthesize_results_node : M unit :=
  try_except
    (state <- get_sys ;;
     let worker_results := context_get state "worker_results" (VDict []) in
     if truthy worker_results then
       final_response <-
         lift_coll (synthesize_results env worker_results (user_query state) state) ;;
       modify_sys (set_final_response (Some final_response)) ;;;
       let final_message :=
         {| content := final_response;
            sender := "supervisor";
            message_type := SUPERVISOR_DECISION;
            metadata := None |} in
       modify_sys (update_memory final_message)
     else ret tt)
    (fail_with "Error in synthesizing results: ").

(** [_route_after_analysis]: the label of the edge to follow. *)
Definition _route_after_analysis (state : SystemState) : res string :=
  let analysis := context_get state "last_analysis" (VDict []) in
  if is_set (error_message state) then Ok "end"
  else
    match py_get analysis "has_sufficient_info" (VBool false) with
    | Ok flag => if truthy flag then Ok "execute_workers" else Ok "gather_info"
    | Raise e => Raise e
    end.

(** ** The graph of [_build_graph] *)

Definition handler (n : node) : M unit :=
  match n with
  | AnalyzeQuery => _supervisor_analysis_node
  | GatherInfo => _gather_info_node
  | ExecuteWorkers => _execute_workers_node
  | SynthesizeResults => _synthesize_results_node
  end.

(** The mapping given to [add_conditional_edges]. *)
Definition path_map : sdict vertex :=
  [ ("gather_info", Node GatherInfo);
    ("execute_workers", Node ExecuteWorkers);
    ("end", END) ].

(** Where the run goes after a stage: the conditional edge out of
    "supervisor_analysis", the plain edges out of the other stages. *)
Definition successor (n : node) (state : SystemState) : res vertex :=
  match n with
  | AnalyzeQuery =>
      match _route_after_analysis state with
      | Ok label =>
          match sget label path_map with
          | Some v => Ok v
          | None => Raise (KeyError label)
          end
      | Raise e => Raise e
      end
  | GatherInfo => Ok END
  | ExecuteWorkers => Ok (Node SynthesizeResults)
  | SynthesizeResults => Ok END
  end.

(** The run from a vertex; [visited] lists the stages executed so far.
    The engine gives up after [limit] stages. *)
Fixpoint run_from (limit : nat) (v : vertex) (visited : list node) : M (list node) :=
  match v with
  | END => ret visited
  | Node n =>
      match limit with
      | O => raise GraphRecursionError
      | S limit' =>
          handler n ;;;
          state <- get_sys ;;
          next <- of_res (successor n state) ;;
          run_from limit' next (visited ++ [n])%list
      end
  end.

(** The engine's default bound on the number of stages of one run. *)
Definition recursion_limit : nat := 25.

(** [self.graph.ainvoke(initial_state)]: the edge out of START leads to
    "supervisor_analysis". *)
Definition graph_ainvoke : M (list node) :=
  run_from recursion_limit (Node AnalyzeQuery) [].

(** ** [process_query] *)

(** [initial_state.worker_states[worker_id] = WorkerState(worker_id=worker_id)]:
    the right-hand side evaluates the global name [WorkerState]. *)
Definition init_worker_state (globals : list string) (worker_id : string) : M unit :=
  of_res (lookup_global globals "WorkerState") ;;;
  modify_sys (fun state =>
    set_worker_states
      (sset worker_id (new_worker_state worker_id) (worker_states state))
      state).

(** The loop over [WORKER_REGISTRY.keys()]. *)
Definition init_worker_states (globals : list string) : M unit :=
  for_each (init_worker_state globals) (od_keys Workers.WORKER_REGISTRY).

(** What [self.graph.ainvoke] hands back.  The compiled graph does not
    return the run-state object that the stages worked on: it returns the
    final values of the fields of the state, as a dictionary keyed by
    field name.  [process_query] goes on to read attributes of what it
    received, which an object of the class has and a dictionary has
    not. *)
Inductive graph_output : Type :=
| StateObject (state : SystemState)
| FieldValues (state : SystemState).

Definition py_opt_str (o : option string) : pyval :=
  match o with
  | Some s => VStr s
  | None => VNone
  end.

(** The dictionary of field values, for the message of the exception
    raised on it; the objects it holds are shown by their own fields. *)
Definition message_value (m : Message) : pyval :=
  py_dict [ ("content", VStr (content m));
            ("sender", VStr (sender m));
            ("message_type",
             VStr (match message_type m with
                   | USER_INPUT => "user_input"
                   | SUPERVISOR_QUESTION => "supervisor_question"
                   | WORKER_RESPONSE => "worker_response"
                   | SUPERVISOR_DECISION => "supervisor_decision"
                   | WORKER_TASK => "worker_task"
                   end));
            ("metadata", match metadata m with
                         | Some d => py_dict d
                         | None => VNone
                         end) ].

Definition memory_value (m : SupervisorMemory) : pyval :=
  py_dict [ ("conversation_history", VList (map message_value (conversation_history m)));
            ("user_preferences", py_dict (user_preferences m));
            ("context_gathered", py_dict (context_gathered m));
            ("decision_history", VList (decision_history m)) ].

Definition worker_value (ws : WorkerState) : pyval :=
  py_dict [ ("worker_id", VStr (worker_id ws));
            ("current_task", current_task ws);
            ("task_result", py_opt_str (task_result ws));
            ("is_busy", VBool (is_busy ws)) ].

Definition field_values (state : SystemState) : pyval :=
  py_dict [ ("supervisor_memory", memory_value (supervisor_memory state));
            ("worker_states",
             py_dict (map (fun kv => (fst kv, worker_value (snd kv))) (worker_states state)));
            ("current_phase", VStr (current_phase state));
            ("user_query", py_opt_str (user_query state));
            ("final_response", py_opt_str (final_response state));
            ("error_message", py_opt_str (error_message state)) ].

(** [final_state = await self.graph.ainvoke(initial_state)]. *)
Definition ainvoke_output : M graph_output :=
  graph_ainvoke ;;;
  state <- get_sys ;;
  ret (FieldValues state).

(** [final_state.<name>], the first attribute that the response block
    reads: an object gives access to its fields, a dictionary raises. *)
Definition as_object (final_state : graph_output) (name : string) : res SystemState :=
  match final_state with
  | StateObject state => Ok state
  | FieldValues state => Raise (AttributeError (field_values state) name)
  end.

(** [len([w for w in final_state.worker_states.values() if w.is_busy])]. *)
Definition active_workers (state : SystemState) : nat :=
  length (filter is_busy (od_values (worker_states state))).

(** The response block (lines 183-206), for a [final_state] that is a
    run-state object. *)
Definition prepare_response (final_state : SystemState) : sdict pyval :=
  let response :=
    [ ("status", VStr "success");
      ("current_phase", VStr (current_phase final_state));
      ("supervisor_memory_size",
       VInt (Z.of_nat (length (conversation_history (supervisor_memory final_state)))));
      ("active_workers", VInt (Z.of_nat (active_workers final_state))) ] in
  if is_set (error_message final_state) then
    sset "error" (py_opt_str (error_message final_state))
         (sset "status" (VStr "error") response)
  else if current_phase final_state =? "gathering_info" then
    sset "message" (VStr "Please provide additional information to proceed.")
      (sset "follow_up_questions"
            (context_get final_state "follow_up_questions" (VList []))
            (sset "action" (VStr "gather_info") response))
  else if current_phase final_state =? "completed" then
    sset "message" (VStr "Task completed successfully.")
      (sset "worker_results" (context_get final_state "worker_results" (VDict []))
         (sset "final_response" (py_opt_str (final_response final_state))
            (sset "action" (VStr "completed") response)))
  else response.

(** The response of the outer handler. *)
Definition error_response (e : exn) : sdict pyval :=
  [ ("status", VStr "error");
    ("error", VStr ("Workflow execution error: " ++ exn_str env e)) ].

(** [process_query], with the module namespace in which its body runs
    made explicit. *)
Definition process_query_in (globals : list string) (user_query : string)
  : Coll (sdict pyval) :=
  try_except
    (with_state (new_system_state (Some user_query))
       (init_worker_states globals ;;;
        final_state <- ainvoke_output ;;
        state <- of_res (as_object final_state "current_phase") ;;
        ret (prepare_response state)))
    (fun e => ret (error_response e)).

(** [LangGraphWorkflow.process_query] as workflow.py defines it. *)
Definition process_query (user_query : string) : Coll (sdict pyval) :=
  process_query_in workflow_globals user_query.

End WithCollaborator.
End Workflow.

(** The program as it is linked: supervisor.py binds [execute_worker_task]
    to the function of workers.py. *)
Module Linked.
Import Py Models World.

Definition graph_ainvoke (env : Env) : M (list Workflow.node) :=
  Workflow.graph_ainvoke env (Workers.execute_worker_task env).

Definition process_query (env : Env) : string -> Coll (sdict pyval) :=
  Workflow.process_query env (Workers.execute_worker_task env).

End Linked.

(* ================================================================== *)
(** * Vocabulary of the statements, and sample inputs *)
(* ================================================================== *)
Module Spec.
Import Py Models World Supervisor Workflow.
Local Open Scope string_scope.

(** The last [n] items of a list, in their order. *)
Definition last_items {A} (n : nat) (l : list A) : list A :=
  skipn (length l - n) l.

(** The ways in which the analysis call can fail, with the text that the
    fallback reports under "missing_information". *)
Inductive analysis_failure (env : Env) (k : nat) : string -> Prop :=
| collaborator_failed (cause : string) :
    llm env k = Failure cause ->
    analysis_failure env k ("Error in analysis: " ++ cause)
| answer_unparseable (text : string) :
    llm env k = Content text ->
    json_loads env text = None ->
    analysis_failure env k "Unable to parse analysis".

(** The documented shape of the fallback analysis. *)
Definition is_fallback_analysis (a : pyval) (missing : string) : Prop :=
  py_item a "has_sufficient_info" = Ok (VBool false)
  /\ py_item a "confidence_score" = Ok (VFloat (S754_zero false))
  /\ py_item a "missing_information" = Ok (VList [VStr missing])
  /\ exists question, py_item a "follow_up_questions" = Ok (VList [VStr question]).

(** The keys of a dictionary after [d[k] = v]. *)
Definition add_key (k : string) (ks : list string) : list string :=
  if existsb (String.eqb k) ks then ks else (ks ++ [k])%list.

(** The distinct items of a list, in order of first appearance. *)
Definition first_occurrences (l : list string) : list string :=
  fold_left (fun acc k => add_key k acc) l [].

(** The plan is an object whose "worker_assignments" is the list [items]. *)
Definition plan_assignments (plan : pyval) (items : list pyval) : Prop :=
  py_get plan "worker_assignments" (VList []) = Ok (VList items).

(** The assignment is an object with a task, whose worker is the string
    [wid]. *)
Definition assignment_names (assignment : pyval) (wid : string) : Prop :=
  py_item assignment "worker_id" = Ok (VStr wid)
  /\ exists task, py_item assignment "task" = Ok task.

(** The flag read by the router: the truth value of
    [last_analysis.get("has_sufficient_info", False)]. *)
Definition stored_flag (s : SystemState) : bool :=
  match py_get (context_get s "last_analysis" (VDict [])) "has_sufficient_info" (VBool false) with
  | Ok v => truthy v
  | Raise _ => false
  end.

(** The message that the analysis stage records for the query. *)
Definition user_message (q : string) : Message :=
  {| content := q; sender := "user"; message_type := USER_INPUT; metadata := None |}.

(** The message that the synthesis stage records for the final answer. *)
Definition final_message (text : string) : Message :=
  {| content := text; sender := "supervisor";
     message_type := SUPERVISOR_DECISION; metadata := None |}.

(** The states met during one run of [process_query], at the boundaries
    of its steps: the fresh state, the state after an iteration of the
    initialisation loop, after a stage handler, and after the body of the
    coordinator's loop for one assignment.  (The steps are taken in any
    order, which only adds states.) *)
Inductive reachable (env : Env)
  (dispatch : pyval -> pyval -> sdict pyval -> Coll string)
  (globals : list string) (q : string) (k0 : nat) : world -> Prop :=
| reach_start :
    reachable env dispatch globals q k0
      {| sys := new_system_state (Some q); calls := k0 |}
| reach_init (worker_id : string) (w : world) :
    reachable env dispatch globals q k0 w ->
    reachable env dispatch globals q k0 (snd (init_worker_state globals worker_id w))
| reach_stage (n : node) (w : world) :
    reachable env dispatch globals q k0 w ->
    reachable env dispatch globals q k0 (snd (handler env dispatch n w))
| reach_assignment (a : pyval) (w : world) (r : pdict) :
    reachable env dispatch globals q k0 w ->
    reachable env dispatch globals q k0
      (fst (snd (coordinate_assignment env dispatch a (w, r)))).

(** The world in which [process_query] invokes the graph when its
    initialisation succeeds: the fresh state for the query with one idle
    worker state per registered worker, at call count [k]. *)
Definition initialised (q : string) (k : nat) : world :=
  {| sys := set_worker_states
              [ ("research_worker", new_worker_state "research_worker");
                ("creative_worker", new_worker_state "creative_worker") ]
              (new_system_state (Some q));
     calls := k |}.

(** A computation never raises. *)
Definition total {S A} (c : ST S A) : Prop :=
  forall s, exists a s', c s = (Ok a, s').

(** A computation keeps a property of the state, whether it returns or
    raises. *)
Definition preserves {S A} (P : S -> Prop) (c : ST S A) : Prop :=
  forall s, P s -> P (snd (c s)).

(** A property of the run-state, read on the world and on a block that
    holds a local variable. *)
Definition on_sys (Q : SystemState -> Prop) : world -> Prop :=
  fun w => Q (sys w).

Definition on_world {X} (P : world -> Prop) : world * X -> Prop :=
  fun f => P (fst f).

(** No worker is marked busy. *)
Definition all_idle (s : SystemState) : Prop :=
  Forall (fun ws => is_busy ws = false) (od_values (worker_states s)).

(** Everything but the worker states is as in [s0]. *)
Definition same_but_workers (s0 s : SystemState) : Prop :=
  supervisor_memory s = supervisor_memory s0
  /\ current_phase s = current_phase s0
  /\ user_query s = user_query s0
  /\ final_response s = final_response s0
  /\ error_message s = error_message s0.

End Spec.

Module Examples.
Import Py Models World Supervisor Workflow.
Local Open Scope string_scope.

Definition msg (n : string) : Message :=
  {| content := n; sender := "user"; message_type := USER_INPUT; metadata := None |}.

Definition two_messages : SupervisorMemory :=
  set_conversation_history [msg "first"; msg "second"] empty_memory.

Definition eleven_messages : list Message :=
  map msg ["1"; "2"; "3"; "4"; "5"; "6"; "7"; "8"; "9"; "10"; "11"].

(** The settings when the environment holds SUPERVISOR_MEMORY_SIZE=5. *)
Definition cap_of_five : Config.settings :=
  {| Config.OPENAI_API_KEY := Config.OPENAI_API_KEY Config.defaults;
     Config.OPENAI_MODEL := Config.OPENAI_MODEL Config.defaults;
     Config.SUPERVISOR_MEMORY_SIZE := 5;
     Config.WORKER_TIMEOUT := Config.WORKER_TIMEOUT Config.defaults |}.

Definition six_messages : list Message :=
  map msg ["1"; "2"; "3"; "4"; "5"; "6"].

(** A wording for the library messages: the name of the exception class. *)
Definition class_name (e : exn) : string :=
  match e with
  | CollaboratorError _ => "Exception"
  | NameError _ => "NameError"
  | KeyError _ => "KeyError"
  | AttributeError _ _ => "AttributeError"
  | TypeError _ _ => "TypeError"
  | ValidationError _ _ _ => "ValidationError"
  | GraphRecursionError => "GraphRecursionError"
  end.

(** An environment given by a script of chat-model outcomes (every call
    after the script fails) and a table of the documents that decode. *)
Definition scripted (script : list llm_result) (documents : sdict pyval) : Env :=
  {| llm := fun k => nth k script (Failure "connection refused");
     json_loads := fun text => sget text documents;
     py_repr := fun _ => "<object>";
     lib_message := class_name |}.

(** The world in which [process_query] starts the graph, as the program
    means it: a fresh state for the query with one idle worker state per
    registered worker. *)
Definition start (q : string) : world :=
  {| sys := set_worker_states
              [ ("research_worker", new_worker_state "research_worker");
                ("creative_worker", new_worker_state "creative_worker") ]
              (new_system_state (Some q));
     calls := 0 |}.

Definition sufficient : pyval :=
  py_dict [ ("has_sufficient_info", VBool true);
            ("missing_information", VList []);
            ("follow_up_questions", VList []);
            ("confidence_score", VFloat (S754_finite false 1 0)) ].

(** The analysis is positive, then the planning call fails. *)
Definition planning_fails : Env :=
  scripted [ Content "analysis: sufficient"; Failure "rate limit exceeded" ]
           [ ("analysis: sufficient", sufficient) ].

(** The analysis is positive; the plan gives the research worker two
    tasks; the synthesis call answers with an empty text. *)
Definition two_research_tasks : pyval :=
  py_dict [ ("worker_assignments",
             VList [ py_dict [ ("worker_id", VStr "research_worker");
                               ("task", VStr "Find sources") ];
                     py_dict [ ("worker_id", VStr "research_worker");
                               ("task", VStr "Summarise sources") ] ]) ].

Definition two_research_tasks_first : pyval :=
  py_dict [ ("worker_id", VStr "research_worker"); ("task", VStr "Find sources") ].

Definition two_research_tasks_second : pyval :=
  py_dict [ ("worker_id", VStr "research_worker"); ("task", VStr "Summarise sources") ].

Definition repeated_worker : Env :=
  scripted [ Content "analysis: sufficient"; Content "plan: research twice";
             Content "three sources"; Content "a summary"; Content "" ]
           [ ("analysis: sufficient", sufficient);
             ("plan: research twice", two_research_tasks) ].

(** The analysis is positive; the planner answers in prose, so that the
    fallback plan (research, then creative) is used; every later call
    answers. *)
Definition smooth : Env :=
  scripted [ Content "analysis: sufficient"; Content "First research, then write.";
             Content "Qubits superpose."; Content "A haiku about qubits.";
             Content "Here is your creative summary." ]
           [ ("analysis: sufficient", sufficient) ].

Definition research_assignment : pyval :=
  py_dict [ ("worker_id", VStr "research_worker");
            ("task", VStr "Gather information related to the query");
            ("priority", VStr "high");
            ("dependencies", VList []) ].

Definition creative_assignment : pyval :=
  py_dict [ ("worker_id", VStr "creative_worker");
            ("task", VStr "Process and present the information creatively");
            ("priority", VStr "medium");
            ("dependencies", VList [VStr "research_worker"]) ].

(** No answer ever arrives. *)
Definition offline : Env := scripted [] [].

(** The model answers in prose. *)
Definition chatty : Env := scripted [Content "Sure, let me think about it."] [].

End Examples.

(* ================================================================== *)
(** * Vocabulary and sample inputs for the further properties *)
(* ================================================================== *)
Module More.
Import Py Models World Workers Supervisor Workflow Spec.
Local Open Scope string_scope.

(** [l] ends with [suffix]. *)
Definition ends_with {A} (l suffix : list A) : Prop :=
  exists older, l = (older ++ suffix)%list.

(** A string that does not begin with white space. *)
Definition clean_start (s : string) : Prop := drop_space s = None.

(** An ASCII character that is not white space. *)
Definition visible (c : ascii) : Prop :=
  is_space c = false /\ nat_of_ascii c < 128.

(** What a registered worker returns for the chat-model outcome of call
    [k]: the answer, or the error-describing text of its class. *)
Definition worker_text (env : Env) (kind : worker) (k : nat) : string :=
  match llm env k with
  | Content text => text
  | Failure cause => error_prefix kind ++ cause
  end.

(** What [execute_worker_task] returns for a string id at call count [k],
    and the call count afterwards. *)
Definition dispatch_outcome (env : Env) (wid : string) (k : nat) : string * nat :=
  match sget wid WORKER_REGISTRY with
  | Some kind => (worker_text env kind k, S k)
  | None => ("Worker " ++ wid ++ " not found", k)
  end.

(** The worker state that [coordinate_workers] leaves for worker [wid]
    after running [task] with result [text]. *)
Definition after_task (s : SystemState) (wid : string) (task : pyval) (text : string)
  : SystemState :=
  set_worker_states
    (sset wid
       {| worker_id := worker_id (match sget wid (worker_states s) with
                                  | Some ws => ws
                                  | None => new_worker_state wid
                                  end);
          current_task := task;
          task_result := Some text;
          is_busy := false |}
       (worker_states s))
    s.

(** The single-entry mapping that [coordinate_workers] returns when the
    coordination itself fails. *)
Definition coordination_error (env : Env) (e : exn) : pyval :=
  py_dict [("error", VStr ("Coordination error: " ++ exn_str env e))].

(** The result and the worker state agree on what worker [wid] last
    returned. *)
Definition recorded (w : world) (r : pdict) (wid : string) : Prop :=
  exists text ws,
    pget (VStr wid) r = Some (VStr text)
    /\ sget wid (worker_states (sys w)) = Some ws
    /\ task_result ws = Some text
    /\ is_busy ws = false.



(** The message that the gather-info stage records for its questions. *)
Definition question_message (questions : list string) : Message :=
  {| content := String.concat (String newline EmptyString) questions;
     sender := "supervisor";
     message_type := SUPERVISOR_QUESTION;
     metadata := None |}.

(** Sample inputs. *)

Definition twelve_messages : SupervisorMemory :=
  set_conversation_history
    (map Examples.msg ["a"; "b"; "c"; "d"; "e"; "f"; "g"; "h"; "i"; "j"; "k"; "l"])
    empty_memory.

(** The chat model asks two questions among other lines. *)
Definition asks : Env :=
  Examples.scripted
    [ Content "  Which topic do you have in mind?
Thanks for asking.
   What length should the text have?   " ]
    [].

(** A list of missing details that cannot be joined: it holds a number. *)
Definition unjoinable : pyval := VList [VStr "topic"; VInt 3].

(** An assignment without a worker. *)
Definition anonymous_assignment : pyval :=
  py_dict [ ("task", VStr "Do something") ].

Definition anonymous_plan : pyval :=
  py_dict [ ("worker_assignments",
             VList [ Examples.research_assignment; anonymous_assignment;
                     Examples.creative_assignment ]) ].

(** A world in which the research worker is marked busy. *)
Definition research_busy : world :=
  {| sys := set_worker_states
              [ ("research_worker",
                 {| worker_id := "research_worker"; current_task := VStr "Earlier task";
                    task_result := None; is_busy := true |}) ]
              (new_system_state (Some "Research quantum computing"));
     calls := 0 |}.




(** The analysis call answers with a JSON list. *)
Definition answers_with_list : Env :=
  Examples.scripted [ Content "analysis: a list" ]
                    [ ("analysis: a list", VList [VStr "research"; VStr "write"]) ].

(** A world whose stored analysis asks for one missing detail. *)
Definition needs_topic (missing : pyval) : world :=
  {| sys := state_update_context "last_analysis"
              (py_dict [ ("has_sufficient_info", VBool false);
                         ("missing_information", missing) ])
              (new_system_state (Some "Help me write something"));
     calls := 0 |}.

(** A world that holds one worker result and awaits synthesis. *)
Definition awaits_synthesis : world :=
  {| sys := set_current_phase "completed"
              (state_update_context "worker_results"
                 (VDict [(VStr "research_worker", VStr "Qubits superpose.")])
                 (new_system_state (Some "Research quantum computing")));
     calls := 0 |}.

End More.

(* ================================================================== *)
(** * Theorems *)
(* ================================================================== *)
Import Py Models World Workers Supervisor Workflow Spec.
Local Open Scope string_scope.
Local Open Scope list_scope.
Local Open Scope nat_scope.

(** ** Bounded memory *)

Section MemoryFacts.

Lemma slice_from_neg {A} (n : nat) (l : list A) :
  0 < n -> slice_from (- Z.of_nat n) l = skipn (length l - n) l.
Proof.
  intros Hn. unfold slice_from.
  destruct (Z.ltb_spec (- Z.of_nat n) 0) as [_|H]; [|lia].
  f_equal. lia.
Qed.

Lemma add_message_history (mem : SupervisorMemory) (m : Message) :
  conversation_history (add_message mem m)
  = skipn (length (conversation_history mem ++ [m]) - 10)
          (conversation_history mem ++ [m]).
Proof.
  unfold add_message. cbv zeta.
  destruct (Nat.ltb_spec 10 (length (conversation_history mem ++ [m]))) as [H|H];
    cbn [conversation_history set_conversation_history].
  - apply (slice_from_neg 10). lia.
  - replace (length (conversation_history mem ++ [m]) - 10) with 0 by lia.
    reflexivity.
Qed.

Lemma skipn_app_snoc {A} (k : nat) (l : list A) (x : A) :
  k <= length l -> skipn k (l ++ [x]) = skipn k l ++ [x].
Proof.
  intros H. rewrite skipn_app.
  replace (k - length l) with 0 by lia. reflexivity.
Qed.

Lemma fold_add_message_history (ms : list Message) : forall mem,
  length (conversation_history mem) <= 10 ->
  conversation_history (fold_left add_message ms mem)
  = skipn (length (conversation_history mem ++ ms) - 10)
          (conversation_history mem ++ ms).
Proof.
  induction ms as [|m ms IH]; intros mem Hlen.
  - cbn [fold_left]. rewrite app_nil_r.
    replace (length (conversation_history mem) - 10) with 0 by lia. reflexivity.
  - cbn [fold_left]. rewrite IH.
    + rewrite add_message_history.
      set (h := conversation_history mem) in *.
      rewrite !length_app, length_skipn, !length_app. cbn [length].
      replace (h ++ m :: ms) with ((h ++ [m]) ++ ms)
        by (rewrite <- app_assoc; reflexivity).
      rewrite (skipn_app (length h + (1 + length ms) - 10)).
      rewrite (skipn_app (length h + 1 - (length h + 1 - 10) + length ms - 10)).
      rewrite length_skipn, !length_app. cbn [length].
      rewrite skipn_skipn.
      f_equal; f_equal; lia.
    + rewrite add_message_history, length_skipn, length_app. cbn [length]. lia.
Qed.

(** What [add_message] does keep.  Starting from a memory that holds at
    most ten messages (the fresh memory in particular), any sequence of
    [add_message] calls leaves at most ten messages in
    [conversation_history]: the last ten of everything seen so far, in
    their order; once more than ten messages were appended these are
    exactly the ten most recent appended ones. *)
Lemma add_message_keeps_latest_ten (mem : SupervisorMemory) (ms : list Message) :
  length (conversation_history mem) <= 10 ->
  let mem' := fold_left add_message ms mem in
  length (conversation_history mem') <= 10
  /\ conversation_history mem'
     = skipn (length (conversation_history mem ++ ms) - 10)
             (conversation_history mem ++ ms)
  /\ (10 < length ms ->
      conversation_history mem' = skipn (length ms - 10) ms
      /\ length (conversation_history mem') = 10).
Proof.
  intros Hlen mem'. subst mem'.
  rewrite (fold_add_message_history ms mem Hlen).
  set (h := conversation_history mem) in *.
  split; [|split].
  - rewrite length_skipn. lia.
  - reflexivity.
  - intros Hms. rewrite length_app, skipn_app.
    replace (length h + length ms - 10 - length h) with (length ms - 10) by lia.
    rewrite (skipn_all2 h) by lia. cbn [app].
    split; [reflexivity|]. rewrite length_skipn. lia.
Qed.

(** C2 (the code departs from the claim when the configured cap is below
    ten).  [add_message] compares with the literal 10 and never reads
    [Config.SUPERVISOR_MEMORY_SIZE]: whatever the settings, the history
    of a memory that started empty is the last ten of the messages
    appended, so that it exceeds any configured cap below ten as soon as
    more messages than that cap were appended.  With
    SUPERVISOR_MEMORY_SIZE=5, six appended messages are all kept, where
    the claim allows five. *)
Theorem add_message_ignores_configured_cap :
  (forall (config : Config.settings) (ms : list Message),
      let history := conversation_history (fold_left add_message ms empty_memory) in
      history = last_items 10 ms
      /\ length history = Nat.min 10 (length ms)
      /\ ((Config.SUPERVISOR_MEMORY_SIZE config < 10)%Z ->
          (Config.SUPERVISOR_MEMORY_SIZE config < Z.of_nat (length ms))%Z ->
          (Config.SUPERVISOR_MEMORY_SIZE config < Z.of_nat (length history))%Z))
  /\ Config.SUPERVISOR_MEMORY_SIZE Examples.cap_of_five = 5%Z
  /\ conversation_history (fold_left add_message Examples.six_messages empty_memory)
     = Examples.six_messages
  /\ (Config.SUPERVISOR_MEMORY_SIZE Examples.cap_of_five
      < Z.of_nat (length (conversation_history
                            (fold_left add_message Examples.six_messages empty_memory))))%Z.
Proof.
  split; [|split; [reflexivity|split; [reflexivity|cbn; lia]]].
  intros config ms history.
  assert (E : history = last_items 10 ms).
  { unfold history, last_items.
    rewrite (fold_add_message_history ms empty_memory) by (cbn; lia).
    reflexivity. }
  assert (L : length history = Nat.min 10 (length ms)).
  { rewrite E. unfold last_items. rewrite length_skipn. lia. }
  split; [exact E|]. split; [exact L|]. rewrite L. lia.
Qed.

End MemoryFacts.

Lemma add_message_keeps_latest_ten_witness :
  length (conversation_history empty_memory) <= 10
  /\ conversation_history (fold_left add_message Examples.eleven_messages empty_memory)
     = skipn 1 Examples.eleven_messages.
Proof.
  split; [cbn; lia|].
  destruct (add_message_keeps_latest_ten empty_memory Examples.eleven_messages)
    as (_ & _ & H); [cbn; lia|].
  destruct H as [H _]; [cbn; lia|].
  exact H.
Defined.

Section RecentContext.

(** For a positive limit the function returns the last
    [min n (length history)] messages. *)
Lemma get_recent_context_positive (mem : SupervisorMemory) (n : nat) :
  0 < n ->
  get_recent_context mem (Z.of_nat n)
  = last_items (Nat.min n (length (conversation_history mem)))
               (conversation_history mem).
Proof.
  intros Hn. unfold get_recent_context, last_items.
  destruct (conversation_history mem) as [|m h] eqn:E; [reflexivity|].
  rewrite (slice_from_neg n (m :: h) Hn). f_equal. lia.
Qed.

Lemma get_recent_context_empty (mem : SupervisorMemory) (limit : Z) :
  conversation_history mem = [] -> get_recent_context mem limit = [].
Proof. intros E. unfold get_recent_context. rewrite E. reflexivity. Qed.

(** With limit 0 the whole history comes back. *)
Lemma get_recent_context_zero (mem : SupervisorMemory) :
  get_recent_context mem 0 = conversation_history mem.
Proof.
  unfold get_recent_context. destruct (conversation_history mem); reflexivity.
Qed.

(** C3 (the code departs from the claim at n = 0).  With limit 0 the
    slice [history[-0:]] is the whole history: on a memory holding two
    messages [get_recent_context] returns both, where the claim asks for
    the last [min 0 2 = 0] messages. *)
Theorem get_recent_context_zero_returns_all :
  get_recent_context Examples.two_messages 0
  = conversation_history Examples.two_messages
  /\ get_recent_context Examples.two_messages (Z.of_nat 0)
     <> last_items (Nat.min 0 (length (conversation_history Examples.two_messages)))
                   (conversation_history Examples.two_messages).
Proof. split; [reflexivity | discriminate]. Qed.

End RecentContext.

(** ** The worker registry *)

Section Registry.
Variable env : Env.

(** C7.  Dispatching to a worker id that is not a key of the registry
    returns the text "Worker <id> not found": the call does not raise and
    makes no call to the chat model. *)
Theorem execute_worker_task_unknown_worker
  (worker_id : string) (task : pyval) (context : sdict pyval) (k : nat) :
  sget worker_id WORKER_REGISTRY = None ->
  execute_worker_task env (VStr worker_id) task context k
  = (Ok ("Worker " ++ worker_id ++ " not found")%string, k).
Proof.
  intros H. unfold execute_worker_task, bind, of_res, lookup_str_keyed.
  cbn [hashable]. rewrite H. reflexivity.
Qed.

(** A registered worker turns every failure into a text. *)
Lemma process_task_never_raises (w : worker) task context k :
  exists text, process_task env w task context k = (Ok text, S k).
Proof.
  unfold process_task, try_except, ainvoke.
  destruct (llm env k); eexists; reflexivity.
Qed.

End Registry.

Lemma execute_worker_task_unknown_worker_witness :
  sget "editor_worker" WORKER_REGISTRY = None
  /\ execute_worker_task Examples.offline (VStr "editor_worker") (VStr "Proofread") [] 0
     = (Ok "Worker editor_worker not found", 0).
Proof.
  split; [reflexivity|].
  apply (execute_worker_task_unknown_worker Examples.offline "editor_worker").
  reflexivity.
Defined.

(** ** The supervisor's judgments *)

Section Judgments.
Variable env : Env.

Lemma analysis_unparsed_is_fallback :
  is_fallback_analysis analysis_unparsed "Unable to parse analysis".
Proof. repeat split; eexists; reflexivity. Qed.

Lemma analysis_failed_is_fallback (cause : string) :
  is_fallback_analysis (analysis_failed cause) ("Error in analysis: " ++ cause)%string.
Proof. repeat split; eexists; reflexivity. Qed.

(** The analysis never raises, whatever the chat model does. *)
Lemma analyze_user_query_returns (q : option string) (state : SystemState) (k : nat) :
  exists a, analyze_user_query env q state k = (Ok a, S k).
Proof.
  unfold analyze_user_query, try_except, bind, ainvoke, ret.
  destruct (llm env k); [destruct (json_loads env text)|]; eexists; reflexivity.
Qed.

(** C5.  When the chat model fails, or answers with text that is not
    JSON, [analyze_user_query] returns (it does not raise) the fallback
    analysis: "has_sufficient_info" false, "confidence_score" 0.0,
    "missing_information" the one-element list ["Unable to parse
    analysis"] or ["Error in analysis: <cause>"], and a one-element
    "follow_up_questions" list. *)
Theorem analyze_user_query_fallback
  (q : option string) (state : SystemState) (k : nat) (missing : string) :
  analysis_failure env k missing ->
  exists a,
    analyze_user_query env q state k = (Ok a, S k)
    /\ is_fallback_analysis a missing
    /\ (a = analysis_unparsed \/ exists cause, a = analysis_failed cause).
Proof.
  intros [cause Hllm | text Hllm Hjson];
    unfold analyze_user_query, try_except, bind, ainvoke, ret; rewrite Hllm.
  - exists (analysis_failed cause). cbn [exn_str].
    split; [reflexivity|]. split; [apply analysis_failed_is_fallback|].
    right. eexists; reflexivity.
  - rewrite Hjson. exists analysis_unparsed.
    split; [reflexivity|]. split; [apply analysis_unparsed_is_fallback|].
    left; reflexivity.
Qed.

End Judgments.

Lemma analyze_user_query_fallback_witness :
  analysis_failure Examples.chatty 0 "Unable to parse analysis"
  /\ exists a,
      analyze_user_query Examples.chatty (Some "Help me write something")
                         (new_system_state (Some "Help me write something")) 0
      = (Ok a, 1)
      /\ is_fallback_analysis a "Unable to parse analysis"
      /\ (a = analysis_unparsed \/ exists cause, a = analysis_failed cause).
Proof.
  assert (H : analysis_failure Examples.chatty 0 "Unable to parse analysis")
    by (apply answer_unparseable with (text := "Sure, let me think about it.");
        reflexivity).
  split; [exact H|].
  exact (analyze_user_query_fallback Examples.chatty
           (Some "Help me write something")
           (new_system_state (Some "Help me write something")) _ _ H).
Defined.

(** ** Reasoning about computations *)

Section Computations.
Context {S : Type}.

Lemma total_ret {A} (a : A) : total (@ret S A a).
Proof. intros s. exists a, s. reflexivity. Qed.

Lemma total_bind {A B} (c : ST S A) (k : A -> ST S B) :
  total c -> (forall a, total (k a)) -> total (bind c k).
Proof.
  intros Hc Hk s. unfold bind.
  destruct (Hc s) as (a & s' & ->). apply Hk.
Qed.

Lemma total_try_except {A} (c : ST S A) (h : exn -> ST S A) :
  (forall e, total (h e)) -> total (try_except c h).
Proof.
  intros Hh s. unfold try_except.
  destruct (c s) as [[a|e] s'].
  - exists a, s'. reflexivity.
  - apply Hh.
Qed.

Variable P : S -> Prop.

Lemma preserves_ret {A} (a : A) : preserves P (ret a).
Proof. intros s H. exact H. Qed.

Lemma preserves_raise {A} (e : exn) : preserves P (@raise S A e).
Proof. intros s H. exact H. Qed.

Lemma preserves_of_res {A} (r : res A) : preserves P (of_res r).
Proof. intros s H. exact H. Qed.

Lemma preserves_bind {A B} (c : ST S A) (k : A -> ST S B) :
  preserves P c -> (forall a, preserves P (k a)) -> preserves P (bind c k).
Proof.
  intros Hc Hk s H. unfold bind.
  specialize (Hc s H). destruct (c s) as [[a|e] s']; cbn [snd] in *.
  - apply Hk, Hc.
  - exact Hc.
Qed.

Lemma preserves_try_except {A} (c : ST S A) (h : exn -> ST S A) :
  preserves P c -> (forall e, preserves P (h e)) -> preserves P (try_except c h).
Proof.
  intros Hc Hh s H. unfold try_except.
  specialize (Hc s H). destruct (c s) as [[a|e] s']; cbn [snd] in *.
  - exact Hc.
  - apply Hh, Hc.
Qed.

Lemma for_each_app {A} (body : A -> ST S unit) (l1 l2 : list A) (s : S) :
  for_each body (l1 ++ l2) s
  = match for_each body l1 s with
    | (Ok _, s') => for_each body l2 s'
    | (Raise e, s') => (Raise e, s')
    end.
Proof.
  revert s. induction l1 as [|a l1 IH]; intros s; cbn [for_each app].
  - reflexivity.
  - unfold bind. destruct (body a s) as [[[]|e] s']; [apply IH | reflexivity].
Qed.

Lemma preserves_for_each {A} (body : A -> ST S unit) (l : list A) :
  (forall a, preserves P (body a)) -> preserves P (for_each body l).
Proof.
  intros Hb. induction l as [|a l IH]; cbn [for_each].
  - apply preserves_ret.
  - apply preserves_bind; [apply Hb | intros _; exact IH].
Qed.

End Computations.

Section WorldComputations.
Variable Q : SystemState -> Prop.

Lemma preserves_get_sys : preserves (on_sys Q) get_sys.
Proof. intros w H. exact H. Qed.

Lemma preserves_modify_sys (f : SystemState -> SystemState) :
  (forall s, Q s -> Q (f s)) -> preserves (on_sys Q) (modify_sys f).
Proof. intros Hf w H. apply Hf, H. Qed.

Lemma preserves_lift_coll {A} (c : Coll A) : preserves (on_sys Q) (lift_coll c).
Proof.
  intros w H. unfold lift_coll. destruct (c (calls w)). exact H.
Qed.

Lemma preserves_outer {X A} (c : M A) :
  preserves (on_sys Q) c -> preserves (on_world (X := X) (on_sys Q)) (outer c).
Proof.
  intros Hc [w x] H. unfold outer. cbn [fst snd] in *.
  specialize (Hc w H). destruct (c w). exact Hc.
Qed.

Lemma preserves_modify_local {X} (g : X -> X) :
  preserves (on_world (on_sys Q)) (modify_local g).
Proof. intros [w x] H. exact H. Qed.

Lemma preserves_with_local {X} (x0 : X) (c : Block X unit) :
  preserves (on_world (on_sys Q)) c -> preserves (on_sys Q) (with_local x0 c).
Proof.
  intros Hc w H. unfold with_local.
  specialize (Hc (w, x0) H). destruct (c (w, x0)) as [[u|e] [w' x]]; exact Hc.
Qed.

End WorldComputations.

(** One step of a proof that a computation keeps a property. *)
Ltac preserves_step :=
  lazymatch goal with
  | |- preserves _ (bind _ _) => apply preserves_bind; [|intro]
  | |- preserves _ (try_except _ _) => apply preserves_try_except; [|intro]
  | |- preserves _ (ret _) => apply preserves_ret
  | |- preserves _ (raise _) => apply preserves_raise
  | |- preserves _ (of_res _) => apply preserves_of_res
  | |- preserves _ get_sys => apply preserves_get_sys
  | |- preserves _ (lift_coll _) => apply preserves_lift_coll
  | |- preserves _ (outer _) => apply preserves_outer
  | |- preserves _ (modify_local _) => apply preserves_modify_local
  | |- preserves _ (with_local _ _) => apply preserves_with_local
  | |- preserves _ (for_each _ _) => apply preserves_for_each; intro
  | |- preserves _ (if ?b then _ else _) => destruct b
  | |- preserves _ (match ?x with _ => _ end) => destruct x
  end.

(** ** Dictionaries *)

Section Dictionaries.

Lemma sget_sset_same {V} (k : string) (v : V) (d : sdict V) :
  sget k (sset k v d) = Some v.
Proof.
  unfold sget, sset. induction d as [|[k' v'] d IH]; cbn.
  - rewrite String.eqb_refl. reflexivity.
  - destruct (String.eqb k' k) eqn:E; cbn; rewrite E; [reflexivity | exact IH].
Qed.

Lemma sget_sset_other {V} (k k' : string) (v : V) (d : sdict V) :
  k <> k' -> sget k' (sset k v d) = sget k' d.
Proof.
  intros Hne. unfold sget, sset. induction d as [|[k0 v0] d IH]; cbn.
  - destruct (String.eqb_spec k k'); [contradiction | reflexivity].
  - destruct (String.eqb_spec k0 k) as [->|Hk]; cbn.
    + destruct (String.eqb_spec k k'); [contradiction | reflexivity].
    + destruct (String.eqb k0 k'); [reflexivity | exact IH].
Qed.

Lemma od_values_set_Forall {K V} (eqb : K -> K -> bool) (P : V -> Prop)
  (k : K) (v : V) (d : list (K * V)) :
  P v -> Forall P (od_values d) -> Forall P (od_values (od_set eqb k v d)).
Proof.
  intros Hv. unfold od_values.
  induction d as [|[k' v'] d IH]; cbn; intros Hd.
  - constructor; [exact Hv | constructor].
  - inversion Hd as [|? ? Hv' Hd']; subst.
    destruct (eqb k' k); cbn; constructor; auto.
Qed.

Lemma od_keys_pset_str (k : string) (v : pyval) (d : pdict) (ks : list string) :
  od_keys d = map VStr ks ->
  od_keys (pset (VStr k) v d) = map VStr (add_key k ks).
Proof.
  unfold od_keys, pset, add_key. revert ks.
  induction d as [|[k' v'] d IH]; intros ks Hks.
  - destruct ks; [reflexivity | discriminate].
  - destruct ks as [|k0 ks]; [discriminate|].
    cbn [map fst] in Hks. injection Hks as -> Hks.
    cbn [od_set key_eqb existsb].
    rewrite (String.eqb_sym k k0).
    destruct (String.eqb k0 k) eqn:E; cbn [orb map fst].
    + f_equal. exact Hks.
    + rewrite (IH ks Hks).
      destruct (existsb (String.eqb k) ks); reflexivity.
Qed.

Lemma pget_pset_same (k : string) (v : pyval) (d : pdict) :
  pget (VStr k) (pset (VStr k) v d) = Some v.
Proof.
  unfold pget, pset. induction d as [|[k' v'] d IH]; cbn [od_set od_get].
  - cbn [key_eqb]. rewrite String.eqb_refl. reflexivity.
  - destruct (key_eqb k' (VStr k)) eqn:E; cbn [od_get]; rewrite E;
      [reflexivity | exact IH].
Qed.

Lemma key_eqb_str (k : pyval) (s : string) :
  key_eqb k (VStr s) = true -> k = VStr s.
Proof.
  destruct k; cbn; try discriminate.
  intros H. apply String.eqb_eq in H. subst. reflexivity.
Qed.

Lemma pget_pset_other (k k' : string) (v : pyval) (d : pdict) :
  k <> k' -> pget (VStr k) (pset (VStr k') v d) = pget (VStr k) d.
Proof.
  intros Hne. unfold pget, pset. induction d as [|[k0 v0] d IH]; cbn [od_set od_get].
  - cbn [key_eqb]. destruct (String.eqb_spec k' k); [congruence | reflexivity].
  - destruct (key_eqb k0 (VStr k')) eqn:E; cbn [od_get].
    + apply key_eqb_str in E. subst k0. cbn [key_eqb].
      destruct (String.eqb_spec k' k); [congruence | reflexivity].
    + destruct (key_eqb k0 (VStr k)); [reflexivity | exact IH].
Qed.

Lemma add_key_fresh (k : string) (ks : list string) :
  ~ In k ks -> add_key k ks = ks ++ [k].
Proof.
  intros Hk. unfold add_key.
  destruct (existsb (String.eqb k) ks) eqn:E; [|reflexivity].
  apply existsb_exists in E. destruct E as (x & Hx & Heq).
  apply String.eqb_eq in Heq. subst x. contradiction.
Qed.

Lemma fold_add_key_NoDup (ids : list string) : forall ks,
  NoDup (ks ++ ids) -> fold_left (fun acc k => add_key k acc) ids ks = ks ++ ids.
Proof.
  induction ids as [|k ids IH]; intros ks Hnd; cbn [fold_left].
  - rewrite app_nil_r. reflexivity.
  - rewrite add_key_fresh.
    + rewrite IH; rewrite <- app_assoc; [reflexivity | exact Hnd].
    + apply NoDup_remove_2 in Hnd. intros Hin. apply Hnd.
      apply in_or_app. left. exact Hin.
Qed.

(** Without repetitions, every item is its own first appearance. *)
Lemma first_occurrences_NoDup (ids : list string) :
  NoDup ids -> first_occurrences ids = ids.
Proof. intros H. apply (fold_add_key_NoDup ids []). exact H. Qed.

End Dictionaries.

(** ** The worker coordinator *)

Section Coordinator.
Variable env : Env.
Variable dispatch : pyval -> pyval -> sdict pyval -> Coll string.

Ltac run_block :=
  unfold coordinate_assignment, set_result, worker_is_busy, record_task,
    outer, modify_local, lift_coll, get_sys, modify_sys,
    bind, ret, raise, of_res, try_except, lookup_str_keyed;
  cbn [fst snd sys calls hashable].

(** An assignment that names its worker by a string always leaves a text
    under that name in the results, on each of its three paths. *)
Lemma coordinate_assignment_sets_result
  (a : pyval) (wid : string) (task : pyval) (w : world) (r : pdict) :
  py_item a "worker_id" = Ok (VStr wid) ->
  py_item a "task" = Ok task ->
  exists text w',
    coordinate_assignment env dispatch a (w, r)
    = (Ok tt, (w', pset (VStr wid) (VStr text) r)).
Proof.
  intros Hid Htask. run_block. rewrite Hid, Htask. cbn [hashable].
  destruct (sget wid (worker_states (sys w))) as [ws|];
    [destruct (is_busy ws)|]; cbn [fst snd];
    try destruct (dispatch _ _ _ _) as [[result|e] k'];
    cbn [fst snd]; eexists _, _; reflexivity.
Qed.

(** The loop over assignments that all name their worker by a string:
    it ends normally, and the keys of the results are the names in order
    of first appearance. *)
Lemma for_each_assignment_keys (items : list pyval) (ids : list string) :
  Forall2 assignment_names items ids ->
  forall (w : world) (r : pdict) (ks : list string),
    od_keys r = map VStr ks ->
    exists w' r',
      for_each (coordinate_assignment env dispatch) items (w, r) = (Ok tt, (w', r'))
      /\ od_keys r' = map VStr (fold_left (fun acc k => add_key k acc) ids ks).
Proof.
  induction 1 as [|a wid items ids [Hid [task Htask]] _ IH]; intros w r ks Hks.
  - exists w, r. split; [reflexivity | exact Hks].
  - cbn [for_each fold_left]. unfold bind at 1.
    destruct (coordinate_assignment_sets_result a wid task w r Hid Htask) as (text & w1 & ->).
    apply IH. apply od_keys_pset_str, Hks.
Qed.

(** [coordinate_workers] never raises. *)
Lemma coordinate_workers_total (plan : pyval) :
  total (coordinate_workers env dispatch plan).
Proof.
  unfold coordinate_workers. apply total_try_except. intros e. apply total_ret.
Qed.

(** On a plan whose assignments all name their worker by a string, the
    result is a mapping keyed by those names in order of first
    appearance. *)
Lemma coordinate_workers_keys (plan : pyval) (items : list pyval) (ids : list string) :
  plan_assignments plan items ->
  Forall2 assignment_names items ids ->
  forall w, exists r w',
    coordinate_workers env dispatch plan w = (Ok (VDict r), w')
    /\ od_keys r = map VStr (first_occurrences ids).
Proof.
  intros Hplan Hitems w.
  destruct (for_each_assignment_keys items ids Hitems w [] [] eq_refl) as (w' & r & Hloop & Hkeys).
  exists r, w'. split; [|exact Hkeys].
  unfold coordinate_workers, try_except, bind, of_res, with_local, ret.
  rewrite Hplan. cbn [py_iter].
  match goal with
  | |- context [for_each ?b ?l ?f] =>
      replace (for_each b l f) with (@Ok unit tt, (w', r)) by (symmetry; exact Hloop)
  end.
  reflexivity.
Qed.

(** What [coordinate_workers] touches of the run-state. *)
Lemma record_task_preserves (Q : SystemState -> Prop) (worker_id task : pyval) result :
  (forall s ws, Q s -> Q (set_worker_states ws s)) ->
  preserves (on_sys Q) (record_task worker_id task result).
Proof.
  intros HQ. unfold record_task.
  destruct worker_id; try apply preserves_raise.
  apply preserves_modify_sys. intros st Hst. apply HQ, Hst.
Qed.

Lemma coordinate_workers_same_but_workers (s0 : SystemState) (plan : pyval) :
  preserves (on_sys (same_but_workers s0)) (coordinate_workers env dispatch plan).
Proof.
  unfold coordinate_workers, coordinate_assignment, set_result, worker_is_busy.
  repeat first
    [ apply record_task_preserves; intros s ws Hs; exact Hs
    | preserves_step ].
Qed.

Lemma all_idle_set_worker (s : SystemState) (wid : string) (ws : WorkerState) :
  is_busy ws = false -> all_idle s ->
  all_idle (set_worker_states (sset wid ws (worker_states s)) s).
Proof.
  unfold all_idle. cbn [worker_states set_worker_states]. intros Hws Hs.
  apply od_values_set_Forall; assumption.
Qed.

Lemma record_task_all_idle (worker_id task : pyval) result :
  preserves (on_sys all_idle) (record_task worker_id task result).
Proof.
  unfold record_task.
  destruct worker_id; try apply preserves_raise.
  apply preserves_modify_sys. intros s' Hs. apply all_idle_set_worker; [reflexivity | exact Hs].
Qed.

Lemma coordinate_assignment_all_idle (a : pyval) :
  preserves (on_world (on_sys all_idle)) (coordinate_assignment env dispatch a).
Proof.
  unfold coordinate_assignment, set_result, worker_is_busy.
  repeat first [ apply record_task_all_idle | preserves_step ].
Qed.

Lemma coordinate_workers_all_idle (plan : pyval) :
  preserves (on_sys all_idle) (coordinate_workers env dispatch plan).
Proof.
  unfold coordinate_workers.
  repeat first [ apply coordinate_assignment_all_idle | preserves_step ].
Qed.

(** While no worker is marked busy, the availability check answers
    "not busy" (or raises on an unhashable id): the "is busy" branch is
    not taken. *)
Lemma worker_is_busy_idle (worker_id : pyval) (w : world) :
  all_idle (sys w) ->
  fst (worker_is_busy worker_id w) <> Ok true.
Proof.
  intros Hidle. run_block.
  assert (Hget : forall wid ws, sget wid (worker_states (sys w)) = Some ws ->
                                is_busy ws = false).
  { unfold all_idle, od_values, sget in Hidle |- *.
    induction (worker_states (sys w)) as [|[k v] d IH]; cbn; intros wid ws Hg;
      [discriminate|].
    inversion Hidle as [|? ? Hv Hd]; subst.
    destruct (String.eqb k wid); [injection Hg as <-; exact Hv | eapply IH; eauto]. }
  destruct worker_id as [| | | |wid| |]; cbn; try discriminate.
  destruct (sget wid (worker_states (sys w))) as [ws|] eqn:E; cbn; [|discriminate].
  rewrite (Hget _ _ E). discriminate.
Qed.

End Coordinator.

(** ** What [update_memory] leaves alone *)

Section UpdateMemory.
Variables (m : Message) (s : SystemState).

Lemma user_query_update_memory : user_query (update_memory m s) = user_query s.
Proof. unfold update_memory. destruct (message_type m); reflexivity. Qed.

Lemma worker_states_update_memory : worker_states (update_memory m s) = worker_states s.
Proof. unfold update_memory. destruct (message_type m); reflexivity. Qed.

Lemma current_phase_update_memory : current_phase (update_memory m s) = current_phase s.
Proof. unfold update_memory. destruct (message_type m); reflexivity. Qed.

Lemma error_message_update_memory : error_message (update_memory m s) = error_message s.
Proof. unfold update_memory. destruct (message_type m); reflexivity. Qed.

Lemma final_response_update_memory : final_response (update_memory m s) = final_response s.
Proof. unfold update_memory. destruct (message_type m); reflexivity. Qed.

Lemma context_gathered_add_message (mem : SupervisorMemory) :
  context_gathered (add_message mem m) = context_gathered mem.
Proof.
  unfold add_message. cbv zeta.
  destruct (10 <? length (conversation_history mem ++ [m])); reflexivity.
Qed.

(** A supervisor decision only extends the history. *)
Lemma context_get_update_memory_decision (key : string) (default : pyval) :
  message_type m = SUPERVISOR_DECISION ->
  context_get (update_memory m s) key default = context_get s key default.
Proof.
  intros Hm. unfold update_memory, context_get. rewrite Hm.
  cbn [supervisor_memory set_supervisor_memory].
  rewrite context_gathered_add_message. reflexivity.
Qed.

End UpdateMemory.

(** ** The stage handlers *)

Section Stages.
Variable env : Env.
Variable dispatch : pyval -> pyval -> sdict pyval -> Coll string.

Notation analysis_node := (_supervisor_analysis_node env).
Notation gather_node := (_gather_info_node env).
Notation execute_node := (_execute_workers_node env dispatch).
Notation synthesize_node := (_synthesize_results_node env).
Notation handler := (Workflow.handler env dispatch).
Notation run_from := (Workflow.run_from env dispatch).

Ltac run_stage :=
  unfold try_except, bind, ret, raise, of_res, get_sys, modify_sys, lift_coll, fail_with;
  cbn [fst snd sys calls].

Lemma total_fail_with (what : string) (e : exn) : total (fail_with env what e).
Proof. intros w. eexists _, _. reflexivity. Qed.

(** No stage handler raises: each one turns a failure into an
    [error_message]. *)
Lemma handler_total (n : node) : total (handler n).
Proof.
  destruct n; cbn [Workflow.handler];
    apply total_try_except; intros e; apply total_fail_with.
Qed.

Lemma create_execution_plan_returns q a st k :
  exists plan, create_execution_plan env q a st k = (Ok plan, S k).
Proof.
  unfold create_execution_plan, try_except, bind, ainvoke, ret.
  destruct (llm env k); [destruct (json_loads env text)|]; eexists; reflexivity.
Qed.

Lemma synthesize_results_returns v q st k :
  exists text k', synthesize_results env v q st k = (Ok text, k').
Proof.
  unfold synthesize_results, try_except, bind, ainvoke, ret, of_res.
  destruct (py_items v); [destruct (llm env k)|]; eexists _, _; reflexivity.
Qed.

(** *** The analysis stage *)

Lemma analysis_node_cases (w : world) :
  exists w',
    analysis_node w = (Ok tt, w')
    /\ (is_set (error_message (sys w')) = true
        \/ exists q a flag,
             user_query (sys w) = Some q
             /\ analyze_user_query env (Some q) (update_memory (user_message q) (sys w))
                                   (calls w) = (Ok a, S (calls w))
             /\ py_get a "has_sufficient_info" (VBool false) = Ok flag
             /\ w' = {| sys := set_current_phase
                                 (if truthy flag then "processing" else "gathering_info")
                                 (state_update_context "last_analysis" a
                                    (update_memory (user_message q) (sys w)));
                        calls := S (calls w) |}).
Proof.
  unfold _supervisor_analysis_node. run_stage.
  destruct (user_query (sys w)) as [q|] eqn:Hq; cbn [new_message].
  - destruct (analyze_user_query_returns env (Some q)
                (update_memory (user_message q) (sys w)) (calls w)) as (a & Ha).
    unfold user_message in Ha |- *. rewrite user_query_update_memory, Hq, Ha.
    destruct (py_get a "has_sufficient_info" (VBool false)) as [flag|e] eqn:Hflag.
    + destruct (truthy flag) eqn:Ht;
        (eexists; split;
         [ reflexivity
         | right; exists q, a, flag; rewrite Ht; repeat split; assumption ]).
    + eexists. split; [reflexivity|]. left. reflexivity.
  - eexists. split; [reflexivity|]. left. reflexivity.
Qed.

Lemma context_get_update_same (key : string) (v : pyval) (s : SystemState) default :
  context_get (state_update_context key v s) key default = v.
Proof.
  unfold context_get, state_update_context, update_context.
  cbn [supervisor_memory set_supervisor_memory context_gathered set_context_gathered].
  rewrite sget_sset_same. reflexivity.
Qed.

Lemma context_get_update_other (key key' : string) (v : pyval) (s : SystemState) default :
  key <> key' ->
  context_get (state_update_context key v s) key' default = context_get s key' default.
Proof.
  intros Hne. unfold context_get, state_update_context, update_context.
  cbn [supervisor_memory set_supervisor_memory context_gathered set_context_gathered].
  rewrite sget_sset_other by exact Hne. reflexivity.
Qed.

(** After the analysis stage the router never raises, and its answer
    is read off [error_message] and the stored flag. *)
Lemma route_after_analysis_node (w : world) :
  let s1 := sys (snd (analysis_node w)) in
  _route_after_analysis s1
  = Ok (if is_set (error_message s1) then "end"
        else if stored_flag s1 then "execute_workers" else "gather_info").
Proof.
  destruct (analysis_node_cases w) as (w' & -> & [Herr | (q & a & flag & _ & _ & Hflag & ->)]);
    cbn [snd]; unfold _route_after_analysis.
  - rewrite Herr. reflexivity.
  - cbn [sys]. unfold stored_flag.
    change (context_get (set_current_phase ?p ?s) ?k ?d) with (context_get s k d).
    rewrite context_get_update_same, Hflag.
    destruct (is_set _); [reflexivity|]. destruct (truthy flag); reflexivity.
Qed.

Lemma successor_after_analysis_node (w : world) :
  let s1 := sys (snd (analysis_node w)) in
  successor AnalyzeQuery s1
  = Ok (if is_set (error_message s1) then END
        else if stored_flag s1 then Node ExecuteWorkers else Node GatherInfo).
Proof.
  cbv zeta. unfold successor. rewrite route_after_analysis_node.
  destruct (is_set _); [reflexivity|]. destruct (stored_flag _); reflexivity.
Qed.

(** When the analysis stage ends without an error, the phase it leaves
    is decided by the stored flag. *)
Lemma phase_after_analysis_node (w : world) :
  let s1 := sys (snd (analysis_node w)) in
  is_set (error_message s1) = false ->
  current_phase s1 = if stored_flag s1 then "processing" else "gathering_info".
Proof.
  destruct (analysis_node_cases w) as (w' & -> & [Herr | (q & a & flag & _ & _ & Hflag & ->)]);
    cbn [snd]; intros Hno.
  - rewrite Herr in Hno. discriminate.
  - cbn [sys]. unfold stored_flag.
    change (context_get (set_current_phase ?p ?s) ?k ?d) with (context_get s k d).
    rewrite context_get_update_same, Hflag. reflexivity.
Qed.

(** *** The gather-info stage *)

Ltac keeps_field :=
  repeat first
    [ preserves_step
    | apply preserves_modify_sys; intros ? ?;
      rewrite ?current_phase_update_memory, ?worker_states_update_memory;
      assumption ].

Lemma gather_node_keeps_phase (p : string) :
  preserves (on_sys (fun s => current_phase s = p)) gather_node.
Proof.
  unfold _gather_info_node, fail_with. keeps_field.
Qed.

(** Neither the analysis stage nor the gather-info stage touches the
    worker states. *)
Lemma analysis_node_keeps_workers (ws : sdict WorkerState) :
  preserves (on_sys (fun s => worker_states s = ws)) analysis_node.
Proof.
  unfold _supervisor_analysis_node, fail_with. keeps_field.
Qed.

Lemma gather_node_keeps_workers (ws : sdict WorkerState) :
  preserves (on_sys (fun s => worker_states s = ws)) gather_node.
Proof.
  unfold _gather_info_node, fail_with. keeps_field.
Qed.

(** *** One stage of the run *)

Lemma run_from_stage (limit : nat) (n : node) (visited : list node) (w w1 : world) :
  handler n w = (Ok tt, w1) ->
  run_from (S limit) (Node n) visited w
  = match successor n (sys w1) with
    | Ok next => run_from limit next (visited ++ [n]) w1
    | Raise e => (Raise e, w1)
    end.
Proof.
  intros H. cbn [Workflow.run_from]. unfold bind at 1. rewrite H.
  unfold bind, get_sys, of_res. destruct (successor n (sys w1)); reflexivity.
Qed.

Lemma run_from_END (limit : nat) (visited : list node) (w : world) :
  run_from limit END visited w = (Ok visited, w).
Proof. destruct limit; reflexivity. Qed.

(** *** The worker-execution and synthesis stages *)

Lemma execute_node_eq (w : world) :
  exists plan v w2,
    create_execution_plan env (user_query (sys w))
      (context_get (sys w) "last_analysis" (VDict [])) (sys w) (calls w)
    = (Ok plan, S (calls w))
    /\ coordinate_workers env dispatch plan
         {| sys := state_update_context "execution_plan" plan (sys w);
            calls := S (calls w) |}
       = (Ok v, w2)
    /\ execute_node w
       = (Ok tt, {| sys := set_current_phase "completed"
                             (state_update_context "worker_results" v (sys w2));
                    calls := calls w2 |}).
Proof.
  destruct (create_execution_plan_returns (user_query (sys w))
              (context_get (sys w) "last_analysis" (VDict [])) (sys w) (calls w))
    as (plan & Hplan).
  destruct (coordinate_workers_total env dispatch plan
              {| sys := state_update_context "execution_plan" plan (sys w);
                 calls := S (calls w) |}) as (v & w2 & Hv).
  exists plan, v, w2. split; [exact Hplan|]. split; [exact Hv|].
  unfold _execute_workers_node. run_stage. rewrite Hplan. cbn [sys calls].
  rewrite Hv. reflexivity.
Qed.

Lemma synthesize_node_eq (w : world) :
  let v := context_get (sys w) "worker_results" (VDict []) in
  if truthy v then
    exists text k',
      synthesize_results env v (user_query (sys w)) (sys w) (calls w) = (Ok text, k')
      /\ synthesize_node w
         = (Ok tt, {| sys := update_memory (final_message text)
                               (set_final_response (Some text) (sys w));
                      calls := k' |})
  else synthesize_node w = (Ok tt, w).
Proof.
  cbv zeta. unfold _synthesize_results_node. run_stage.
  destruct (truthy (context_get (sys w) "worker_results" (VDict []))).
  - destruct (synthesize_results_returns
                (context_get (sys w) "worker_results" (VDict []))
                (user_query (sys w)) (sys w) (calls w)) as (text & k' & Hs).
    exists text, k'. split; [exact Hs|]. rewrite Hs. reflexivity.
  - reflexivity.
Qed.

(** *** The run when the analysis has sufficient information *)

(** C1 (amended).  When the analysis stage ends without an error and
    with a true "has_sufficient_info", the run executes the analysis,
    worker-execution and synthesis stages and ends with current_phase
    "completed" and no error.  If the stored plan is an object whose
    "worker_assignments" is a list of objects that each have a task and
    name their worker by a string, worker_results has exactly one entry
    per distinct worker name, in order of first appearance: one entry
    per assignment, in assignment order, when the names are pairwise
    distinct.  final_response is set, to the text that
    [synthesize_results] returns, exactly when worker_results is not
    empty; otherwise it stays as it was before the run. *)
Theorem sufficient_info_run_completes (w : world) :
  let s1 := sys (snd (analysis_node w)) in
  is_set (error_message s1) = false ->
  stored_flag s1 = true ->
  exists w',
    graph_ainvoke env dispatch w
    = (Ok [AnalyzeQuery; ExecuteWorkers; SynthesizeResults], w')
    /\ current_phase (sys w') = "completed"
    /\ is_set (error_message (sys w')) = false
    /\ (forall items ids,
          plan_assignments (context_get (sys w') "execution_plan" VNone) items ->
          Forall2 assignment_names items ids ->
          exists r,
            context_get (sys w') "worker_results" (VDict []) = VDict r
            /\ od_keys r = map VStr (first_occurrences ids)
            /\ (NoDup ids -> od_keys r = map VStr ids))
    /\ (truthy (context_get (sys w') "worker_results" (VDict [])) = true ->
        exists text st k k',
          synthesize_results env (context_get (sys w') "worker_results" (VDict []))
                             (user_query (sys w')) st k = (Ok text, k')
          /\ final_response (sys w') = Some text)
    /\ (truthy (context_get (sys w') "worker_results" (VDict [])) = false ->
        final_response (sys w') = final_response (sys w)).
Proof.
  cbv zeta. intros Hno Hflag.
  pose proof (successor_after_analysis_node w) as Hsucc.
  cbv zeta in Hsucc. rewrite Hno, Hflag in Hsucc.
  destruct (analysis_node_cases w)
    as (w1 & Hw1 & [Herr | (q & a & flag & Hq & _ & _ & Hw1eq)]);
    rewrite Hw1 in Hno, Hsucc; cbn [snd] in Hno, Hsucc;
    [rewrite Herr in Hno; discriminate|].
  assert (Hfr1 : final_response (sys w1) = final_response (sys w)).
  { rewrite Hw1eq. cbn [sys]. apply final_response_update_memory. }
  clear Hw1eq.
  (* the worker-execution stage *)
  destruct (execute_node_eq w1) as (plan & v & w2 & _ & Hv & HwE).
  set (s1' := state_update_context "execution_plan" plan (sys w1)) in *.
  pose proof (coordinate_workers_same_but_workers env dispatch s1' plan
                {| sys := s1'; calls := S (calls w1) |}) as Hsame.
  rewrite Hv in Hsame. cbn [snd] in Hsame. unfold on_sys in Hsame. cbn [sys] in Hsame.
  destruct Hsame as (Hmem & Hphase & Hquery & Hfr2 & Herr2);
    [repeat split|].
  set (sE := set_current_phase "completed"
               (state_update_context "worker_results" v (sys w2))) in *.
  assert (HresE : context_get sE "worker_results" (VDict []) = v).
  { unfold sE.
    change (context_get (set_current_phase ?p ?s) ?k ?d) with (context_get s k d).
    apply context_get_update_same. }
  assert (HplanE : context_get sE "execution_plan" VNone = plan).
  { unfold sE.
    change (context_get (set_current_phase ?p ?s) ?k ?d) with (context_get s k d).
    rewrite context_get_update_other by discriminate.
    unfold context_get at 1. rewrite Hmem.
    apply (context_get_update_same "execution_plan" plan (sys w1) VNone). }
  assert (HerrE : error_message sE = error_message (sys w1)).
  { unfold sE. cbn [error_message set_current_phase state_update_context
                      set_supervisor_memory]. exact Herr2. }
  assert (HfrE : final_response sE = final_response (sys w)).
  { unfold sE. cbn [final_response set_current_phase state_update_context
                      set_supervisor_memory]. rewrite Hfr2. exact Hfr1. }
  assert (Hkeys : forall items ids,
             plan_assignments plan items ->
             Forall2 assignment_names items ids ->
             exists r, v = VDict r
                       /\ od_keys r = map VStr (first_occurrences ids)
                       /\ (NoDup ids -> od_keys r = map VStr ids)).
  { intros items ids Hitems Hids.
    destruct (coordinate_workers_keys env dispatch plan items ids Hitems Hids
                {| sys := s1'; calls := S (calls w1) |}) as (r & w2' & Hr & Hk).
    rewrite Hv in Hr. injection Hr as -> _.
    exists r. split; [reflexivity|]. split; [exact Hk|].
    intros Hnd. rewrite Hk, (first_occurrences_NoDup ids Hnd). reflexivity. }
  (* the synthesis stage *)
  pose proof (synthesize_node_eq {| sys := sE; calls := calls w2 |}) as HS.
  cbv zeta in HS. cbn [sys calls] in HS. rewrite HresE in HS.
  assert (Hrun : forall wF,
             synthesize_node {| sys := sE; calls := calls w2 |} = (Ok tt, wF) ->
             graph_ainvoke env dispatch w
             = (Ok [AnalyzeQuery; ExecuteWorkers; SynthesizeResults], wF)).
  { intros wF HwF. unfold graph_ainvoke, recursion_limit.
    rewrite (run_from_stage _ AnalyzeQuery _ w w1 Hw1), Hsucc.
    rewrite (run_from_stage _ ExecuteWorkers _ w1 _ HwE). cbn [successor].
    rewrite (run_from_stage _ SynthesizeResults _ _ wF HwF). reflexivity. }
  destruct (truthy v) eqn:Hv_truthy.
  - destruct HS as (text & k' & Hsyn & HwF).
    eexists. split; [apply Hrun, HwF|]. cbn [sys].
    rewrite !context_get_update_memory_decision by reflexivity.
    change (context_get (set_final_response ?r ?s) ?k ?d) with (context_get s k d).
    rewrite HresE, HplanE, current_phase_update_memory, error_message_update_memory,
      final_response_update_memory, user_query_update_memory.
    cbn [current_phase error_message final_response user_query set_final_response].
    rewrite HerrE, Hv_truthy.
    repeat split; try assumption; try discriminate.
    intros _. exists text, sE, (calls w2), k'. split; [exact Hsyn | reflexivity].
  - eexists. split; [apply Hrun, HS|]. cbn [sys].
    rewrite HresE, HplanE, HerrE, Hv_truthy.
    repeat split; try assumption; try discriminate.
    intros _. exact HfrE.
Qed.

(** *** From worker execution to the end of the run *)

Lemma synthesize_node_keeps_phase (p : string) :
  preserves (on_sys (fun s => current_phase s = p)) synthesize_node.
Proof.
  unfold _synthesize_results_node, fail_with. keeps_field.
Qed.

(** From the worker-execution stage on, the run goes through synthesis
    and ends with current_phase "completed". *)
Lemma run_from_execute_workers (limit : nat) (visited : list node) (w : world) :
  exists w',
    run_from (S (S limit)) (Node ExecuteWorkers) visited w
    = (Ok (visited ++ [ExecuteWorkers; SynthesizeResults]), w')
    /\ current_phase (sys w') = "completed".
Proof.
  destruct (execute_node_eq w) as (plan & v & w2 & _ & _ & HwE).
  destruct (handler_total SynthesizeResults
              {| sys := set_current_phase "completed"
                          (state_update_context "worker_results" v (sys w2));
                 calls := calls w2 |}) as ([] & wF & HwF).
  exists wF. split.
  - rewrite (run_from_stage _ ExecuteWorkers _ w _ HwE). cbn [successor].
    rewrite (run_from_stage _ SynthesizeResults _ _ wF HwF). cbn [successor].
    rewrite run_from_END, <- app_assoc. reflexivity.
  - pose proof (synthesize_node_keeps_phase "completed" _ (eq_refl :
                  on_sys (fun s => current_phase s = "completed")
                    {| sys := set_current_phase "completed"
                                (state_update_context "worker_results" v (sys w2));
                       calls := calls w2 |})) as H.
    cbn [Workflow.handler] in HwF. rewrite HwF in H. exact H.
Qed.

(** *** Routing *)

(** C4.  After the analysis stage the router answers "end" when
    [error_message] is set, otherwise "execute_workers" when the stored
    analysis has a true "has_sufficient_info" and "gather_info" when it
    has not, and the graph follows that answer: with an error the run
    stops after the analysis stage; with a true flag it goes on to worker
    execution and synthesis; with a false flag and no error it consists
    of the analysis and gather-info stages only (the stage that calls the
    worker coordinator is not executed, and the worker states are as they
    were) and ends with current_phase "gathering_info". *)
Theorem routing_after_analysis (w : world) :
  let s1 := sys (snd (analysis_node w)) in
  _route_after_analysis s1
  = Ok (if is_set (error_message s1) then "end"
        else if stored_flag s1 then "execute_workers" else "gather_info")
  /\ successor AnalyzeQuery s1
     = Ok (if is_set (error_message s1) then END
           else if stored_flag s1 then Node ExecuteWorkers else Node GatherInfo)
  /\ (is_set (error_message s1) = true ->
      graph_ainvoke env dispatch w = (Ok [AnalyzeQuery], snd (analysis_node w)))
  /\ (is_set (error_message s1) = false ->
      stored_flag s1 = true ->
      exists w',
        graph_ainvoke env dispatch w
        = (Ok [AnalyzeQuery; ExecuteWorkers; SynthesizeResults], w'))
  /\ (is_set (error_message s1) = false ->
      stored_flag s1 = false ->
      exists w',
        graph_ainvoke env dispatch w = (Ok [AnalyzeQuery; GatherInfo], w')
        /\ ~ In ExecuteWorkers [AnalyzeQuery; GatherInfo]
        /\ worker_states (sys w') = worker_states (sys w)
        /\ current_phase (sys w') = "gathering_info").
Proof.
  cbv zeta. split; [apply route_after_analysis_node|].
  split; [apply successor_after_analysis_node|].
  pose proof (successor_after_analysis_node w) as Hsucc. cbv zeta in Hsucc.
  destruct (handler_total AnalyzeQuery w) as ([] & w1 & Hw1).
  cbn [Workflow.handler] in Hw1. rewrite Hw1 in *. cbn [snd] in *.
  split; [|split].
  { intros Herr. rewrite Herr in Hsucc.
    unfold graph_ainvoke, recursion_limit.
    rewrite (run_from_stage _ AnalyzeQuery _ w w1 Hw1), Hsucc. reflexivity. }
  { intros Hno Hflag. rewrite Hno, Hflag in Hsucc.
    destruct (run_from_execute_workers 22 [AnalyzeQuery] w1) as (w' & Hrun & _).
    exists w'. unfold graph_ainvoke, recursion_limit.
    rewrite (run_from_stage _ AnalyzeQuery _ w w1 Hw1), Hsucc. exact Hrun. }
  intros Hno Hflag.
  pose proof (phase_after_analysis_node w) as Hphase. cbv zeta in Hphase.
  rewrite Hw1 in Hphase. cbn [snd] in Hphase. specialize (Hphase Hno).
  rewrite Hno, Hflag in Hsucc. rewrite Hflag in Hphase.
  destruct (handler_total GatherInfo w1) as ([] & w2 & Hw2).
  exists w2. split; [|split; [|split]].
  - unfold graph_ainvoke, recursion_limit.
    rewrite (run_from_stage _ AnalyzeQuery _ w w1 Hw1), Hsucc.
    rewrite (run_from_stage _ GatherInfo _ w1 w2 Hw2). reflexivity.
  - cbn. intros [H|[H|[]]]; discriminate.
  - pose proof (analysis_node_keeps_workers (worker_states (sys w)) w eq_refl) as H1.
    rewrite Hw1 in H1. cbn [snd] in H1.
    pose proof (gather_node_keeps_workers (worker_states (sys w)) w1 H1) as H2.
    cbn [Workflow.handler] in Hw2. rewrite Hw2 in H2. exact H2.
  - pose proof (gather_node_keeps_phase "gathering_info" w1 Hphase) as H.
    cbn [Workflow.handler] in Hw2. rewrite Hw2 in H. exact H.
Qed.

End Stages.

Lemma routing_after_analysis_witness :
  is_set (error_message
            (sys (snd (_supervisor_analysis_node Examples.chatty
                         (Examples.start "Help me write something"))))) = false
  /\ stored_flag (sys (snd (_supervisor_analysis_node Examples.chatty
                              (Examples.start "Help me write something")))) = false
  /\ exists w',
       Linked.graph_ainvoke Examples.chatty (Examples.start "Help me write something")
       = (Ok [AnalyzeQuery; GatherInfo], w')
       /\ current_phase (sys w') = "gathering_info".
Proof.
  split; [reflexivity|]. split; [reflexivity|].
  destruct (routing_after_analysis Examples.chatty
              (execute_worker_task Examples.chatty)
              (Examples.start "Help me write something")) as (_ & _ & H).
  destruct H as (_ & _ & H).
  destruct H as (w' & Hrun & _ & _ & Hphase); [reflexivity | reflexivity |].
  exists w'. split; assumption.
Defined.

Lemma sufficient_info_run_completes_witness :
  is_set (error_message
            (sys (snd (_supervisor_analysis_node Examples.smooth
                         (Examples.start "Research quantum computing"))))) = false
  /\ stored_flag (sys (snd (_supervisor_analysis_node Examples.smooth
                              (Examples.start "Research quantum computing")))) = true
  /\ exists w',
       Linked.graph_ainvoke Examples.smooth (Examples.start "Research quantum computing")
       = (Ok [AnalyzeQuery; ExecuteWorkers; SynthesizeResults], w')
       /\ current_phase (sys w') = "completed".
Proof.
  split; [reflexivity|]. split; [reflexivity|].
  destruct (sufficient_info_run_completes Examples.smooth
              (execute_worker_task Examples.smooth)
              (Examples.start "Research quantum computing"))
    as (w' & Hrun & Hphase & _); [reflexivity | reflexivity |].
  exists w'. split; assumption.
Defined.

(** C1 as stated fails on two runs.  When the planning call fails, the
    plan is empty, so is worker_results, and the synthesis is skipped: the
    run ends "completed" with no final_response at all.  When the plan gives
    one worker two tasks, worker_results holds one entry for the two
    assignments, and an empty answer of the synthesis call is stored as the
    final_response. *)
Lemma sufficient_info_run_counterexample :
  (let w := Examples.start "Research quantum computing" in
   let s1 := sys (snd (_supervisor_analysis_node Examples.planning_fails w)) in
   let s' := sys (snd (Linked.graph_ainvoke Examples.planning_fails w)) in
   is_set (error_message s1) = false
   /\ stored_flag s1 = true
   /\ current_phase s' = "completed"
   /\ error_message s' = None
   /\ context_get s' "worker_results" VNone = VDict []
   /\ final_response s' = None)
  /\ (let w := Examples.start "Research quantum computing" in
      let s1 := sys (snd (_supervisor_analysis_node Examples.repeated_worker w)) in
      let s' := sys (snd (Linked.graph_ainvoke Examples.repeated_worker w)) in
      is_set (error_message s1) = false
      /\ stored_flag s1 = true
      /\ plan_assignments (context_get s' "execution_plan" VNone)
           [ Examples.two_research_tasks_first; Examples.two_research_tasks_second ]
      /\ error_message s' = None
      /\ context_get s' "worker_results" VNone
         = VDict [(VStr "research_worker", VStr "a summary")]
      /\ final_response s' = Some "").
Proof. repeat split. Qed.

(** ** Query submission *)

Section Submission.
Variable env : Env.
Variable dispatch : pyval -> pyval -> sdict pyval -> Coll string.

Ltac keeps_idle :=
  repeat first
    [ apply coordinate_workers_all_idle
    | preserves_step
    | apply preserves_modify_sys; intros ? ?;
      unfold all_idle in *; rewrite ?worker_states_update_memory; assumption ].

Lemma handler_all_idle (n : node) :
  preserves (on_sys all_idle) (handler env dispatch n).
Proof.
  destruct n; cbn [handler];
    unfold _supervisor_analysis_node, _gather_info_node, _execute_workers_node,
      _synthesize_results_node, fail_with;
    keeps_idle.
Qed.

Lemma run_from_all_idle (limit : nat) : forall v visited,
  preserves (on_sys all_idle) (run_from env dispatch limit v visited).
Proof.
  induction limit as [|limit IH]; intros [n|] visited; cbn [run_from];
    try apply preserves_ret; try apply preserves_raise.
  repeat first [ apply handler_all_idle | apply IH | preserves_step ].
Qed.

Lemma init_worker_state_all_idle (globals : list string) (worker_id : string) :
  preserves (on_sys all_idle) (init_worker_state globals worker_id).
Proof.
  unfold init_worker_state. preserves_step; [preserves_step|].
  apply preserves_modify_sys. intros s Hs.
  apply all_idle_set_worker; [reflexivity | exact Hs].
Qed.

Lemma init_worker_states_all_idle (globals : list string) :
  preserves (on_sys all_idle) (init_worker_states globals).
Proof.
  unfold init_worker_states. apply preserves_for_each. intros worker_id.
  apply init_worker_state_all_idle.
Qed.

Lemma all_idle_new_system_state (q : option string) : all_idle (new_system_state q).
Proof. constructor. Qed.

(** The count reported as "active_workers". *)
Lemma active_workers_idle (s : SystemState) : all_idle s -> active_workers s = 0.
Proof.
  unfold all_idle, active_workers.
  induction (od_values (worker_states s)) as [|ws l IH]; intros H; [reflexivity|].
  inversion H as [|? ? Hws Hl]; subst. cbn [filter]. rewrite Hws. apply IH, Hl.
Qed.

(** The response block writes the three keys whatever the state object
    it is given. *)
Lemma prepare_response_keys (final_state : SystemState) :
  let r := prepare_response final_state in
  sget "current_phase" r = Some (VStr (current_phase final_state))
  /\ sget "supervisor_memory_size" r
     = Some (VInt (Z.of_nat (length (conversation_history
                                       (supervisor_memory final_state)))))
  /\ sget "active_workers" r = Some (VInt (Z.of_nat (active_workers final_state))).
Proof.
  cbv zeta. unfold prepare_response.
  destruct (is_set (error_message final_state));
    [|destruct (current_phase final_state =? "gathering_info")%string;
      [|destruct (current_phase final_state =? "completed")%string]];
    repeat split.
Qed.

(** The graph run never raises: after the analysis stage the router
    has an answer, and every path reaches END within the bound. *)
Lemma graph_ainvoke_total : total (graph_ainvoke env dispatch).
Proof.
  intros w. unfold graph_ainvoke, recursion_limit.
  destruct (handler_total env dispatch AnalyzeQuery w) as ([] & w1 & Hw1).
  rewrite (run_from_stage env dispatch _ AnalyzeQuery _ w w1 Hw1).
  pose proof (successor_after_analysis_node env w) as Hs. cbv zeta in Hs.
  cbn [handler] in Hw1. rewrite Hw1 in Hs. cbn [snd] in Hs. rewrite Hs.
  destruct (is_set (error_message (sys w1))).
  - rewrite run_from_END. eexists _, _. reflexivity.
  - destruct (stored_flag (sys w1)).
    + destruct (run_from_execute_workers env dispatch 22 [AnalyzeQuery] w1)
        as (w' & H & _).
      cbn [app]. rewrite H. eexists _, _. reflexivity.
    + destruct (handler_total env dispatch GatherInfo w1) as ([] & w2 & Hw2).
      rewrite (run_from_stage env dispatch _ GatherInfo _ w1 w2 Hw2).
      cbn [successor]. rewrite run_from_END. eexists _, _. reflexivity.
Qed.

(** A global name is bound, or evaluating it raises NameError. *)
Lemma lookup_global_cases (globals : list string) (name : string) :
  lookup_global globals name = Ok tt
  \/ lookup_global globals name = Raise (NameError name).
Proof.
  unfold lookup_global. destruct (existsb (String.eqb name) globals); [left | right];
    reflexivity.
Qed.

(** What [process_query] does, by the namespace it runs in.  Where the
    name WorkerState is not bound, the first iteration of the
    initialisation raises and nothing else happens.  Where it is bound,
    the graph runs from the initialised state, to its end; what it
    returns is the dictionary of field values, on which reading
    [current_phase] raises.  Either way the outer handler answers. *)
Lemma process_query_in_outcome (globals : list string) (q : string) (k : nat) :
  (lookup_global globals "WorkerState" = Raise (NameError "WorkerState") ->
   process_query_in env dispatch globals q k
   = (Ok (error_response env (NameError "WorkerState")), k))
  /\ (lookup_global globals "WorkerState" = Ok tt ->
      exists visited w',
        graph_ainvoke env dispatch (initialised q k) = (Ok visited, w')
        /\ process_query_in env dispatch globals q k
           = (Ok (error_response env
                    (AttributeError (field_values (sys w')) "current_phase")),
              calls w')).
Proof.
  split; intros Hglobal.
  - unfold process_query_in, try_except, with_state, bind, init_worker_states,
      init_worker_state.
    cbn [WORKER_REGISTRY od_keys map fst for_each]. unfold bind, of_res.
    rewrite Hglobal. reflexivity.
  - destruct (graph_ainvoke_total (initialised q k)) as (visited & w' & Hrun).
    exists visited, w'. split; [exact Hrun|].
    assert (Hinit : init_worker_states globals
                      {| sys := new_system_state (Some q); calls := k |}
                    = (Ok tt, initialised q k)).
    { unfold init_worker_states, init_worker_state.
      cbn [WORKER_REGISTRY od_keys map fst for_each].
      unfold bind, of_res, modify_sys, ret. rewrite Hglobal. reflexivity. }
    unfold process_query_in, try_except, with_state. unfold bind at 1.
    match goal with
    | |- context [init_worker_states globals ?w] =>
        replace (init_worker_states globals w) with (@Ok unit tt, initialised q k)
          by (symmetry; exact Hinit)
    end.
    unfold ainvoke_output, bind.
    match goal with
    | |- context [graph_ainvoke env dispatch ?w] =>
        replace (graph_ainvoke env dispatch w) with (@Ok (list node) visited, w')
          by (symmetry; exact Hrun)
    end.
    reflexivity.
Qed.

(** C9 (amended).  The response block, given a run-state object, builds
    a result that contains "current_phase", "supervisor_memory_size" (the
    number of messages kept in conversation_history) and "active_workers"
    (the number of worker states with is_busy true).  The result of the
    outer exception handler has exactly the keys "status" and "error",
    and none of these three.  [process_query] never raises, and every
    query is answered by the outer handler: with the NameError of the
    initialisation where the name WorkerState is not bound, and
    otherwise, after the graph has run to its end from the initialised
    state, with the AttributeError of reading current_phase on the
    dictionary that the graph returned. *)
Theorem process_query_result_keys (globals : list string) (q : string) (k : nat) :
  (forall final_state : SystemState,
      let r := prepare_response final_state in
      sget "current_phase" r = Some (VStr (current_phase final_state))
      /\ sget "supervisor_memory_size" r
         = Some (VInt (Z.of_nat (length (conversation_history
                                           (supervisor_memory final_state)))))
      /\ sget "active_workers" r = Some (VInt (Z.of_nat (active_workers final_state))))
  /\ exists e k',
      process_query_in env dispatch globals q k = (Ok (error_response env e), k')
      /\ od_keys (error_response env e) = ["status"; "error"]
      /\ sget "current_phase" (error_response env e) = None
      /\ sget "supervisor_memory_size" (error_response env e) = None
      /\ sget "active_workers" (error_response env e) = None
      /\ ((lookup_global globals "WorkerState" = Raise (NameError "WorkerState")
           /\ e = NameError "WorkerState"
           /\ k' = k)
          \/ (lookup_global globals "WorkerState" = Ok tt
              /\ exists visited w',
                   graph_ainvoke env dispatch (initialised q k) = (Ok visited, w')
                   /\ e = AttributeError (field_values (sys w')) "current_phase"
                   /\ k' = calls w')).
Proof.
  split; [apply prepare_response_keys|].
  destruct (process_query_in_outcome globals q k) as (Hunbound & Hbound).
  destruct (lookup_global_cases globals "WorkerState") as [Hg|Hg].
  - destruct (Hbound Hg) as (visited & w' & Hrun & Hres).
    exists (AttributeError (field_values (sys w')) "current_phase"), (calls w').
    split; [exact Hres|]. repeat (split; [reflexivity|]).
    right. split; [exact Hg|]. exists visited, w'. repeat split. exact Hrun.
  - exists (NameError "WorkerState"), k.
    split; [exact (Hunbound Hg)|]. repeat (split; [reflexivity|]).
    left. repeat split. exact Hg.
Qed.

(** C8 (the code departs from the claim).  As workflow.py is written,
    the name WorkerState is not bound when [process_query] initialises
    the worker states: the first iteration raises NameError, the outer
    handler catches it, and every query, whatever the chat model would
    have answered, gets status "error". *)
Theorem process_query_reports_name_error (q : string) (k : nat) :
  process_query env dispatch q k
  = (Ok [ ("status", VStr "error");
          ("error",
           VStr "Workflow execution error: name 'WorkerState' is not defined") ],
     k).
Proof. reflexivity. Qed.

(** C10 (the code departs from the last clause of the claim).  In every
    state met during a run of [process_query] every worker state has
    is_busy false, so that the availability check of
    [coordinate_workers] never answers "busy" and the count of busy
    workers is 0.  The query-submission result, however, has no
    "active_workers" entry at all: every query is answered by the outer
    handler, whatever the namespace. *)
Theorem no_worker_is_ever_busy (globals : list string) (q : string) (k0 : nat) :
  (forall w,
      reachable env dispatch globals q k0 w ->
      all_idle (sys w)
      /\ (forall worker_id, fst (worker_is_busy worker_id w) <> Ok true)
      /\ active_workers (sys w) = 0)
  /\ exists r k',
      process_query_in env dispatch globals q k0 = (Ok r, k')
      /\ sget "active_workers" r = None.
Proof.
  assert (Hreach : forall w, reachable env dispatch globals q k0 w -> all_idle (sys w)).
  { induction 1 as [|worker_id w _ IH|n w _ IH|a w r _ IH].
    - apply all_idle_new_system_state.
    - apply (init_worker_state_all_idle globals worker_id w IH).
    - apply (handler_all_idle n w IH).
    - apply (coordinate_assignment_all_idle env dispatch a (w, r) IH). }
  split.
  - intros w Hw. specialize (Hreach w Hw). split; [exact Hreach|]. split.
    + intros worker_id. apply worker_is_busy_idle, Hreach.
    + apply active_workers_idle, Hreach.
  - destruct (process_query_in_outcome globals q k0) as (Hunbound & Hbound).
    destruct (lookup_global_cases globals "WorkerState") as [Hg|Hg].
    + destruct (Hbound Hg) as (visited & w' & _ & Hres).
      eexists _, _. split; [exact Hres | reflexivity].
    + eexists _, _. split; [exact (Hunbound Hg) | reflexivity].
Qed.

End Submission.

(** C9 as stated fails at the query "Help me write something": the result
    that [process_query] returns comes from the outer handler and has none
    of the three keys. *)
Lemma process_query_result_keys_counterexample :
  exists r,
    Linked.process_query Examples.chatty "Help me write something" 0 = (Ok r, 0)
    /\ sget "current_phase" r = None
    /\ sget "supervisor_memory_size" r = None
    /\ sget "active_workers" r = None.
Proof. eexists. repeat split. Qed.

Lemma no_worker_is_ever_busy_witness :
  let w := snd (handler Examples.chatty (execute_worker_task Examples.chatty)
                  ExecuteWorkers
                  {| sys := new_system_state (Some "Research quantum computing");
                     calls := 0 |}) in
  reachable Examples.chatty (execute_worker_task Examples.chatty)
            workflow_globals "Research quantum computing" 0 w
  /\ od_keys (worker_states (sys w)) = ["research_worker"; "creative_worker"]
  /\ all_idle (sys w)
  /\ exists r,
       Linked.process_query Examples.chatty "Research quantum computing" 0 = (Ok r, 0)
       /\ sget "active_workers" r = None.
Proof.
  cbv zeta.
  pose proof (no_worker_is_ever_busy Examples.chatty (execute_worker_task Examples.chatty)
                workflow_globals "Research quantum computing" 0)
    as (Hinv & _).
  assert (Hreach : reachable Examples.chatty (execute_worker_task Examples.chatty)
            workflow_globals "Research quantum computing" 0
            (snd (handler Examples.chatty (execute_worker_task Examples.chatty)
                    ExecuteWorkers
                    {| sys := new_system_state (Some "Research quantum computing");
                       calls := 0 |})))
    by apply reach_stage, reach_start.
  split; [exact Hreach|]. split; [reflexivity|].
  split; [exact (proj1 (Hinv _ Hreach))|].
  eexists. split; reflexivity.
Defined.


(* ================================================================== *)
(** * Further properties of the code *)
(* ================================================================== *)
Import More.

(** ** The memory store *)

Section MemoryStore.

(** X1.  [add_message] always keeps the message it was given: the new
    history ends with it and is the tail of the old history followed by
    the message; it holds [min 10 (n + 1)] messages when the old one held
    [n]; nothing else of the memory changes. *)
Theorem add_message_newest_last (mem : SupervisorMemory) (m : Message) :
  let mem' := add_message mem m in
  ends_with (conversation_history mem') [m]
  /\ ends_with (conversation_history mem ++ [m]) (conversation_history mem')
  /\ length (conversation_history mem')
     = Nat.min 10 (S (length (conversation_history mem)))
  /\ context_gathered mem' = context_gathered mem
  /\ user_preferences mem' = user_preferences mem
  /\ decision_history mem' = decision_history mem.
Proof.
  cbv zeta. rewrite add_message_history.
  set (h := conversation_history mem).
  assert (Hk : length (h ++ [m]) - 10 <= length h)
    by (rewrite length_app; cbn [length]; lia).
  split; [|split; [|split]].
  - exists (skipn (length (h ++ [m]) - 10) h). apply skipn_app_snoc, Hk.
  - exists (firstn (length (h ++ [m]) - 10) (h ++ [m])).
    symmetry. apply firstn_skipn.
  - rewrite length_skipn, length_app. cbn [length]. lia.
  - unfold add_message. cbv zeta.
    destruct (10 <? length (conversation_history mem ++ [m])); repeat split.
Qed.

(** X2.  Whatever the integer limit, [get_recent_context] returns a tail
    of the history, in order.  A positive limit gives the last
    [min limit n] messages; a limit that is zero or negative gives the
    history without its first [-limit] messages (all of it for 0). *)
Theorem get_recent_context_is_tail (mem : SupervisorMemory) (limit : Z) :
  let h := conversation_history mem in
  let recent := get_recent_context mem limit in
  ends_with h recent
  /\ ((0 < limit)%Z -> length recent = Nat.min (Z.to_nat limit) (length h))
  /\ ((limit <= 0)%Z -> recent = skipn (Z.to_nat (- limit)) h).
Proof.
  cbv zeta. unfold get_recent_context, ends_with.
  destruct (conversation_history mem) as [|m h] eqn:E.
  - split; [exists []; reflexivity|]. split; intros _; [cbn; lia|].
    rewrite skipn_nil. reflexivity.
  - unfold slice_from. set (l := m :: h).
    split; [|split].
    + eexists. symmetry. apply firstn_skipn.
    + intros Hpos. destruct (Z.ltb_spec (- limit) 0); [|lia].
      rewrite length_skipn. lia.
    + intros Hneg. destruct (Z.ltb_spec (- limit) 0); [lia|].
      destruct (Z.le_ge_cases (- limit) (Z.of_nat (length l))) as [Hle|Hge].
      * rewrite Z.min_l by exact Hle. reflexivity.
      * rewrite Z.min_r by lia. rewrite Nat2Z.id.
        rewrite !skipn_all2; [reflexivity | lia | lia].
Qed.

End MemoryStore.

Lemma get_recent_context_is_tail_witness :
  (0 < 5)%Z
  /\ length (get_recent_context twelve_messages 5) = 5
  /\ (-2 <= 0)%Z
  /\ length (get_recent_context twelve_messages (-2)) = 10.
Proof.
  destruct (get_recent_context_is_tail twelve_messages 5) as (_ & Hpos & _).
  destruct (get_recent_context_is_tail twelve_messages (-2)) as (_ & _ & Hneg).
  split; [lia|]. split; [rewrite Hpos by lia; reflexivity|].
  split; [lia|]. rewrite Hneg by lia. reflexivity.
Defined.

Section ContextStore.

Lemma od_keys_sset {V} (k : string) (v : V) (d : sdict V) :
  od_keys (sset k v d) = add_key k (od_keys d).
Proof.
  unfold od_keys, sset, add_key. induction d as [|[k0 v0] d IH]; [reflexivity|].
  cbn [od_set map fst existsb]. rewrite (String.eqb_sym k k0).
  destruct (String.eqb k0 k); cbn [orb map fst]; [reflexivity|].
  rewrite IH. destruct (existsb (String.eqb k) (map fst d)); reflexivity.
Qed.

(** X3.  [update_context] followed by a lookup of the same key returns
    the value just stored; every other key keeps its value; the keys keep
    their order, a new key going last and an existing one staying where
    it is; the conversation history is untouched. *)
Theorem update_context_lookup (mem : SupervisorMemory) (key : string) (value : pyval) :
  let mem' := update_context mem key value in
  sget key (context_gathered mem') = Some value
  /\ (forall other, other <> key ->
        sget other (context_gathered mem') = sget other (context_gathered mem))
  /\ od_keys (context_gathered mem') = add_key key (od_keys (context_gathered mem))
  /\ conversation_history mem' = conversation_history mem.
Proof.
  cbv zeta. unfold update_context.
  cbn [context_gathered set_context_gathered conversation_history].
  split; [apply sget_sset_same|]. split; [|split; [apply od_keys_sset | reflexivity]].
  intros other Hne. apply sget_sset_other. congruence.
Qed.

Lemma history_update_memory (m : Message) (s : SystemState) :
  conversation_history (supervisor_memory (update_memory m s))
  = conversation_history (add_message (supervisor_memory s) m).
Proof. unfold update_memory. destruct (message_type m); reflexivity. Qed.

Lemma history_update_memory_capped (m : Message) (s : SystemState) :
  length (conversation_history (supervisor_memory (update_memory m s))) <= 10.
Proof.
  rewrite history_update_memory, add_message_history, length_skipn. lia.
Qed.

(** X4.  [update_memory] appends the message through [add_message], so
    that afterwards the history holds at most ten messages whatever it
    held before; a user input is then found under "last_user_input", a
    worker response under "worker_<sender>_last_response", and a message
    of any other kind leaves the gathered context as it was; worker
    states, phase, query, final response and error message are
    untouched. *)
Theorem update_memory_records (message : Message) (state : SystemState) :
  let state' := update_memory message state in
  conversation_history (supervisor_memory state')
  = conversation_history (add_message (supervisor_memory state) message)
  /\ length (conversation_history (supervisor_memory state')) <= 10
  /\ (message_type message = USER_INPUT ->
      context_get state' "last_user_input" VNone = VStr (content message))
  /\ (message_type message = WORKER_RESPONSE ->
      context_get state' ("worker_" ++ sender message ++ "_last_response")%string VNone
      = VStr (content message))
  /\ (message_type message <> USER_INPUT ->
      message_type message <> WORKER_RESPONSE ->
      context_gathered (supervisor_memory state')
      = context_gathered (supervisor_memory state))
  /\ worker_states state' = worker_states state
  /\ current_phase state' = current_phase state
  /\ user_query state' = user_query state
  /\ final_response state' = final_response state
  /\ error_message state' = error_message state.
Proof.
  cbv zeta.
  split; [apply history_update_memory|].
  split; [apply history_update_memory_capped|].
  rewrite worker_states_update_memory, current_phase_update_memory,
    user_query_update_memory, final_response_update_memory, error_message_update_memory.
  unfold update_memory.
  destruct (message_type message); repeat split; try congruence; intros;
    try apply context_get_update_same;
    cbn [supervisor_memory set_supervisor_memory];
    apply context_gathered_add_message.
Qed.

End ContextStore.

Lemma update_context_lookup_witness :
  "last_analysis" <> "last_user_input"
  /\ sget "last_analysis"
       (context_gathered
          (update_context (update_context empty_memory "last_analysis" (VBool true))
                          "last_user_input" (VStr "Help")))
     = Some (VBool true).
Proof.
  assert (H : "last_analysis" <> "last_user_input") by discriminate.
  split; [exact H|].
  destruct (update_context_lookup
              (update_context empty_memory "last_analysis" (VBool true))
              "last_user_input" (VStr "Help")) as (_ & Hother & _).
  rewrite (Hother "last_analysis" H). reflexivity.
Defined.

Lemma update_memory_records_witness :
  message_type (Examples.msg "Help me write something") = USER_INPUT
  /\ context_get (update_memory (Examples.msg "Help me write something")
                                (new_system_state None))
                 "last_user_input" VNone
     = VStr "Help me write something".
Proof.
  split; [reflexivity|].
  destruct (update_memory_records (Examples.msg "Help me write something")
              (new_system_state None)) as (_ & _ & H & _).
  exact (H eq_refl).
Defined.

(** ** Follow-up questions *)

Section Strings.

(** The bytes of a white-space character of two or three bytes are above
    the ASCII range. *)
Lemma is_space2_high (a b : ascii) :
  is_space2 a b = true -> 128 <= nat_of_ascii a /\ 128 <= nat_of_ascii b.
Proof.
  unfold is_space2. cbv zeta. intros H.
  apply andb_true_iff in H. destruct H as (Ha & Hb).
  apply Nat.eqb_eq in Ha. apply orb_true_iff in Hb.
  destruct Hb as [Hb|Hb]; apply Nat.eqb_eq in Hb; lia.
Qed.

Lemma is_space3_high (a b c : ascii) :
  is_space3 a b c = true ->
  128 <= nat_of_ascii a /\ 128 <= nat_of_ascii b /\ 128 <= nat_of_ascii c.
Proof.
  unfold is_space3. cbv zeta. intros H.
  repeat match type of H with
         | (_ || _)%bool = true => apply orb_true_iff in H; destruct H as [H|H]
         end;
    repeat match goal with
           | H : (_ && _)%bool = true |- _ => apply andb_true_iff in H; destruct H
           | H : (_ || _)%bool = true |- _ => apply orb_true_iff in H; destruct H
           | H : (_ =? _) = true |- _ => apply Nat.eqb_eq in H
           | H : (_ <=? _) = true |- _ => apply Nat.leb_le in H
           end; lia.
Qed.

Lemma visible_differs (c a : ascii) :
  visible c -> is_space a = true \/ 128 <= nat_of_ascii a -> Ascii.eqb a c = false.
Proof.
  intros (Hs & Hc) Ha. destruct (Ascii.eqb_spec a c) as [->|_]; [|reflexivity].
  destruct Ha as [Ha|Ha]; [congruence | lia].
Qed.

(** Dropping a white-space character drops no visible character. *)
Lemma drop_space_spec (s r : string) :
  drop_space s = Some r ->
  String.length r < String.length s
  /\ (forall v, drop_space (s ++ v)%string = Some (r ++ v)%string)
  /\ (forall c, visible c -> contains c s = contains c r).
Proof.
  destruct s as [|a [|b [|d s3]]]; cbn [drop_space]; try discriminate.
  - destruct (is_space a) eqn:Ha; [|discriminate]. intros [= <-].
    split; [cbn; lia|]. split.
    + intros v. cbn [append drop_space]. rewrite Ha. reflexivity.
    + intros c Hc. cbn [contains]. rewrite (visible_differs c a Hc) by (left; exact Ha).
      reflexivity.
  - destruct (is_space a) eqn:Ha.
    + intros [= <-]. split; [cbn; lia|]. split.
      * intros v. cbn [append drop_space]. rewrite Ha. reflexivity.
      * intros c Hc. cbn [contains].
        rewrite (visible_differs c a Hc) by (left; exact Ha). reflexivity.
    + destruct (is_space2 a b) eqn:Hab; [|discriminate]. intros [= <-].
      destruct (is_space2_high a b Hab) as (Ha' & Hb').
      split; [cbn; lia|]. split.
      * intros v. cbn [append drop_space]. rewrite Ha, Hab. reflexivity.
      * intros c Hc. cbn [contains].
        rewrite (visible_differs c a Hc), (visible_differs c b Hc) by (right; assumption).
        reflexivity.
  - destruct (is_space a) eqn:Ha.
    + intros [= <-]. split; [cbn; lia|]. split.
      * intros v. cbn [append drop_space]. rewrite Ha. reflexivity.
      * intros c Hc. cbn [contains].
        rewrite (visible_differs c a Hc) by (left; exact Ha). reflexivity.
    + destruct (is_space2 a b) eqn:Hab.
      * intros [= <-]. destruct (is_space2_high a b Hab) as (Ha' & Hb').
        split; [cbn; lia|]. split.
        -- intros v. cbn [append drop_space]. rewrite Ha, Hab. reflexivity.
        -- intros c Hc. cbn [contains].
           rewrite (visible_differs c a Hc), (visible_differs c b Hc)
             by (right; assumption).
           reflexivity.
      * destruct (is_space3 a b d) eqn:Habd; [|discriminate]. intros [= <-].
        destruct (is_space3_high a b d Habd) as (Ha' & Hb' & Hd').
        split; [cbn; lia|]. split.
        -- intros v. cbn [append drop_space]. rewrite Ha, Hab, Habd. reflexivity.
        -- intros c Hc. cbn [contains].
           rewrite (visible_differs c a Hc), (visible_differs c b Hc),
             (visible_differs c d Hc) by (right; assumption).
           reflexivity.
Qed.

(** [lstrip] drops white-space characters while there is one in front. *)
Lemma lstrip_eq (s : string) :
  lstrip s = match drop_space s with
             | Some r => lstrip r
             | None => s
             end.
Proof.
  destruct s as [|a [|b [|d s3]]]; cbn [lstrip drop_space]; try reflexivity;
    destruct (is_space a); try reflexivity;
    destruct (is_space2 a b); try reflexivity;
    destruct (is_space3 a b d); reflexivity.
Qed.

Lemma by_length (P : string -> Prop) :
  (forall s, (forall t, String.length t < String.length s -> P t) -> P s) ->
  forall s, P s.
Proof.
  intros step s.
  assert (H : forall n t, String.length t < n -> P t).
  { induction n as [|n IH]; intros t Ht; [lia|].
    apply step. intros u Hu. apply IH. lia. }
  apply (H (S (String.length s))). lia.
Qed.

Lemma contains_lstrip (c : ascii) (s : string) :
  visible c -> contains c (lstrip s) = contains c s.
Proof.
  intros Hc. induction s as [s IH] using by_length.
  rewrite lstrip_eq. destruct (drop_space s) as [r|] eqn:E; [|reflexivity].
  destruct (drop_space_spec s r E) as (Hlen & _ & Hcontains).
  rewrite (IH r Hlen). symmetry. apply Hcontains, Hc.
Qed.

Lemma lstrip_clean_start (s : string) : clean_start (lstrip s).
Proof.
  unfold clean_start. induction s as [s IH] using by_length.
  rewrite lstrip_eq. destruct (drop_space s) as [r|] eqn:E; [|exact E].
  apply IH. apply (drop_space_spec s r E).
Qed.

Lemma lstrip_of_clean_start (s : string) : clean_start s -> lstrip s = s.
Proof. unfold clean_start. intros H. rewrite lstrip_eq, H. reflexivity. Qed.

Lemma contains_space_char (c : ascii) (t : string) :
  visible c -> is_space_char t = true -> contains c t = false.
Proof.
  intros Hc. destruct t as [|a [|b [|d [|? ?]]]]; cbn [is_space_char contains];
    try discriminate; intros H.
  - rewrite (visible_differs c a Hc) by (left; exact H). reflexivity.
  - destruct (is_space2_high a b H) as (Ha & Hb).
    rewrite (visible_differs c a Hc), (visible_differs c b Hc) by (right; assumption).
    reflexivity.
  - destruct (is_space3_high a b d H) as (Ha & Hb & Hd).
    rewrite (visible_differs c a Hc), (visible_differs c b Hc), (visible_differs c d Hc)
      by (right; assumption).
    reflexivity.
Qed.

Lemma contains_rstrip (c : ascii) (s : string) :
  visible c -> contains c (rstrip s) = contains c s.
Proof.
  intros Hc. induction s as [|a s IH]; [reflexivity|].
  cbn [rstrip]. cbv zeta.
  assert (E : contains c (String a (rstrip s)) = contains c (String a s))
    by (cbn [contains]; rewrite IH; reflexivity).
  destruct (is_space_char (String a (rstrip s))) eqn:Hsp; [|exact E].
  rewrite <- E. symmetry. apply contains_space_char; assumption.
Qed.

Lemma contains_strip (c : ascii) (s : string) :
  visible c -> contains c (strip s) = contains c s.
Proof.
  intros Hc. unfold strip. rewrite contains_rstrip, contains_lstrip by exact Hc.
  reflexivity.
Qed.

Lemma question_mark_visible : visible "?"%char.
Proof. split; [reflexivity | cbn; lia]. Qed.

(** What [rstrip] keeps is a prefix of the string. *)
Lemma rstrip_prefix (s : string) : exists v, s = (rstrip s ++ v)%string.
Proof.
  induction s as [|a s (v & IH)]; [exists EmptyString; reflexivity|].
  cbn [rstrip]. cbv zeta.
  destruct (is_space_char (String a (rstrip s))).
  - exists (String a s). reflexivity.
  - exists v. cbn [append]. rewrite <- IH. reflexivity.
Qed.

Lemma rstrip_clean_start (s : string) : clean_start s -> clean_start (rstrip s).
Proof.
  unfold clean_start. intros Hs.
  destruct (drop_space (rstrip s)) as [r|] eqn:E; [|reflexivity].
  destruct (rstrip_prefix s) as (v & Hv).
  destruct (drop_space_spec _ r E) as (_ & Happ & _).
  rewrite Hv, (Happ v) in Hs. discriminate.
Qed.

Lemma rstrip_idempotent (s : string) : rstrip (rstrip s) = rstrip s.
Proof.
  induction s as [|a s IH]; [reflexivity|].
  cbn [rstrip]. cbv zeta.
  destruct (is_space_char (String a (rstrip s))) eqn:E; [reflexivity|].
  cbn [rstrip]. cbv zeta. rewrite IH, E. reflexivity.
Qed.

Lemma strip_idempotent (s : string) : strip (strip s) = strip s.
Proof.
  unfold strip.
  rewrite (lstrip_of_clean_start (rstrip (lstrip s))).
  - apply rstrip_idempotent.
  - apply rstrip_clean_start, lstrip_clean_start.
Qed.

Lemma Forall_firstn_of {A} (P : A -> Prop) (n : nat) (l : list A) :
  Forall P l -> Forall P (firstn n l).
Proof.
  intros H. rewrite <- (firstn_skipn n l) in H. apply Forall_app in H. apply H.
Qed.

(** Every question kept from an answer is a stripped line of the answer
    that holds a question mark. *)
Lemma question_lines_spec (content : string) :
  Forall (fun s => contains "?"%char s = true /\ s <> ""%string /\ strip s = s
                   /\ exists line, In line (split newline content) /\ s = strip line)
         (question_lines content).
Proof.
  unfold question_lines. apply Forall_forall. intros s Hs.
  apply in_map_iff in Hs. destruct Hs as (line & <- & Hline).
  apply filter_In in Hline. destruct Hline as (Hin & Hkeep).
  apply andb_true_iff in Hkeep. destruct Hkeep as (Hne & Hq).
  split; [rewrite contains_strip by exact question_mark_visible; exact Hq|].
  split; [intros E; rewrite E in Hne; discriminate|].
  split; [apply strip_idempotent|].
  exists line. split; [exact Hin | reflexivity].
Qed.

End Strings.

Section FollowUp.
Variable env : Env.

(** X5.  When the chat model answers, [generate_follow_up_questions]
    returns at most three questions; each one contains a question mark,
    is not empty, has no white space at either end, and is a stripped
    line of the answer.  (The list is empty when no line of the answer
    holds a question mark.) *)
Theorem follow_up_questions_from_answer
  (missing : pyval) (q : option string) (k : nat) (joined content : string) :
  py_join ", " missing = Ok joined ->
  llm env k = Content content ->
  exists questions,
    generate_follow_up_questions env missing q k = (Ok questions, S k)
    /\ length questions <= 3
    /\ Forall (fun s => contains "?"%char s = true /\ s <> ""%string /\ strip s = s
                        /\ exists line, In line (split newline content) /\ s = strip line)
              questions
    /\ (contains "?"%char content = false -> questions = []).
Proof.
  intros Hjoin Hllm.
  exists (slice_to 3 (question_lines content)).
  split; [|split; [|split]].
  - unfold generate_follow_up_questions, try_except, bind, of_res, ainvoke, ret.
    rewrite Hjoin, Hllm. reflexivity.
  - unfold slice_to. rewrite length_firstn. lia.
  - apply Forall_firstn_of, question_lines_spec.
  - intros Hno.
    assert (Hnone : question_lines content = []).
    { pose proof (question_lines_spec content) as Hall.
      destruct (question_lines content) as [|s l]; [reflexivity|].
      inversion Hall as [|? ? (Hq & _ & _ & line & Hin & ->) _]; subst.
      rewrite contains_strip in Hq by exact question_mark_visible.
      exfalso. clear - Hno Hin Hq.
      assert (Hsplit : forall s cur line,
                 In line (split_on newline s cur) ->
                 contains "?"%char line = true ->
                 contains "?"%char s = true \/ contains "?"%char cur = true).
      { induction s as [|a s IH]; intros cur ln Hln Hc; cbn [split_on] in Hln.
        - destruct Hln as [<-|[]]. right. exact Hc.
        - cbn [contains]. destruct (Ascii.eqb_spec a newline) as [->|Hne].
          + destruct Hln as [<-|Hln]; [right; exact Hc|].
            destruct (IH _ _ Hln Hc) as [H|H]; [left|discriminate H].
            rewrite H. apply orb_true_r.
          + destruct (IH _ _ Hln Hc) as [H|H]; [left; rewrite H; apply orb_true_r|].
            assert (Happ : forall x y, contains "?"%char (x ++ y)
                                       = contains "?"%char x || contains "?"%char y).
            { induction x as [|b x IHx]; intros y; [reflexivity|].
              cbn [append contains]. rewrite IHx. apply orb_assoc. }
            rewrite Happ in H. cbn [contains] in H. rewrite orb_false_r in H.
            apply orb_true_iff in H. destruct H as [H|H]; [right; exact H|].
            left. rewrite H. reflexivity. }
      destruct (Hsplit content EmptyString line Hin Hq) as [H|H];
        [rewrite H in Hno|]; discriminate. }
    rewrite Hnone. reflexivity.
Qed.

(** X6.  When the chat model fails, [generate_follow_up_questions]
    returns the single question "Could you provide more details about:
    <missing details joined by commas>".  When the missing details cannot
    be joined (they are not a sequence of strings), the function raises:
    the prompt fails before any call is made and the handler, which joins
    them again, fails the same way. *)
Theorem follow_up_questions_fallback (missing : pyval) (q : option string) (k : nat) :
  (forall joined cause,
      py_join ", " missing = Ok joined ->
      llm env k = Failure cause ->
      generate_follow_up_questions env missing q k
      = (Ok [("Could you provide more details about: " ++ joined)%string], S k))
  /\ (forall e,
         py_join ", " missing = Raise e ->
         generate_follow_up_questions env missing q k = (Raise e, k)).
Proof.
  split.
  - intros joined cause Hjoin Hllm.
    unfold generate_follow_up_questions, try_except, bind, of_res, ainvoke, ret.
    rewrite Hjoin, Hllm. reflexivity.
  - intros e Hjoin.
    unfold generate_follow_up_questions, try_except, bind, of_res, ainvoke, ret.
    rewrite Hjoin. reflexivity.
Qed.

End FollowUp.

Lemma follow_up_questions_from_answer_witness :
  py_join ", " (VList [VStr "topic"; VStr "length"]) = Ok "topic, length"
  /\ exists questions,
       generate_follow_up_questions asks (VList [VStr "topic"; VStr "length"])
                                    (Some "Help me write something") 0
       = (Ok questions, 1)
       /\ questions = ["Which topic do you have in mind?";
                       "What length should the text have?"].
Proof.
  split; [reflexivity|].
  destruct (follow_up_questions_from_answer asks (VList [VStr "topic"; VStr "length"])
              (Some "Help me write something") 0 _ _ eq_refl eq_refl)
    as (questions & Hq & _).
  exists questions. split; [exact Hq|].
  cbv in Hq. injection Hq as <-. reflexivity.
Defined.

Lemma follow_up_questions_fallback_witness :
  py_join ", " unjoinable = Raise (TypeError JoinItem (VInt 3))
  /\ generate_follow_up_questions Examples.offline unjoinable None 0
     = (Raise (TypeError JoinItem (VInt 3)), 0)
  /\ generate_follow_up_questions Examples.offline (VList [VStr "topic"]) None 0
     = (Ok ["Could you provide more details about: topic"], 1).
Proof.
  destruct (follow_up_questions_fallback Examples.offline unjoinable None 0) as (_ & Hraise).
  destruct (follow_up_questions_fallback Examples.offline (VList [VStr "topic"]) None 0)
    as (Hfall & _).
  split; [reflexivity|]. split; [apply Hraise; reflexivity|].
  apply (Hfall "topic" "connection refused"); reflexivity.
Defined.


(** ** Dispatch *)

Section Dispatch.
Variable env : Env.

Lemma execute_worker_task_string (wid : string) (task : pyval) (context : sdict pyval)
  (k : nat) :
  execute_worker_task env (VStr wid) task context k
  = (Ok (fst (dispatch_outcome env wid k)), snd (dispatch_outcome env wid k)).
Proof.
  unfold execute_worker_task, dispatch_outcome, bind, of_res, lookup_str_keyed.
  cbn [hashable]. destruct (sget wid WORKER_REGISTRY) as [kind|]; [|reflexivity].
  unfold process_task, try_except, ainvoke, worker_text, ret.
  destruct (llm env k); reflexivity.
Qed.

(** X7.  [execute_worker_task] raises exactly when the worker id is
    unhashable (a list or an object), and then makes no call; for every
    other id it returns a text after at most one call to the chat model;
    for a registered worker it makes exactly one call and returns the
    answer, or "Error in research worker: <cause>" (resp. "creative")
    when the call fails. *)
Theorem execute_worker_task_outcomes
  (worker_id task : pyval) (context : sdict pyval) (k : nat) :
  (hashable worker_id = false ->
   execute_worker_task env worker_id task context k
   = (Raise (TypeError Unhashable worker_id), k))
  /\ (hashable worker_id = true ->
      exists text k',
        execute_worker_task env worker_id task context k = (Ok text, k')
        /\ (k' = k \/ k' = S k))
  /\ (forall wid kind,
         worker_id = VStr wid ->
         sget wid WORKER_REGISTRY = Some kind ->
         execute_worker_task env worker_id task context k
         = (Ok (worker_text env kind k), S k)).
Proof.
  split; [|split].
  - intros Hh. unfold execute_worker_task, bind, of_res, lookup_str_keyed.
    rewrite Hh. reflexivity.
  - intros Hh. destruct worker_id as [| | | |wid| |]; try discriminate Hh;
      try (eexists _, k; split; [reflexivity | left; reflexivity]).
    rewrite execute_worker_task_string. unfold dispatch_outcome.
    destruct (sget wid WORKER_REGISTRY); eexists _, _;
      (split; [reflexivity|]); [right | left]; reflexivity.
  - intros wid kind -> Hreg. rewrite execute_worker_task_string.
    unfold dispatch_outcome. rewrite Hreg. reflexivity.
Qed.

End Dispatch.

Lemma execute_worker_task_outcomes_witness :
  hashable (VList [VStr "research_worker"]) = false
  /\ execute_worker_task Examples.offline (VList [VStr "research_worker"])
       (VStr "Find sources") [] 4
     = (Raise (TypeError Unhashable (VList [VStr "research_worker"])), 4)
  /\ sget "creative_worker" WORKER_REGISTRY = Some CreativeWorker
  /\ execute_worker_task Examples.offline (VStr "creative_worker")
       (VStr "Write a haiku") [] 4
     = (Ok "Error in creative worker: connection refused", 5).
Proof.
  destruct (execute_worker_task_outcomes Examples.offline
              (VList [VStr "research_worker"]) (VStr "Find sources") [] 4)
    as (Hraise & _).
  destruct (execute_worker_task_outcomes Examples.offline
              (VStr "creative_worker") (VStr "Write a haiku") [] 4)
    as (_ & _ & Hreg).
  split; [reflexivity|]. split; [apply Hraise; reflexivity|].
  split; [reflexivity|].
  apply (Hreg "creative_worker" CreativeWorker); reflexivity.
Defined.

(** ** More on the worker coordinator *)

Section CoordinatorEdges.
Variable env : Env.
Variable dispatch : pyval -> pyval -> sdict pyval -> Coll string.

Ltac run_assignment :=
  unfold coordinate_assignment, set_result, worker_is_busy, record_task,
    outer, modify_local, lift_coll, get_sys, modify_sys,
    bind, ret, raise, of_res, try_except, lookup_str_keyed;
  cbn [fst snd sys calls hashable].

Lemma all_idle_lookup (s : SystemState) (wid : string) (ws : WorkerState) :
  all_idle s -> sget wid (worker_states s) = Some ws -> is_busy ws = false.
Proof.
  unfold all_idle, od_values, sget.
  induction (worker_states s) as [|[k v] d IH]; cbn; intros Hidle Hg; [discriminate|].
  inversion Hidle as [|? ? Hv Hd]; subst.
  destruct (String.eqb k wid); [injection Hg as <-; exact Hv | apply IH; assumption].
Qed.

(** X8.  When the worker of an assignment is marked busy, the coordinator
    records "Worker <id> is busy" under its id and moves on: the dispatch
    function is not called, and neither the run-state nor the call count
    changes. *)
Theorem busy_worker_is_skipped
  (a : pyval) (wid : string) (task : pyval) (ws : WorkerState) (w : world) (r : pdict) :
  py_item a "worker_id" = Ok (VStr wid) ->
  py_item a "task" = Ok task ->
  sget wid (worker_states (sys w)) = Some ws ->
  is_busy ws = true ->
  coordinate_assignment env dispatch a (w, r)
  = (Ok tt, (w, pset (VStr wid) (VStr ("Worker " ++ wid ++ " is busy")%string) r)).
Proof.
  intros Hid Htask Hws Hbusy. run_assignment.
  rewrite Hid, Htask. cbn [hashable]. rewrite Hws, Hbusy. reflexivity.
Qed.

(** The loop stops at the first assignment that cannot be read. *)
Lemma unreadable_assignment_raises (a : pyval) (e : exn) (w : world) (r : pdict) :
  py_item a "worker_id" = Raise e
  \/ (exists v, py_item a "worker_id" = Ok v /\ py_item a "task" = Raise e) ->
  coordinate_assignment env dispatch a (w, r) = (Raise e, (w, r)).
Proof.
  intros [Hid | (v & Hid & Htask)]; run_assignment; rewrite Hid; [|rewrite Htask];
    reflexivity.
Qed.

(** X9.  An assignment without a "worker_id" or without a "task" (or
    that is not an object at all) makes [coordinate_workers] drop
    everything: the assignments before it have run and changed the worker
    states, the ones after it are not run, and the mapping returned holds
    the single entry "error": "Coordination error: <cause>" instead of
    the results collected so far. *)
Theorem unreadable_assignment_discards_results
  (plan : pyval) (before : list pyval) (ids : list string) (a : pyval)
  (rest : list pyval) (e : exn) (w : world) :
  plan_assignments plan (before ++ a :: rest) ->
  Forall2 assignment_names before ids ->
  (py_item a "worker_id" = Raise e
   \/ (exists v, py_item a "worker_id" = Ok v /\ py_item a "task" = Raise e)) ->
  exists w' r,
    for_each (coordinate_assignment env dispatch) before (w, []) = (Ok tt, (w', r))
    /\ od_keys r = map VStr (first_occurrences ids)
    /\ coordinate_workers env dispatch plan w = (Ok (coordination_error env e), w').
Proof.
  intros Hplan Hbefore Hbad.
  destruct (for_each_assignment_keys env dispatch before ids Hbefore w [] [] eq_refl)
    as (w' & r & Hloop & Hkeys).
  exists w', r. split; [exact Hloop|]. split; [exact Hkeys|].
  unfold coordinate_workers, try_except, bind, of_res, with_local, ret.
  rewrite Hplan. cbn [py_iter].
  match goal with
  | |- context [for_each ?b ?l ?f] =>
      replace (for_each b l f) with (@Raise unit e, (w', r))
  end; [reflexivity|].
  symmetry. rewrite for_each_app.
  match goal with
  | |- context [for_each ?b before ?f] =>
      replace (for_each b before f) with (@Ok unit tt, (w', r))
        by (symmetry; exact Hloop)
  end.
  cbn [for_each]. unfold bind.
  rewrite (unreadable_assignment_raises a e w' r Hbad). reflexivity.
Qed.

(** X10.  A plan that is not an object, or whose "worker_assignments"
    cannot be iterated, yields the single entry "error": "Coordination
    error: <cause>"; a plan without "worker_assignments", or with an
    empty one, yields the empty mapping.  In each case nothing is
    dispatched and the run-state is untouched. *)
Theorem unreadable_plan_outcomes (plan : pyval) (w : world) :
  (forall e,
      py_get plan "worker_assignments" (VList []) = Raise e ->
      coordinate_workers env dispatch plan w = (Ok (coordination_error env e), w))
  /\ (forall v e,
         py_get plan "worker_assignments" (VList []) = Ok v ->
         py_iter v = Raise e ->
         coordinate_workers env dispatch plan w = (Ok (coordination_error env e), w))
  /\ (forall v,
         py_get plan "worker_assignments" (VList []) = Ok v ->
         py_iter v = Ok [] ->
         coordinate_workers env dispatch plan w = (Ok (VDict []), w))
  /\ (forall d,
         plan = VDict d ->
         pget (VStr "worker_assignments") d = None ->
         coordinate_workers env dispatch plan w = (Ok (VDict []), w)).
Proof.
  unfold coordinate_workers, try_except, bind, of_res, with_local, ret.
  split; [|split; [|split]].
  - intros e ->. reflexivity.
  - intros v e -> ->. reflexivity.
  - intros v -> ->. reflexivity.
  - intros d -> Hnone. cbn [py_get]. rewrite Hnone. reflexivity.
Qed.

End CoordinatorEdges.

Lemma busy_worker_is_skipped_witness :
  sget "research_worker" (worker_states (sys research_busy))
  = Some {| worker_id := "research_worker"; current_task := VStr "Earlier task";
            task_result := None; is_busy := true |}
  /\ coordinate_assignment Examples.smooth (execute_worker_task Examples.smooth)
       Examples.research_assignment (research_busy, [])
     = (Ok tt, (research_busy,
                [(VStr "research_worker", VStr "Worker research_worker is busy")])).
Proof.
  split; [reflexivity|].
  exact (busy_worker_is_skipped Examples.smooth (execute_worker_task Examples.smooth)
           Examples.research_assignment "research_worker"
           (VStr "Gather information related to the query") _ research_busy []
           eq_refl eq_refl eq_refl eq_refl).
Defined.

Lemma unreadable_assignment_discards_results_witness :
  plan_assignments anonymous_plan
    ([Examples.research_assignment] ++ anonymous_assignment :: [Examples.creative_assignment])
  /\ py_item anonymous_assignment "worker_id" = Raise (KeyError "worker_id")
  /\ exists w',
       coordinate_workers Examples.smooth (execute_worker_task Examples.smooth)
         anonymous_plan (Examples.start "Research quantum computing")
       = (Ok (VDict [(VStr "error", VStr "Coordination error: 'worker_id'")]), w')
       /\ calls w' = 1.
Proof.
  split; [reflexivity|]. split; [reflexivity|].
  destruct (unreadable_assignment_discards_results Examples.smooth
              (execute_worker_task Examples.smooth) anonymous_plan
              [Examples.research_assignment] ["research_worker"] anonymous_assignment
              [Examples.creative_assignment] (KeyError "worker_id")
              (Examples.start "Research quantum computing"))
    as (w' & r & Hloop & _ & Hres).
  - reflexivity.
  - repeat constructor. eexists. reflexivity.
  - left. reflexivity.
  - exists w'. split; [exact Hres|].
    cbv in Hloop. injection Hloop as <- _. reflexivity.
Defined.

Lemma unreadable_plan_outcomes_witness :
  py_get (VList []) "worker_assignments" (VList []) = Raise (AttributeError (VList []) "get")
  /\ coordinate_workers Examples.smooth (execute_worker_task Examples.smooth)
       (VList []) (Examples.start "Research quantum computing")
     = (Ok (VDict [(VStr "error", VStr "Coordination error: AttributeError")]),
        Examples.start "Research quantum computing").
Proof.
  split; [reflexivity|].
  destruct (unreadable_plan_outcomes Examples.smooth (execute_worker_task Examples.smooth)
              (VList []) (Examples.start "Research quantum computing")) as (H & _).
  apply (H (AttributeError (VList []) "get")). reflexivity.
Defined.

(** ** The coordinator with the workers of the registry *)

Section LinkedCoordinator.
Variable env : Env.

Notation step := (coordinate_assignment env (execute_worker_task env)).

(** An assignment for an idle worker, named by a string: the task is
    dispatched, and its text goes to the results and to the worker
    state. *)
Lemma linked_assignment_step
  (a : pyval) (wid : string) (task : pyval) (w : world) (r : pdict) :
  py_item a "worker_id" = Ok (VStr wid) ->
  py_item a "task" = Ok task ->
  all_idle (sys w) ->
  step a (w, r)
  = (Ok tt,
     ({| sys := after_task (sys w) wid task (fst (dispatch_outcome env wid (calls w)));
         calls := snd (dispatch_outcome env wid (calls w)) |},
      pset (VStr wid) (VStr (fst (dispatch_outcome env wid (calls w)))) r)).
Proof.
  intros Hid Htask Hidle.
  unfold coordinate_assignment, set_result, worker_is_busy, record_task,
    outer, modify_local, lift_coll, get_sys, modify_sys,
    bind, ret, raise, of_res, try_except, lookup_str_keyed.
  cbn [fst snd sys calls hashable]. rewrite Hid, Htask. cbn [hashable].
  destruct (sget wid (worker_states (sys w))) as [ws|] eqn:Hws; cbn [fst snd].
  - rewrite (all_idle_lookup (sys w) wid ws Hidle Hws).
    rewrite execute_worker_task_string. cbn [fst snd sys calls].
    unfold after_task. rewrite Hws. reflexivity.
  - rewrite execute_worker_task_string. cbn [fst snd sys calls].
    unfold after_task. rewrite Hws. reflexivity.
Qed.

Lemma recorded_after_step (w : world) (r : pdict) (wid0 : string) (task : pyval)
  (text : string) (k' : nat) (wid : string) :
  recorded w r wid \/ wid = wid0 ->
  recorded {| sys := after_task (sys w) wid0 task text; calls := k' |}
           (pset (VStr wid0) (VStr text) r) wid.
Proof.
  intros H. unfold recorded, after_task. cbn [sys worker_states set_worker_states].
  destruct (String.eqb_spec wid wid0) as [->|Hne].
  - eexists _, _. split; [apply pget_pset_same|].
    split; [apply sget_sset_same|]. split; reflexivity.
  - destruct H as [(t & ws & Hr & Hs & Ht & Hb)|H]; [|contradiction].
    exists t, ws. rewrite pget_pset_other by exact Hne.
    rewrite sget_sset_other by congruence. repeat split; assumption.
Qed.

Lemma linked_loop_recorded (items : list pyval) (ids : list string) :
  Forall2 assignment_names items ids ->
  forall (w : world) (r : pdict),
    all_idle (sys w) ->
    exists w' r',
      for_each step items (w, r) = (Ok tt, (w', r'))
      /\ all_idle (sys w')
      /\ calls w <= calls w' <= calls w + length items
      /\ (forall wid, recorded w r wid \/ In wid ids -> recorded w' r' wid).
Proof.
  induction 1 as [|a wid0 items ids [Hid [task Htask]] _ IH]; intros w r Hidle.
  - exists w, r. split; [reflexivity|]. split; [exact Hidle|]. split; [cbn; lia|].
    intros wid [H|[]]. exact H.
  - cbn [for_each]. unfold bind at 1.
    rewrite (linked_assignment_step a wid0 task w r Hid Htask Hidle).
    set (text := fst (dispatch_outcome env wid0 (calls w))).
    set (k' := snd (dispatch_outcome env wid0 (calls w))).
    assert (Hk : calls w <= k' <= S (calls w)).
    { unfold k', dispatch_outcome. destruct (sget wid0 WORKER_REGISTRY); cbn; lia. }
    destruct (IH {| sys := after_task (sys w) wid0 task text; calls := k' |}
                 (pset (VStr wid0) (VStr text) r))
      as (w' & r' & Hloop & Hidle' & Hcalls & Hrec).
    { cbn [sys]. unfold after_task. apply all_idle_set_worker; [reflexivity | exact Hidle]. }
    exists w', r'. split; [exact Hloop|]. split; [exact Hidle'|].
    cbn [calls length] in *. split; [lia|].
    intros wid Hwid. apply Hrec.
    destruct Hwid as [Hwid|[<-|Hin]].
    + left. apply recorded_after_step. left. exact Hwid.
    + left. apply recorded_after_step. right. reflexivity.
    + right. exact Hin.
Qed.

(** X11.  With the workers of the registry and no worker marked busy, a
    plan whose assignments all name their worker by a string runs to the
    end, with at most one chat-model call per assignment; afterwards the
    mapping returned and the worker states agree: for every worker of the
    plan, the text under its id in the results is the [task_result] of
    its worker state, which is not busy. *)
Theorem results_agree_with_worker_states
  (plan : pyval) (items : list pyval) (ids : list string) (w : world) :
  plan_assignments plan items ->
  Forall2 assignment_names items ids ->
  all_idle (sys w) ->
  exists results w',
    coordinate_workers env (execute_worker_task env) plan w = (Ok (VDict results), w')
    /\ calls w <= calls w' <= calls w + length items
    /\ forall wid, In wid ids -> recorded w' results wid.
Proof.
  intros Hplan Hitems Hidle.
  destruct (linked_loop_recorded items ids Hitems w [] Hidle)
    as (w' & r' & Hloop & _ & Hcalls & Hrec).
  exists r', w'. split; [|split; [exact Hcalls|]].
  - unfold coordinate_workers, try_except, bind, of_res, with_local, ret.
    rewrite Hplan. cbn [py_iter].
    match goal with
    | |- context [for_each ?b ?l ?f] =>
        replace (for_each b l f) with (@Ok unit tt, (w', r')) by (symmetry; exact Hloop)
    end.
    reflexivity.
  - intros wid Hin. apply Hrec. right. exact Hin.
Qed.

End LinkedCoordinator.

Lemma results_agree_with_worker_states_witness :
  plan_assignments fallback_plan
    [Examples.research_assignment; Examples.creative_assignment]
  /\ all_idle (sys (Examples.start "Research quantum computing"))
  /\ exists results w',
       coordinate_workers Examples.smooth (execute_worker_task Examples.smooth)
         fallback_plan (Examples.start "Research quantum computing")
       = (Ok (VDict results), w')
       /\ recorded w' results "creative_worker".
Proof.
  assert (Hidle : all_idle (sys (Examples.start "Research quantum computing")))
    by (repeat constructor).
  split; [reflexivity|]. split; [exact Hidle|].
  destruct (results_agree_with_worker_states Examples.smooth fallback_plan
              [Examples.research_assignment; Examples.creative_assignment]
              ["research_worker"; "creative_worker"]
              (Examples.start "Research quantum computing"))
    as (results & w' & Hres & _ & Hrec).
  - reflexivity.
  - repeat constructor; eexists; reflexivity.
  - exact Hidle.
  - exists results, w'. split; [exact Hres|]. apply Hrec. right. left. reflexivity.
Defined.

(** ** A worker that fails *)

Section FailingWorker.
Variable env : Env.

Notation step := (coordinate_assignment env (execute_worker_task env)).





End FailingWorker.



(** ** More on the stages *)

Section Planning.
Variable env : Env.
Variable dispatch : pyval -> pyval -> sdict pyval -> Coll string.

(** X12.  When the planning call fails, the worker-execution stage makes
    that one call only: it stores the empty plan and an empty
    worker_results, dispatches nothing, leaves the worker states and the
    final response as they were and sets current_phase "completed"; the
    synthesis stage that follows finds nothing to synthesise and changes
    nothing. *)
Theorem planner_failure_skips_workers
  (w : world) (cause : string) (limit : nat) (visited : list node) :
  llm env (calls w) = Failure cause ->
  let after :=
    {| sys := set_current_phase "completed"
                (state_update_context "worker_results" (VDict [])
                   (state_update_context "execution_plan" empty_plan (sys w)));
       calls := S (calls w) |} in
  _execute_workers_node env dispatch w = (Ok tt, after)
  /\ run_from env dispatch (S (S limit)) (Node ExecuteWorkers) visited w
     = (Ok (visited ++ [ExecuteWorkers; SynthesizeResults]), after)
  /\ worker_states (sys after) = worker_states (sys w)
  /\ final_response (sys after) = final_response (sys w).
Proof.
  intros Hllm after.
  assert (Hnode : _execute_workers_node env dispatch w = (Ok tt, after)).
  { unfold _execute_workers_node, create_execution_plan, coordinate_workers,
      try_except, bind, ret, of_res, get_sys, modify_sys, lift_coll, ainvoke,
      with_local, fail_with.
    cbn [fst snd sys calls]. rewrite Hllm. reflexivity. }
  split; [exact Hnode|]. split; [|split; reflexivity].
  pose proof (synthesize_node_eq env after) as Hsyn. cbv zeta in Hsyn.
  unfold after in Hsyn at 1. cbn [sys] in Hsyn.
  change (context_get (set_current_phase ?p ?s) ?k ?d) with (context_get s k d) in Hsyn.
  rewrite context_get_update_same in Hsyn. cbn [truthy] in Hsyn.
  rewrite (run_from_stage env dispatch _ ExecuteWorkers _ w after Hnode). cbn [successor].
  rewrite (run_from_stage env dispatch _ SynthesizeResults _ after after Hsyn).
  cbn [successor]. rewrite run_from_END, <- app_assoc. reflexivity.
Qed.

End Planning.

Lemma planner_failure_skips_workers_witness :
  llm Examples.offline 0 = Failure "connection refused"
  /\ context_get
       (sys (snd (_execute_workers_node Examples.offline
                    (execute_worker_task Examples.offline)
                    (Examples.start "Research quantum computing"))))
       "worker_results" VNone
     = VDict [].
Proof.
  split; [reflexivity|].
  destruct (planner_failure_skips_workers Examples.offline
              (execute_worker_task Examples.offline)
              (Examples.start "Research quantum computing") "connection refused" 0 []
              eq_refl) as (H & _).
  rewrite H. reflexivity.
Defined.

(** Replace a call by its value, given as an equation that matches the
    call up to conversion. *)
Ltac rewrite_call H :=
  match type of H with
  | ?c ?x = ?rhs =>
      match goal with
      | |- context [?c' ?x'] =>
          unify c c'; unify x x';
          replace (c' x') with rhs by (symmetry; exact H)
      end
  end.

Section FallbackPlan.
Variable env : Env.

(** X13.  When the planner's answer is not JSON, the worker-execution
    stage falls back to the two-step plan and, no worker being busy, runs
    it with the workers of the registry: three chat-model calls in all
    (the plan, the research worker, the creative worker, in that order);
    worker_results holds the research text and then the creative text,
    each being the worker's answer or its error text; both worker states
    record their task and that text; current_phase is "completed". *)
Theorem unparseable_plan_runs_both_workers (w : world) (text : string) :
  llm env (calls w) = Content text ->
  json_loads env text = None ->
  all_idle (sys w) ->
  exists w',
    _execute_workers_node env (execute_worker_task env) w = (Ok tt, w')
    /\ calls w' = 3 + calls w
    /\ context_get (sys w') "execution_plan" VNone = fallback_plan
    /\ context_get (sys w') "worker_results" VNone
       = VDict [ (VStr "research_worker",
                  VStr (worker_text env ResearchWorker (1 + calls w)));
                 (VStr "creative_worker",
                  VStr (worker_text env CreativeWorker (2 + calls w))) ]
    /\ current_phase (sys w') = "completed"
    /\ (exists ws,
          sget "research_worker" (worker_states (sys w')) = Some ws
          /\ current_task ws = VStr "Gather information related to the query"
          /\ task_result ws = Some (worker_text env ResearchWorker (1 + calls w))
          /\ is_busy ws = false)
    /\ (exists ws,
          sget "creative_worker" (worker_states (sys w')) = Some ws
          /\ current_task ws = VStr "Process and present the information creatively"
          /\ task_result ws = Some (worker_text env CreativeWorker (2 + calls w))
          /\ is_busy ws = false).
Proof.
  intros Hllm Hjson Hidle.
  set (s1 := state_update_context "execution_plan" fallback_plan (sys w)).
  set (t1 := worker_text env ResearchWorker (1 + calls w)).
  set (t2 := worker_text env CreativeWorker (2 + calls w)).
  set (s2 := after_task s1 "research_worker"
               (VStr "Gather information related to the query") t1).
  set (s3 := after_task s2 "creative_worker"
               (VStr "Process and present the information creatively") t2).
  assert (Hloop :
            for_each (coordinate_assignment env (execute_worker_task env))
              [Examples.research_assignment; Examples.creative_assignment]
              ({| sys := s1; calls := S (calls w) |}, [])
            = (Ok tt, ({| sys := s3; calls := 3 + calls w |},
                       [ (VStr "research_worker", VStr t1);
                         (VStr "creative_worker", VStr t2) ]))).
  { cbn [for_each]. unfold bind at 1.
    rewrite_call (linked_assignment_step env Examples.research_assignment
                    "research_worker" (VStr "Gather information related to the query")
                    {| sys := s1; calls := S (calls w) |} [] eq_refl eq_refl Hidle).
    unfold bind at 1.
    assert (Hidle2 : all_idle s2)
      by (apply all_idle_set_worker; [reflexivity | exact Hidle]).
    rewrite_call (linked_assignment_step env Examples.creative_assignment
                    "creative_worker"
                    (VStr "Process and present the information creatively")
                    {| sys := s2; calls := 2 + calls w |}
                    [(VStr "research_worker", VStr t1)] eq_refl eq_refl Hidle2).
    reflexivity. }
  exists {| sys := set_current_phase "completed"
                     (state_update_context "worker_results"
                        (VDict [ (VStr "research_worker", VStr t1);
                                 (VStr "creative_worker", VStr t2) ]) s3);
            calls := 3 + calls w |}.
  split.
  - unfold _execute_workers_node, create_execution_plan, coordinate_workers,
      try_except, bind, ret, of_res, get_sys, modify_sys, lift_coll, ainvoke,
      with_local, fail_with.
    cbn [fst snd sys calls]. rewrite Hllm, Hjson. cbn [fst snd sys calls].
    change (py_get fallback_plan "worker_assignments" (VList []))
      with (Ok (VList [Examples.research_assignment; Examples.creative_assignment])).
    cbn [py_iter].
    match goal with
    | |- context [for_each ?b ?l ?f] =>
        replace (for_each b l f)
          with (@Ok unit tt, ({| sys := s3; calls := 3 + calls w |},
                              [ (VStr "research_worker", VStr t1);
                                (VStr "creative_worker", VStr t2) ]))
          by (symmetry; exact Hloop)
    end.
    reflexivity.
  - cbn [sys calls]. split; [reflexivity|].
    change (context_get (set_current_phase ?p ?s) ?k ?d) with (context_get s k d).
    split.
    { rewrite context_get_update_other by discriminate.
      apply (context_get_update_same "execution_plan" fallback_plan (sys w) VNone). }
    split; [apply context_get_update_same|]. split; [reflexivity|].
    cbn [worker_states set_current_phase state_update_context set_supervisor_memory].
    unfold s3, s2, after_task. cbn [worker_states set_worker_states].
    split.
    + eexists. rewrite sget_sset_other by discriminate. rewrite sget_sset_same.
      repeat split.
    + eexists. rewrite sget_sset_same. repeat split.
Qed.

End FallbackPlan.

Lemma unparseable_plan_runs_both_workers_witness :
  llm Examples.chatty 0 = Content "Sure, let me think about it."
  /\ json_loads Examples.chatty "Sure, let me think about it." = None
  /\ all_idle (sys (Examples.start "Research quantum computing"))
  /\ exists w',
       _execute_workers_node Examples.chatty (execute_worker_task Examples.chatty)
         (Examples.start "Research quantum computing") = (Ok tt, w')
       /\ context_get (sys w') "worker_results" VNone
          = VDict [ (VStr "research_worker",
                     VStr "Error in research worker: connection refused");
                    (VStr "creative_worker",
                     VStr "Error in creative worker: connection refused") ].
Proof.
  assert (Hidle : all_idle (sys (Examples.start "Research quantum computing")))
    by (repeat constructor).
  split; [reflexivity|]. split; [reflexivity|]. split; [exact Hidle|].
  destruct (unparseable_plan_runs_both_workers Examples.chatty
              (Examples.start "Research quantum computing")
              "Sure, let me think about it." eq_refl eq_refl Hidle)
    as (w' & Hnode & _ & _ & Hres & _).
  exists w'. split; [exact Hnode | exact Hres].
Defined.

Section GatherAndSynthesis.
Variable env : Env.

Ltac run_node :=
  unfold try_except, bind, ret, raise, of_res, get_sys, modify_sys, lift_coll, fail_with;
  cbn [fst snd sys calls].

(** X14.  The gather-info stage reads "missing_information" from the
    stored analysis.  When it is absent or empty, the stage changes
    nothing and calls nothing.  When it cannot be joined, the stage sets
    error_message to "Error in gathering info: <cause>" and calls
    nothing.  Otherwise it makes one call, obtains at most three
    questions, appends one supervisor message whose content is the
    questions joined by newlines, and stores the questions under
    "follow_up_questions". *)
Theorem gather_info_outcomes (w : world) (missing : pyval) :
  py_get (context_get (sys w) "last_analysis" (VDict [])) "missing_information" (VList [])
  = Ok missing ->
  (truthy missing = false -> _gather_info_node env w = (Ok tt, w))
  /\ (truthy missing = true ->
      forall e,
        py_join ", " missing = Raise e ->
        _gather_info_node env w
        = (Ok tt,
           {| sys := set_error_message
                       (Some ("Error in gathering info: " ++ exn_str env e)%string) (sys w);
              calls := calls w |}))
  /\ (truthy missing = true ->
      forall joined,
        py_join ", " missing = Ok joined ->
        exists questions,
          generate_follow_up_questions env missing (user_query (sys w)) (calls w)
          = (Ok questions, S (calls w))
          /\ length questions <= 3
          /\ _gather_info_node env w
             = (Ok tt,
                {| sys := state_update_context "follow_up_questions"
                            (VList (map VStr questions))
                            (update_memory (question_message questions) (sys w));
                   calls := S (calls w) |})).
Proof.
  intros Hmissing. unfold _gather_info_node. run_node. rewrite Hmissing.
  split; [|split].
  - intros ->. destruct w; reflexivity.
  - intros -> e Hjoin.
    unfold generate_follow_up_questions, try_except, bind, of_res, ainvoke, ret.
    rewrite Hjoin. reflexivity.
  - intros -> joined Hjoin.
    destruct (llm env (calls w)) as [content|cause] eqn:Hllm.
    + exists (slice_to 3 (question_lines content)).
      assert (Hgen : generate_follow_up_questions env missing (user_query (sys w)) (calls w)
                     = (Ok (slice_to 3 (question_lines content)), S (calls w))).
      { unfold generate_follow_up_questions, try_except, bind, of_res, ainvoke, ret.
        rewrite Hjoin, Hllm. reflexivity. }
      split; [exact Hgen|]. split; [unfold slice_to; rewrite length_firstn; lia|].
      rewrite Hgen. reflexivity.
    + exists [("Could you provide more details about: " ++ joined)%string].
      assert (Hgen : generate_follow_up_questions env missing (user_query (sys w)) (calls w)
                     = (Ok [("Could you provide more details about: " ++ joined)%string],
                        S (calls w))).
      { unfold generate_follow_up_questions, try_except, bind, of_res, ainvoke, ret.
        rewrite Hjoin, Hllm. reflexivity. }
      split; [exact Hgen|]. split; [cbn; lia|].
      rewrite Hgen. reflexivity.
Qed.

(** X15.  When worker_results is a non-empty mapping and the synthesis
    call fails, the synthesis stage does not set error_message: the text
    "Error synthesizing results: <cause>" becomes the final response and
    the content of the supervisor message appended to the history, after
    exactly one call. *)
Theorem synthesis_failure_is_recovered (w : world) (results : pdict) (cause : string) :
  context_get (sys w) "worker_results" (VDict []) = VDict results ->
  results <> [] ->
  llm env (calls w) = Failure cause ->
  let text := ("Error synthesizing results: " ++ cause)%string in
  let w' := snd (_synthesize_results_node env w) in
  _synthesize_results_node env w
  = (Ok tt, {| sys := update_memory (final_message text)
                        (set_final_response (Some text) (sys w));
               calls := S (calls w) |})
  /\ final_response (sys w') = Some text
  /\ error_message (sys w') = error_message (sys w)
  /\ ends_with (conversation_history (supervisor_memory (sys w'))) [final_message text].
Proof.
  intros Hres Hne Hllm text w'.
  assert (Hnode : _synthesize_results_node env w
                  = (Ok tt, {| sys := update_memory (final_message text)
                                        (set_final_response (Some text) (sys w));
                               calls := S (calls w) |})).
  { unfold _synthesize_results_node, synthesize_results. run_node. rewrite Hres.
    destruct results as [|entry results]; [contradiction|].
    cbn [truthy py_items]. unfold ainvoke. rewrite Hllm. reflexivity. }
  split; [exact Hnode|]. subst w'. rewrite Hnode. cbn [snd sys].
  split; [rewrite final_response_update_memory; reflexivity|].
  split; [rewrite error_message_update_memory; reflexivity|].
  rewrite history_update_memory, add_message_history.
  cbn [supervisor_memory set_final_response].
  exists (skipn (length (conversation_history (supervisor_memory (sys w))
                         ++ [final_message text]) - 10)
                (conversation_history (supervisor_memory (sys w)))).
  apply skipn_app_snoc. rewrite length_app. cbn [length]. lia.
Qed.

End GatherAndSynthesis.

Lemma gather_info_outcomes_witness :
  py_get (context_get (sys (needs_topic unjoinable)) "last_analysis" (VDict []))
         "missing_information" (VList []) = Ok unjoinable
  /\ truthy unjoinable = true
  /\ py_join ", " unjoinable = Raise (TypeError JoinItem (VInt 3))
  /\ error_message (sys (snd (_gather_info_node asks (needs_topic unjoinable))))
     = Some "Error in gathering info: TypeError"
  /\ context_get (sys (snd (_gather_info_node asks (needs_topic (VList [VStr "topic"])))))
                 "follow_up_questions" VNone
     = VList [VStr "Which topic do you have in mind?";
              VStr "What length should the text have?"].
Proof.
  split; [reflexivity|]. split; [reflexivity|]. split; [reflexivity|].
  destruct (gather_info_outcomes asks (needs_topic unjoinable) unjoinable eq_refl)
    as (_ & Hbad & _).
  destruct (gather_info_outcomes asks (needs_topic (VList [VStr "topic"]))
              (VList [VStr "topic"]) eq_refl) as (_ & _ & Hgood).
  split.
  - rewrite (Hbad eq_refl (TypeError JoinItem (VInt 3)) eq_refl). reflexivity.
  - destruct (Hgood eq_refl "topic" eq_refl) as (questions & Hq & _ & Hnode).
    rewrite Hnode. cbv in Hq. injection Hq as <-. reflexivity.
Defined.

Lemma synthesis_failure_is_recovered_witness :
  context_get (sys awaits_synthesis) "worker_results" (VDict [])
  = VDict [(VStr "research_worker", VStr "Qubits superpose.")]
  /\ llm Examples.offline 0 = Failure "connection refused"
  /\ final_response (sys (snd (_synthesize_results_node Examples.offline awaits_synthesis)))
     = Some "Error synthesizing results: connection refused".
Proof.
  split; [reflexivity|]. split; [reflexivity|].
  destruct (synthesis_failure_is_recovered Examples.offline awaits_synthesis
              [(VStr "research_worker", VStr "Qubits superpose.")] "connection refused"
              eq_refl) as (_ & H & _); [discriminate | reflexivity | exact H].
Defined.

(** ** The run as a whole *)

Section WholeRun.
Variable env : Env.
Variable dispatch : pyval -> pyval -> sdict pyval -> Coll string.

(** X16.  An analysis answer that is valid JSON but not an object is a
    fatal failure, unlike an answer that is not JSON at all: the value is
    stored as "last_analysis", reading its flag fails, error_message is
    set to "Error in supervisor analysis: <cause>" and the run stops
    after the analysis stage. *)
Theorem non_object_analysis_is_fatal
  (w : world) (q text : string) (v : pyval) :
  user_query (sys w) = Some q ->
  llm env (calls w) = Content text ->
  json_loads env text = Some v ->
  (forall d, v <> VDict d) ->
  let failed :=
    {| sys := set_error_message
                (Some ("Error in supervisor analysis: "
                       ++ exn_str env (AttributeError v "get"))%string)
                (state_update_context "last_analysis" v
                   (update_memory (user_message q) (sys w)));
       calls := S (calls w) |} in
  _supervisor_analysis_node env w = (Ok tt, failed)
  /\ graph_ainvoke env dispatch w = (Ok [AnalyzeQuery], failed).
Proof.
  intros Hq Hllm Hjson Hv failed.
  assert (Hnode : _supervisor_analysis_node env w = (Ok tt, failed)).
  { unfold _supervisor_analysis_node, analyze_user_query, try_except, bind, ret, of_res,
      get_sys, modify_sys, lift_coll, fail_with, ainvoke.
    cbn [fst snd sys calls]. rewrite Hq. cbn [new_message fst snd sys calls].
    rewrite Hllm, Hjson. cbn [fst snd sys calls].
    destruct v; try reflexivity. exfalso. eapply Hv. reflexivity. }
  split; [exact Hnode|].
  unfold graph_ainvoke, recursion_limit.
  rewrite (run_from_stage env dispatch _ AnalyzeQuery _ w failed Hnode).
  reflexivity.
Qed.

(** From the worker-execution stage the run goes through synthesis and
    ends "completed", and neither stage touches error_message. *)
Lemma execute_and_synthesize (limit : nat) (visited : list node) (w : world) :
  exists w',
    run_from env dispatch (S (S limit)) (Node ExecuteWorkers) visited w
    = (Ok (visited ++ [ExecuteWorkers; SynthesizeResults]), w')
    /\ current_phase (sys w') = "completed"
    /\ error_message (sys w') = error_message (sys w).
Proof.
  destruct (execute_node_eq env dispatch w) as (plan & v & w2 & _ & Hv & HwE).
  pose proof (coordinate_workers_same_but_workers env dispatch
                (state_update_context "execution_plan" plan (sys w)) plan
                {| sys := state_update_context "execution_plan" plan (sys w);
                   calls := S (calls w) |}) as Hsame.
  rewrite Hv in Hsame. cbn [snd] in Hsame. unfold on_sys in Hsame. cbn [sys] in Hsame.
  destruct Hsame as (_ & _ & _ & _ & Herr); [repeat split|].
  set (wE := {| sys := set_current_phase "completed"
                         (state_update_context "worker_results" v (sys w2));
                calls := calls w2 |}) in *.
  assert (Hstep : forall wS,
             _synthesize_results_node env wE = (Ok tt, wS) ->
             run_from env dispatch (S (S limit)) (Node ExecuteWorkers) visited w
             = (Ok (visited ++ [ExecuteWorkers; SynthesizeResults]), wS)).
  { intros wS HwS.
    rewrite (run_from_stage env dispatch _ ExecuteWorkers _ w wE HwE). cbn [successor].
    rewrite (run_from_stage env dispatch _ SynthesizeResults _ wE wS HwS).
    cbn [successor]. rewrite run_from_END, <- app_assoc. reflexivity. }
  pose proof (synthesize_node_eq env wE) as HS. cbv zeta in HS.
  destruct (truthy (context_get (sys wE) "worker_results" (VDict []))).
  - destruct HS as (text & k' & _ & HwS).
    eexists. split; [apply Hstep, HwS|]. cbn [sys].
    rewrite current_phase_update_memory, error_message_update_memory.
    split; [reflexivity | exact Herr].
  - exists wE. split; [apply Hstep, HS|]. split; [reflexivity | exact Herr].
Qed.

(** The three ways in which a run ends. *)
Lemma graph_ainvoke_outcome (w : world) :
  exists visited w',
    graph_ainvoke env dispatch w = (Ok visited, w')
    /\ ((visited = [AnalyzeQuery] /\ is_set (error_message (sys w')) = true)
        \/ (visited = [AnalyzeQuery; GatherInfo]
            /\ current_phase (sys w') = "gathering_info")
        \/ (visited = [AnalyzeQuery; ExecuteWorkers; SynthesizeResults]
            /\ current_phase (sys w') = "completed"
            /\ is_set (error_message (sys w')) = false)).
Proof.
  unfold graph_ainvoke, recursion_limit.
  destruct (handler_total env dispatch AnalyzeQuery w) as ([] & w1 & Hw1).
  rewrite (run_from_stage env dispatch _ AnalyzeQuery _ w w1 Hw1).
  pose proof (successor_after_analysis_node env w) as Hs.
  pose proof (phase_after_analysis_node env w) as Hp.
  cbv zeta in Hs, Hp. cbn [handler] in Hw1. rewrite Hw1 in Hs, Hp. cbn [snd] in Hs, Hp.
  rewrite Hs.
  destruct (is_set (error_message (sys w1))) eqn:Herr.
  - exists [AnalyzeQuery], w1. split; [apply run_from_END|]. left. split; [reflexivity | exact Herr].
  - specialize (Hp eq_refl). destruct (stored_flag (sys w1)).
    + destruct (execute_and_synthesize 22 [AnalyzeQuery] w1) as (w' & Hrun & Hphase & He).
      exists [AnalyzeQuery; ExecuteWorkers; SynthesizeResults], w'.
      split; [exact Hrun|]. right. right.
      split; [reflexivity|]. split; [exact Hphase|]. rewrite He. exact Herr.
    + destruct (handler_total env dispatch GatherInfo w1) as ([] & w2 & Hw2).
      rewrite (run_from_stage env dispatch _ GatherInfo _ w1 w2 Hw2).
      cbn [successor]. rewrite run_from_END.
      exists [AnalyzeQuery; GatherInfo], w2. split; [reflexivity|]. right. left.
      split; [reflexivity|].
      pose proof (gather_node_keeps_phase env "gathering_info" w1 Hp) as H.
      cbn [handler] in Hw2. rewrite Hw2 in H. exact H.
Qed.

(** X17.  Every run of the graph, from any run-state, ends normally
    after one, two or three stages; it never reaches the engine's bound
    on the number of stages and never executes both the gather-info and
    the worker-execution stage.  It ends after the analysis stage with
    error_message set, or after gather-info with current_phase
    "gathering_info", or after worker execution and synthesis with
    current_phase "completed" and no error_message. *)
Theorem graph_run_shape (w : world) :
  exists visited w',
    graph_ainvoke env dispatch w = (Ok visited, w')
    /\ 1 <= length visited <= 3
    /\ ~ (In GatherInfo visited /\ In ExecuteWorkers visited)
    /\ ((visited = [AnalyzeQuery] /\ is_set (error_message (sys w')) = true)
        \/ (visited = [AnalyzeQuery; GatherInfo]
            /\ current_phase (sys w') = "gathering_info")
        \/ (visited = [AnalyzeQuery; ExecuteWorkers; SynthesizeResults]
            /\ current_phase (sys w') = "completed"
            /\ is_set (error_message (sys w')) = false)).
Proof.
  destruct (graph_ainvoke_outcome w) as (visited & w' & Hrun & Hcases).
  exists visited, w'. split; [exact Hrun|].
  assert (Hshape : visited = [AnalyzeQuery] \/ visited = [AnalyzeQuery; GatherInfo]
                   \/ visited = [AnalyzeQuery; ExecuteWorkers; SynthesizeResults])
    by (destruct Hcases as [(Hv & _)|[(Hv & _)|(Hv & _)]]; auto).
  split; [|split; [|exact Hcases]].
  - destruct Hshape as [-> | [-> | ->]]; cbn; lia.
  - intros [Hg He].
    destruct Hshape as [-> | [-> | ->]]; cbn in Hg, He;
      repeat match goal with
             | H : _ \/ _ |- _ => destruct H
             | H : _ = _ |- _ => discriminate H
             | H : False |- _ => destruct H
             end.
Qed.

End WholeRun.

Lemma non_object_analysis_is_fatal_witness :
  user_query (sys (Examples.start "Research quantum computing"))
  = Some "Research quantum computing"
  /\ json_loads answers_with_list "analysis: a list"
     = Some (VList [VStr "research"; VStr "write"])
  /\ exists w',
       Linked.graph_ainvoke answers_with_list (Examples.start "Research quantum computing")
       = (Ok [AnalyzeQuery], w')
       /\ error_message (sys w') = Some "Error in supervisor analysis: AttributeError".
Proof.
  split; [reflexivity|]. split; [reflexivity|].
  destruct (non_object_analysis_is_fatal answers_with_list
              (execute_worker_task answers_with_list)
              (Examples.start "Research quantum computing")
              "Research quantum computing" "analysis: a list"
              (VList [VStr "research"; VStr "write"]) eq_refl eq_refl eq_refl)
    as (_ & Hrun); [discriminate|].
  eexists. split; [exact Hrun | reflexivity].
Defined.

Section RunInvariants.
Variable env : Env.
Variable dispatch : pyval -> pyval -> sdict pyval -> Coll string.

Notation capped :=
  (fun s : SystemState => length (conversation_history (supervisor_memory s)) <= 10).

Ltac keeps_cap :=
  repeat first
    [ apply record_task_preserves; intros ? ? H; exact H
    | preserves_step
    | apply preserves_modify_sys; intros ? ?;
      first [ apply history_update_memory_capped | assumption ] ].

Lemma coordinate_assignment_capped (a : pyval) :
  preserves (on_world (on_sys capped)) (coordinate_assignment env dispatch a).
Proof.
  unfold coordinate_assignment, set_result, worker_is_busy. keeps_cap.
Qed.

Lemma handler_capped (n : node) : preserves (on_sys capped) (handler env dispatch n).
Proof.
  destruct n; cbn [handler];
    unfold _supervisor_analysis_node, _gather_info_node, _execute_workers_node,
      _synthesize_results_node, coordinate_workers, fail_with;
    repeat first [ apply coordinate_assignment_capped | keeps_cap ].
Qed.

(** X19.  In every state met during a run of [process_query] the
    conversation history holds at most ten messages: each stage appends
    through [update_memory] only, and the coordinator and the
    initialisation only touch the worker states. *)
Theorem history_stays_within_cap (globals : list string) (q : string) (k0 : nat) (w : world) :
  reachable env dispatch globals q k0 w ->
  length (conversation_history (supervisor_memory (sys w))) <= 10.
Proof.
  induction 1 as [|worker_id w _ IH|n w _ IH|a w r _ IH].
  - cbn. lia.
  - revert IH. generalize w. change (preserves (on_sys capped)
                                       (init_worker_state globals worker_id)).
    unfold init_worker_state. keeps_cap.
  - exact (handler_capped n w IH).
  - exact (coordinate_assignment_capped a (w, r) IH).
Qed.

(** X20.  When the run-state holds a query, the analysis stage records
    it whatever the chat model does, even when the stage itself fails:
    afterwards the history ends with the user's message, the query is
    found under "last_user_input", the analysis value is stored under
    "last_analysis", and exactly one call was made.  When the run-state
    holds no query, the stage only sets error_message and calls
    nothing. *)
Theorem analysis_stage_records_query (w : world) :
  (forall q,
      user_query (sys w) = Some q ->
      exists a w',
        analyze_user_query env (Some q) (update_memory (user_message q) (sys w)) (calls w)
        = (Ok a, S (calls w))
        /\ _supervisor_analysis_node env w = (Ok tt, w')
        /\ calls w' = S (calls w)
        /\ ends_with (conversation_history (supervisor_memory (sys w'))) [user_message q]
        /\ context_get (sys w') "last_user_input" VNone = VStr q
        /\ context_get (sys w') "last_analysis" VNone = a)
  /\ (user_query (sys w) = None ->
      _supervisor_analysis_node env w
      = (Ok tt,
         {| sys := set_error_message
                     (Some ("Error in supervisor analysis: "
                            ++ exn_str env (ValidationError "Message" "content" VNone))%string)
                     (sys w);
            calls := calls w |})).
Proof.
  split.
  - intros q Hq.
    destruct (analyze_user_query_returns env (Some q)
                (update_memory (user_message q) (sys w)) (calls w)) as (a & Ha).
    exists a.
    assert (Hhist : forall s,
               conversation_history (supervisor_memory s)
               = conversation_history
                   (supervisor_memory (state_update_context "last_analysis" a
                                         (update_memory (user_message q) (sys w)))) ->
               ends_with (conversation_history (supervisor_memory s)) [user_message q]).
    { intros s ->. cbn [supervisor_memory state_update_context set_supervisor_memory
                          update_context conversation_history set_context_gathered].
      rewrite history_update_memory, add_message_history.
      eexists. apply skipn_app_snoc. rewrite length_app. cbn [length]. lia. }
    assert (Hctx : forall s,
               context_gathered (supervisor_memory s)
               = context_gathered
                   (supervisor_memory (state_update_context "last_analysis" a
                                         (update_memory (user_message q) (sys w)))) ->
               context_get s "last_user_input" VNone = VStr q
               /\ context_get s "last_analysis" VNone = a).
    { intros s Hs. unfold context_get at 1 2. rewrite Hs.
      fold (context_get (state_update_context "last_analysis" a
                           (update_memory (user_message q) (sys w)))
                        "last_user_input" VNone).
      fold (context_get (state_update_context "last_analysis" a
                           (update_memory (user_message q) (sys w)))
                        "last_analysis" VNone).
      rewrite context_get_update_other by discriminate.
      rewrite context_get_update_same. split; [|reflexivity].
      unfold update_memory, user_message. cbn [message_type content].
      apply context_get_update_same. }
    unfold _supervisor_analysis_node, try_except, bind, ret, of_res,
      get_sys, modify_sys, lift_coll, fail_with.
    cbn [fst snd sys calls]. rewrite Hq. cbn [new_message].
    unfold user_message in Ha. rewrite user_query_update_memory, Hq, Ha.
    fold (user_message q) in *.
    destruct (py_get a "has_sufficient_info" (VBool false)) as [flag|e];
      [destruct (truthy flag)|];
      (eexists; split; [exact Ha|]; split; [reflexivity|]; split; [reflexivity|];
       cbn [sys]; split; [apply Hhist; reflexivity | apply Hctx; reflexivity]).
  - intros Hq.
    unfold _supervisor_analysis_node, try_except, bind, ret, of_res,
      get_sys, modify_sys, lift_coll, fail_with.
    cbn [fst snd sys calls]. rewrite Hq. reflexivity.
Qed.

End RunInvariants.

Lemma history_stays_within_cap_witness :
  reachable Examples.smooth (execute_worker_task Examples.smooth) workflow_globals
            "Research quantum computing" 0
            (snd (handler Examples.smooth (execute_worker_task Examples.smooth) AnalyzeQuery
                    {| sys := new_system_state (Some "Research quantum computing");
                       calls := 0 |}))
  /\ length (conversation_history
               (supervisor_memory
                  (sys (snd (handler Examples.smooth (execute_worker_task Examples.smooth)
                               AnalyzeQuery
                               {| sys := new_system_state (Some "Research quantum computing");
                                  calls := 0 |}))))) <= 10.
Proof.
  assert (H : reachable Examples.smooth (execute_worker_task Examples.smooth)
                workflow_globals "Research quantum computing" 0
                (snd (handler Examples.smooth (execute_worker_task Examples.smooth)
                        AnalyzeQuery
                        {| sys := new_system_state (Some "Research quantum computing");
                           calls := 0 |})))
    by (apply reach_stage, reach_start).
  split; [exact H|].
  exact (history_stays_within_cap Examples.smooth (execute_worker_task Examples.smooth)
           workflow_globals "Research quantum computing" 0 _ H).
Defined.

Lemma analysis_stage_records_query_witness :
  user_query (sys (Examples.start "Help me write something"))
  = Some "Help me write something"
  /\ exists w',
       _supervisor_analysis_node Examples.offline (Examples.start "Help me write something")
       = (Ok tt, w')
       /\ context_get (sys w') "last_user_input" VNone = VStr "Help me write something".
Proof.
  split; [reflexivity|].
  destruct (analysis_stage_records_query Examples.offline
              (Examples.start "Help me write something")) as (H & _).
  destruct (H "Help me write something" eq_refl) as (a & w' & _ & Hnode & _ & _ & Hctx & _).
  exists w'. split; assumption.
Defined.
